(** * Ocean Sentinel: the environmental threat scoring engine

  A shallow embedding of the analytic core of the backend
  ([backend/app/ml_models]): the feature preprocessor
  ([data_preprocessing.py]), the anomaly scorer ([anomaly_detection.py]),
  the short-horizon predictor ([prediction_models.py]) and the threat
  classifier ([threat_detection.py]).

  Conventions of the embedding.
  - A Python [float] is a rational [Q]; a cell that may be missing
    ([NaN]) is an [option Q].  Arithmetic is exact.
  - A pandas [Series] is a list of cells, a [DataFrame] is the list of
    its named columns, in column order.
  - Fitted scikit-learn estimators are not programs of this repository:
    they enter as the values they return (or as [None] when the call
    raises and the caller's [except] drops the vote).
  - Log lines, wall-clock timings and the generated English descriptions
    are left out of the result records. *)

From Stdlib Require Import ZArith QArith Qround Qabs Qminmax.
From Stdlib Require Import List String Ascii Bool Lia Lqa.
From Stdlib Require Import Permutation Sorted.
Import ListNotations.

Open Scope Q_scope.

(* ================================================================== *)
(** * Numbers as Python and numpy compute them                         *)
(* ================================================================== *)

Module Num.

(** [x < y] as a boolean. *)
Definition Qlt_bool (x y : Q) : bool := negb (Qle_bool y x).

(** Python's [int(x)] on a float: truncation toward zero. *)
Definition py_int (x : Q) : Z :=
  if Qle_bool 0 x then Qfloor x else Qceiling x.

(** Python's one-argument [round(x)]: the nearest integer, ties going to
    the even neighbour. *)
Definition py_round (x : Q) : Z :=
  let f := Qfloor x in
  match Qcompare (x - inject_Z f) (1 # 2) with
  | Lt => f
  | Gt => (f + 1)%Z
  | Eq => if Z.even f then f else (f + 1)%Z
  end.

(** [round(x, 4)]. *)
Definition round4 (x : Q) : Q :=
  inject_Z (py_round (x * 10000)) / 10000.

(** [sum(l)]. *)
Fixpoint Qsum (l : list Q) : Q :=
  match l with
  | [] => 0
  | x :: t => x + Qsum t
  end.

(** [len(l)] as a rational. *)
Definition Qlen {A : Type} (l : list A) : Q :=
  inject_Z (Z.of_nat (List.length l)).

(** [np.mean(l)] on a non-empty list (every caller guards the empty
    one). *)
Definition np_mean (l : list Q) : Q := Qsum l / Qlen l.

(** Ascending sort, as [np.sort] and the order statistics behind
    [quantile] use it. *)
Fixpoint insert (x : Q) (l : list Q) : list Q :=
  match l with
  | [] => [x]
  | y :: t => if Qle_bool x y then x :: y :: t else y :: insert x t
  end.

Fixpoint sort (l : list Q) : list Q :=
  match l with
  | [] => []
  | x :: t => insert x (sort t)
  end.

(** [Series.quantile(q)] / [np.percentile] with the default linear
    interpolation: position [q * (n - 1)] in the sorted values, the two
    neighbouring order statistics blended by the fractional part. *)
Definition quantile (q : Q) (l : list Q) : Q :=
  let s := sort l in
  let n := Z.of_nat (List.length l) in
  let pos := q * inject_Z (n - 1) in
  let lo := Qfloor pos in
  let hi := Z.min (lo + 1) (n - 1) in
  let frac := pos - inject_Z lo in
  let a := nth (Z.to_nat lo) s 0 in
  let b := nth (Z.to_nat hi) s 0 in
  a + frac * (b - a).

(** Population variance ([ddof = 0]), the square of the deviation
    [scipy.stats.zscore] divides by. *)
Definition pvariance (l : list Q) : Q :=
  let m := np_mean l in
  Qsum (map (fun x => (x - m) * (x - m)) l) / Qlen l.

(** [np.abs(stats.zscore(l)) > k] at the element [x], decided without the
    square root: [|x - m| / sd > k] iff [sd > 0] and
    [(x - m)^2 > k^2 * sd^2].  With [sd = 0] scipy yields [NaN], and
    [NaN > k] is false. *)
Definition zscore_exceeds (k : Q) (l : list Q) (x : Q) : bool :=
  let m := np_mean l in
  let v := pvariance l in
  Qlt_bool 0 v && Qlt_bool (k * k * v) ((x - m) * (x - m)).

(** [sum(1 for x in l if p(x))], the [np.sum] of a boolean mask. *)
Fixpoint count (p : Q -> bool) (l : list Q) : nat :=
  match l with
  | [] => O
  | x :: t => if p x then S (count p t) else count p t
  end.

End Num.

(* ================================================================== *)
(** * Series and data frames                                           *)
(* ================================================================== *)

Module Frame.

Definition Series := list (option Q).
Definition DataFrame := list (string * Series).

(** [df.columns]. *)
Definition columns (df : DataFrame) : list string := map fst df.

(** [name in df.columns]. *)
Definition has_column (name : string) (df : DataFrame) : bool :=
  existsb (String.eqb name) (columns df).

(** A Python dict with string keys, in insertion order; [lookup] is
    [d.get(k)], [None] standing for the [KeyError] of [d[k]]. *)
Fixpoint lookup {A : Type} (k : string) (d : list (string * A)) : option A :=
  match d with
  | [] => None
  | (k', v) :: t => if String.eqb k k' then Some v else lookup k t
  end.

(** [df[name]], the first column of that name. *)
Definition get_column (name : string) (df : DataFrame) : option Series :=
  lookup name df.

(** [len(df)]: the number of rows. *)
Definition nrows (df : DataFrame) : nat :=
  match df with
  | [] => O
  | (_, s) :: _ => List.length s
  end.

(** [df.empty]: no column or no row. *)
Definition empty (df : DataFrame) : bool :=
  match df with
  | [] => true
  | _ => Nat.eqb (nrows df) 0
  end.

(** [s.dropna()]. *)
Fixpoint dropna (s : Series) : list Q :=
  match s with
  | [] => []
  | Some x :: t => x :: dropna t
  | None :: t => dropna t
  end.

(** [s.fillna(v)]. *)
Definition fillna (v : Q) (s : Series) : Series :=
  map (fun c => match c with Some x => Some x | None => Some v end) s.

(** [df[names]]: the named columns, in the order asked for. *)
Fixpoint select (names : list string) (df : DataFrame) : DataFrame :=
  match names with
  | [] => []
  | n :: t =>
      match get_column n df with
      | Some s => (n, s) :: select t df
      | None => select t df
      end
  end.

(** A row as [iloc] returns it: a [Series] indexed by column name. *)
Definition Row := list (string * Q).

(** [row.get(name, default)]. *)
Fixpoint row_get (name : string) (default : Q) (r : Row) : Q :=
  match r with
  | [] => default
  | (c, x) :: t => if String.eqb name c then x else row_get name default t
  end.

(** [name in row]. *)
Definition row_has (name : string) (r : Row) : bool :=
  existsb (fun cx => String.eqb name (fst cx)) r.

(** A frame without missing cells, as [df.fillna(v)] returns it. *)
Definition Table := list (string * list Q).

Definition fill_cell (v : Q) (c : option Q) : Q :=
  match c with
  | Some x => x
  | None => v
  end.

(** [df.fillna(v)]. *)
Definition fillna_frame (v : Q) (df : DataFrame) : Table :=
  map (fun cs => (fst cs, map (fill_cell v) (snd cs))) df.

(** [len(t)] and [t.empty] on a filled frame. *)
Definition table_rows (t : Table) : nat :=
  match t with
  | [] => O
  | (_, s) :: _ => List.length s
  end.

Definition table_empty (t : Table) : bool :=
  match t with
  | [] => true
  | _ => Nat.eqb (table_rows t) 0
  end.

(** [t.iloc[-1] if not t.empty else pd.Series()]: the latest row, indexed
    by column name. *)
Definition latest_row (t : Table) : Row :=
  if table_empty t then []
  else map (fun cs => (fst cs, last (snd cs) 0)) t.

End Frame.

(* ================================================================== *)
(** * data_preprocessing.py: DataPreprocessor                          *)
(* ================================================================== *)

Module DataPreprocessor.
Import Num Frame.

(** Valid ranges of the environmental parameters. *)
Definition parameter_ranges : list (string * (Q * Q)) :=
  [ ("temperature"%string, (-50, 60));
    ("water_temperature"%string, (-5, 40));
    ("humidity"%string, (0, 100));
    ("pressure"%string, (900, 1100));
    ("wind_speed"%string, (0, 200));
    ("wind_direction"%string, (0, 360));
    ("visibility"%string, (0, 50));
    ("wave_height"%string, (0, 30));
    ("tide_level"%string, (-5, 5));
    ("salinity"%string, (0, 45));
    ("pm25"%string, (0, 500));
    ("pm10"%string, (0, 1000));
    ("ozone"%string, (0, 300));
    ("nitrogen_dioxide"%string, (0, 200));
    ("sulfur_dioxide"%string, (0, 100));
    ("carbon_monoxide"%string, (0, 50)) ].

(** The EPA table of [_calculate_aqi_pm25]:
    [(bp_lo, bp_hi, aqi_lo, aqi_hi)]. *)
Definition pm25_breakpoints : list (Q * Q * Q * Q) :=
  [ (0, 12, 0, 50);
    (121 # 10, 354 # 10, 51, 100);
    (355 # 10, 554 # 10, 101, 150);
    (555 # 10, 1504 # 10, 151, 200);
    (1505 # 10, 2504 # 10, 201, 300);
    (2505 # 10, 3504 # 10, 301, 400) ].

(** The loop of [pm25_to_aqi]: the first tier that contains the value
    interpolates; when none does the value is hazardous. *)
Fixpoint aqi_from (bps : list (Q * Q * Q * Q)) (c : Q) : Z :=
  match bps with
  | [] => 500%Z
  | (bp_lo, bp_hi, aqi_lo, aqi_hi) :: rest =>
      if Qle_bool bp_lo c && Qle_bool c bp_hi
      then py_round (((aqi_hi - aqi_lo) / (bp_hi - bp_lo)) * (c - bp_lo) + aqi_lo)
      else aqi_from rest c
  end.

(** [pm25_to_aqi] on a value that is not [NaN]. *)
Definition pm25_to_aqi (pm25 : Q) : Z := aqi_from pm25_breakpoints pm25.

(** [_calculate_aqi_pm25]: the function applied cell by cell, [NaN]
    staying [NaN]. *)
Definition _calculate_aqi_pm25 (pm25_values : Series) : Series :=
  map (option_map (fun x => inject_Z (pm25_to_aqi x))) pm25_values.

(** [_calculate_aqi_pm10]. *)
Definition pm10_breakpoints : list (Q * Q * Q * Q) :=
  [ (0, 54, 0, 50);
    (55, 154, 51, 100);
    (155, 254, 101, 150);
    (255, 354, 151, 200);
    (355, 424, 201, 300);
    (425, 504, 301, 400) ].

Definition pm10_to_aqi (pm10 : Q) : Z := aqi_from pm10_breakpoints pm10.

Definition _calculate_aqi_pm10 (pm10_values : Series) : Series :=
  map (option_map (fun x => inject_Z (pm10_to_aqi x))) pm10_values.

(** Synonyms of the canonical parameter names. *)
Definition parameter_mappings : list (string * string) :=
  [ ("temp", "temperature"); ("air_temp", "temperature");
    ("water_temp", "water_temperature"); ("sea_temp", "water_temperature");
    ("rh", "humidity"); ("relative_humidity", "humidity");
    ("wspd", "wind_speed"); ("wind", "wind_speed");
    ("wdir", "wind_direction"); ("pres", "pressure");
    ("atm_pressure", "pressure"); ("vis", "visibility");
    ("wave", "wave_height"); ("tide", "tide_level"); ("sal", "salinity");
    ("o3", "ozone"); ("no2", "nitrogen_dioxide"); ("so2", "sulfur_dioxide");
    ("co", "carbon_monoxide") ]%string.

(** [str.lower], [str.strip] and [str.replace] on ASCII names. *)
Definition lower_char (c : ascii) : ascii :=
  let n := nat_of_ascii c in
  if ((65 <=? n) && (n <=? 90))%nat then ascii_of_nat (n + 32) else c.

Definition is_space (c : ascii) : bool :=
  let n := nat_of_ascii c in
  ((9 <=? n) && (n <=? 13) || (28 <=? n) && (n <=? 32))%nat.

Fixpoint drop_while (p : ascii -> bool) (l : list ascii) : list ascii :=
  match l with
  | [] => []
  | c :: t => if p c then drop_while p t else l
  end.

(** [s.strip(chars)]. *)
Definition strip_chars (p : ascii -> bool) (l : list ascii) : list ascii :=
  rev (drop_while p (rev (drop_while p l))).

Definition is_underscore (c : ascii) : bool := Ascii.eqb c "_".

Definition to_underscore (c : ascii) : ascii :=
  if Ascii.eqb c " " || Ascii.eqb c "-" || Ascii.eqb c "." then "_"%char else c.

(** One [s.replace('__', '_')]: left to right, without overlap. *)
Fixpoint replace_pairs (l : list ascii) : list ascii :=
  match l with
  | a :: ((b :: t) as rest) =>
      if is_underscore a && is_underscore b
      then "_"%char :: replace_pairs t
      else a :: replace_pairs rest
  | _ => l
  end.

Fixpoint has_pair (l : list ascii) : bool :=
  match l with
  | a :: ((b :: _) as rest) =>
      is_underscore a && is_underscore b || has_pair rest
  | _ => false
  end.

(** [while '__' in s: s = s.replace('__', '_')]; every turn shortens the
    name, so its length bounds the number of turns. *)
Fixpoint collapse (fuel : nat) (l : list ascii) : list ascii :=
  match fuel with
  | O => l
  | S fuel' => if has_pair l then collapse fuel' (replace_pairs l) else l
  end.

(** [_standardize_column_name]. *)
Definition _standardize_column_name (column_name : string) : string :=
  let lowered := map lower_char (list_ascii_of_string column_name) in
  let stripped := strip_chars is_space lowered in
  let replaced := map to_underscore stripped in
  let collapsed := collapse (List.length replaced) replaced in
  string_of_list_ascii (strip_chars is_underscore collapsed).

(** The name a column ends with in [_clean_and_standardize]. *)
Definition canonical_name (column_name : string) : string :=
  let standardized := _standardize_column_name column_name in
  match lookup standardized parameter_mappings with
  | Some name => name
  | None => standardized
  end.

Definition is_missing (c : option Q) : bool :=
  match c with
  | Some _ => false
  | None => true
  end.

(** Values outside the valid range of the parameter become missing. *)
Definition range_filter (name : string) (cells : Series) : Series :=
  match lookup name parameter_ranges with
  | Some (min_val, max_val) =>
      map (fun c =>
             match c with
             | Some x =>
                 if Qlt_bool x min_val || Qlt_bool max_val x
                 then None else Some x
             | None => None
             end) cells
  | None => cells
  end.

(** [_clean_and_standardize] on a wide frame of numeric readings: names
    made canonical, columns without a single value dropped, out-of-range
    values turned into missing ones.

    Not modelled, and excluded by [Shape.wide_numeric] where a property
    depends on it: the pivot of a long-format frame ([data_type] and
    [value] columns), the conversion of [timestamp], [created_at] and
    [updated_at] to datetimes, and the [except] branch taken when two
    columns get one canonical name ([pd.to_numeric] raises on the pair,
    and the frame is returned as it stands). *)
Definition _clean_and_standardize (df : DataFrame) : DataFrame :=
  let renamed := map (fun cs => (canonical_name (fst cs), snd cs)) df in
  let kept := filter (fun cs => negb (forallb is_missing (snd cs))) renamed in
  map (fun cs => (fst cs, range_filter (fst cs) (snd cs))) kept.

(** [fillna(method='ffill')] and [fillna(method='bfill')]. *)
Fixpoint ffill (previous : option Q) (cells : Series) : Series :=
  match cells with
  | [] => []
  | Some x :: t => Some x :: ffill (Some x) t
  | None :: t => previous :: ffill previous t
  end.

Definition bfill (cells : Series) : Series := rev (ffill None (rev cells)).

(** [_handle_missing_values] with the configured strategy
    ['interpolation'] on a frame without a [timestamp] column: forward
    then backward fill of the columns that miss values, then zeros for
    what is still missing. *)
Definition _handle_missing_values (df : DataFrame) : DataFrame :=
  if forallb (fun cs => negb (existsb is_missing (snd cs))) df then df
  else
    let filled :=
      map (fun cs =>
             if existsb is_missing (snd cs)
             then (fst cs, bfill (ffill None (snd cs)))
             else cs) df in
    if forallb (fun cs => negb (existsb is_missing (snd cs))) filled
    then filled
    else map (fun cs => (fst cs, fillna 0 (snd cs))) filled.

(** The two outlier tests of [_handle_outliers] at one cell. *)
Definition outlier_cell (values : list Q) (c : option Q) : bool :=
  match c with
  | Some x =>
      let Q1 := quantile (1 # 4) values in
      let Q3 := quantile (3 # 4) values in
      let IQR := Q3 - Q1 in
      Qlt_bool x (Q1 - (15 # 10) * IQR) || Qlt_bool (Q3 + (15 # 10) * IQR) x
      || zscore_exceeds 3 values x
  | None => false
  end.

(** [Series.clip(lower, upper)]. *)
Definition clip (lower upper : Q) (c : option Q) : option Q :=
  match c with
  | Some x =>
      if Qlt_bool x lower then Some lower
      else if Qlt_bool upper x then Some upper
      else Some x
  | None => None
  end.

(** One column of [_handle_outliers]: nothing below ten values or without
    outliers; the 5th/95th percentile caps when more than
    [outlier_ratio = 0.1] of the rows are outliers; the median in their
    place otherwise. *)
Definition handle_column_outliers (cells : Series) : Series :=
  let values := dropna cells in
  if (List.length values <? 10)%nat then cells
  else
    let outlier_count := List.length (filter (outlier_cell values) cells) in
    if (outlier_count =? 0)%nat then cells
    else if Qlt_bool (1 # 10)
              (inject_Z (Z.of_nat outlier_count) / Qlen cells)
    then map (clip (quantile (5 # 100) values) (quantile (95 # 100) values))
           cells
    else
      map (fun c =>
             if outlier_cell values c
             then Some (quantile (1 # 2) values) else c) cells.

Definition _handle_outliers (df : DataFrame) : DataFrame :=
  map (fun cs => (fst cs, handle_column_outliers (snd cs))) df.

(** [df[name] = cells]: in place when the column exists, appended
    otherwise. *)
Fixpoint assign (name : string) (cells : Series) (df : DataFrame)
  : DataFrame :=
  match df with
  | [] => [(name, cells)]
  | (c, s) :: t =>
      if String.eqb name c then (c, cells) :: t
      else (c, s) :: assign name cells t
  end.

(** Cell-wise arithmetic of two aligned columns; a missing operand gives a
    missing result. *)
Definition zip_cells (f : Q -> Q -> Q) (a b : Series) : Series :=
  map (fun ab =>
         match fst ab, snd ab with
         | Some x, Some y => Some (f x y)
         | _, _ => None
         end) (combine a b).

(** [RobustScaler().fit_transform] on one column: centred on the median,
    divided by the interquartile range, a zero range counting as 1;
    missing cells are ignored by the fit and stay missing. *)
Definition robust_scale (cells : Series) : Series :=
  let values := dropna cells in
  let center := quantile (1 # 2) values in
  let iqr := quantile (3 # 4) values - quantile (1 # 4) values in
  let scale := if Qeq_bool iqr 0 then 1 else iqr in
  map (option_map (fun x => (x - center) / scale)) cells.

(** [_scale_features] with the configured ['robust_scaler']. *)
Definition _scale_features (df : DataFrame) : DataFrame :=
  map (fun cs => (fst cs, robust_scale (snd cs))) df.

Section Trigonometry.

(** [np.sin(np.radians(d))] and [np.cos(np.radians(d))]. *)
Variable sin_degrees : Q -> Q.
Variable cos_degrees : Q -> Q.

(** One derived feature: computed when both inputs are present. *)
Definition derive2 (a b target : string) (f : Q -> Q -> Q) (df : DataFrame)
  : DataFrame :=
  match get_column a df, get_column b df with
  | Some sa, Some sb => assign target (zip_cells f sa sb) df
  | _, _ => df
  end.

Definition derive1 (a target : string) (f : Series -> Series)
  (df : DataFrame) : DataFrame :=
  match get_column a df with
  | Some sa => assign target (f sa) df
  | None => df
  end.

(** [_engineer_features] on a frame without a [timestamp] column. *)
Definition _engineer_features (df : DataFrame) : DataFrame :=
  let df1 :=
    derive2 "temperature" "humidity" "heat_index"
      (fun t h => t + (33 # 100) * h - (7 # 10)) df in
  let df2 :=
    match get_column "wind_speed" df1, get_column "wind_direction" df1 with
    | Some ws, Some wd =>
        let with_u :=
          assign "wind_u"
            (zip_cells (fun w d => - w * sin_degrees d) ws wd) df1 in
        assign "wind_v"
          (zip_cells (fun w d => - w * cos_degrees d) ws wd) with_u
    | _, _ => df1
    end in
  let df3 :=
    derive2 "temperature" "pressure" "density_altitude"
      (fun t p => t - (p - (101325 # 100)) / (36 # 10)) df2 in
  let df4 := derive1 "pm25" "aqi_pm25" _calculate_aqi_pm25 df3 in
  let df5 := derive1 "pm10" "aqi_pm10" _calculate_aqi_pm10 df4 in
  derive2 "wave_height" "wind_speed" "wave_energy"
    (fun h w => h * h * w) df5.

(** [prepare_features] from the frame [pd.DataFrame(raw_data)], without a
    target variable (its default), so that no feature selection runs.

    The embedding covers frames of numeric readings: no [timestamp],
    [created_at] or [updated_at] column (pandas turns those into
    datetimes), no long-format pair [data_type]/[value] (pivoted), and
    canonical names that do not collide. *)
Definition prepare_features (df : DataFrame) : DataFrame :=
  if empty df then []
  else
    _scale_features
      (_engineer_features
         (_handle_outliers
            (_handle_missing_values (_clean_and_standardize df)))).

End Trigonometry.

End DataPreprocessor.

(* ================================================================== *)
(** * ml_models/__init__.py: the package tables                        *)
(* ================================================================== *)

Module MlPackage.
Import Num Frame.

Definition THREAT_TYPE_MAPPING : list (Z * string) :=
  [ (0, "storm"); (1, "pollution"); (2, "erosion"); (3, "algal_bloom");
    (4, "illegal_dumping"); (5, "tsunami"); (6, "oil_spill");
    (7, "anomaly") ]%Z%string.

(** [{v: k for k, v in THREAT_TYPE_MAPPING.items()}]. *)
Definition REVERSE_THREAT_MAPPING : list (string * Z) :=
  map (fun kv => (snd kv, fst kv)) THREAT_TYPE_MAPPING.

(** [d.get(k)] on a dict with integer keys. *)
Fixpoint zlookup {A : Type} (k : Z) (d : list (Z * A)) : option A :=
  match d with
  | [] => None
  | (k', v) :: t => if Z.eqb k k' then Some v else zlookup k t
  end.

(** [str.lower] on an ASCII string. *)
Definition lower (s : string) : string :=
  string_of_list_ascii
    (map DataPreprocessor.lower_char (list_ascii_of_string s)).

(** [get_threat_id]: the numeric identifier, 7 (anomaly) by default. *)
Definition get_threat_id (threat_name : string) : Z :=
  match lookup (lower threat_name) REVERSE_THREAT_MAPPING with
  | Some id => id
  | None => 7%Z
  end.

(** [get_threat_name]: the name, ["anomaly"] by default. *)
Definition get_threat_name (threat_id : Z) : string :=
  match zlookup threat_id THREAT_TYPE_MAPPING with
  | Some name => name
  | None => "anomaly"%string
  end.

(** [metrics.get(key, 0)]. *)
Definition metric (key : string) (metrics : list (string * Q)) : Q :=
  match lookup key metrics with
  | Some v => v
  | None => 0
  end.

(** [validate_model_performance] with the targets accuracy 0.90 (0.80 for
    anomaly detection), precision 0.85 and recall 0.88. *)
Definition validate_model_performance (metrics : list (string * Q))
  (model_type : string) : bool :=
  let accuracy_threshold :=
    if String.eqb model_type "anomaly_detection" then 80 # 100
    else 90 # 100 in
  Qle_bool accuracy_threshold (metric "accuracy" metrics)
  && Qle_bool (85 # 100) (metric "precision" metrics)
  && Qle_bool (88 # 100) (metric "recall" metrics).

End MlPackage.

(* ================================================================== *)
(** * threat_detection.py: ThreatDetectionEngine                       *)
(* ================================================================== *)

Module ThreatDetectionEngine.
Import Num Frame.

(** A fitted scaler: [transform] returns the scaled matrix, or raises. *)
Definition Scaler := Table -> option (list (list Q)).

(** A member of a category's ensemble: its name and [predict_proba], which
    returns one row of class probabilities per input row, or raises. *)
Record Classifier := {
  clf_name : string;
  predict_proba : list (list Q) -> option (list (list Q))
}.

(** The mutable fields of the engine. *)
Record Engine := {
  models : list (string * list Classifier);
  scalers : list (string * Scaler);
  feature_columns : list (string * list string);
  is_trained : list (string * bool)
}.

Definition confidence_thresholds : list (string * Q) :=
  [ ("storm"%string, 80 # 100);
    ("pollution"%string, 75 # 100);
    ("erosion"%string, 70 # 100);
    ("algal_bloom"%string, 80 # 100);
    ("illegal_dumping"%string, 85 # 100) ].

Definition threat_features : list (string * list string) :=
  [ ("storm", ["wind_speed"; "pressure"; "temperature"; "humidity";
               "visibility"; "wind_direction"]);
    ("pollution", ["pm25"; "pm10"; "ozone"; "wind_speed"; "temperature";
                   "humidity"]);
    ("erosion", ["wave_height"; "tide_level"; "wind_speed"; "precipitation";
                 "temperature"]);
    ("algal_bloom", ["water_temperature"; "salinity"; "visibility";
                     "wave_height"; "tide_level"]);
    ("illegal_dumping", ["visibility"; "wind_speed"; "wave_height";
                         "water_temperature"]) ]%string.

(** The engine after [initialize_models]: one untrained ensemble per
    configured category.  The four estimators (random forest, gradient
    boosting, SVM, MLP) are unfitted, so [predict_proba] raises. *)
Definition unfitted (name : string) : Classifier :=
  {| clf_name := name; predict_proba := fun _ => None |}.

Definition initial_ensemble : list Classifier :=
  [ unfitted "rf"; unfitted "gb"; unfitted "svm"; unfitted "mlp" ].

Definition configured_types : list string :=
  [ "storm"; "pollution"; "erosion"; "algal_bloom"; "illegal_dumping" ]%string.

Definition initialized : Engine :=
  {| models := map (fun t => (t, initial_ensemble)) configured_types;
     scalers := map (fun t => (t, (fun _ => None) : Scaler)) configured_types;
     feature_columns :=
       map (fun t => (t, match lookup t threat_features with
                         | Some f => f
                         | None => []
                         end)) configured_types;
     is_trained := map (fun t => (t, false)) configured_types |}.

Record ThreatDetectionResult := {
  threat_type : string;
  confidence : Q;
  severity : Z;
  detected : bool;
  features_used : list string;
  ensemble_confidence : Q;       (* model_scores['ensemble_confidence'] *)
  feature_count : nat;           (* model_scores['feature_count'] *)
  detection_method : string;     (* metadata['detection_method'] *)
  threshold_used : Q             (* metadata['threshold_used'] *)
}.

(** [max(1, min(5, n))]. *)
Definition clamp_1_5 (n : Z) : Z := Z.max 1 (Z.min 5 n).

(** [np.max(row)] of a non-empty row. *)
Definition np_max (x : Q) (rest : list Q) : Q := fold_left Qmax rest x.

(** The body of the [try] inside the ensemble loop: the confidence one
    model contributes, [None] when the body raises (no row to index, or no
    class column). *)
Definition model_confidence (pred_proba : list (list Q)) : option Q :=
  match pred_proba with
  | [] => None
  | row :: _ =>
      match row with
      | [] => None
      | p :: rest =>
          if (1 <? List.length row)%nat then Some (np_max p rest) else Some p
      end
  end.

(** The ensemble loop: the confidences of the models that answered, in
    ensemble order. *)
Fixpoint collect_confidences (ms : list Classifier) (X_scaled : list (list Q))
  : list Q :=
  match ms with
  | [] => []
  | m :: rest =>
      match predict_proba m X_scaled with
      | Some pp =>
          match model_confidence pp with
          | Some c => c :: collect_confidences rest X_scaled
          | None => collect_confidences rest X_scaled
          end
      | None => collect_confidences rest X_scaled
      end
  end.

(** [_predict_with_ensemble].  A missing scaler or ensemble, or a raising
    [transform], lands in the outer [except] and yields [(0.0, 1)]. *)
Definition _predict_with_ensemble (e : Engine) (threat : string)
  (feature_data : Table) : Q * Z :=
  match lookup threat (scalers e) with
  | None => (0, 1%Z)
  | Some transform =>
      match transform feature_data with
      | None => (0, 1%Z)
      | Some X_scaled =>
          match lookup threat (models e) with
          | None => (0, 1%Z)
          | Some ms =>
              match collect_confidences ms X_scaled with
              | [] => (0, 1%Z)
              | confidences =>
                  let avg_confidence := np_mean confidences in
                  (avg_confidence,
                   clamp_1_5 (py_int (avg_confidence * 5) + 1))
              end
          end
      end
  end.

(** The storm ladder of [_rule_based_detection]. *)
Definition storm_rule (latest_data : Row) : Q * Z :=
  let wind_speed := row_get "wind_speed" 0 latest_data in
  let pressure := row_get "pressure" 1013 latest_data in
  let '(confidence, severity) :=
    if Qlt_bool 118 wind_speed then (95 # 100, 5%Z)
    else if Qlt_bool 88 wind_speed then (85 # 100, 4%Z)
    else if Qlt_bool 62 wind_speed then (75 # 100, 3%Z)
    else if Qlt_bool 39 wind_speed then (65 # 100, 2%Z)
    else (0, 1%Z) in
  if Qlt_bool pressure 980
  then (Qmin (confidence + (15 # 100)) 1, Z.min (severity + 1) 5)
  else (confidence, severity).

Definition pollution_rule (latest_data : Row) : Q * Z :=
  let pm25 := row_get "pm25" 0 latest_data in
  let pm10 := row_get "pm10" 0 latest_data in
  let '(confidence, severity) :=
    if Qlt_bool 75 pm25 then (90 # 100, 5%Z)
    else if Qlt_bool 55 pm25 then (80 # 100, 4%Z)
    else if Qlt_bool 35 pm25 then (70 # 100, 3%Z)
    else if Qlt_bool 25 pm25 then (60 # 100, 2%Z)
    else (0, 1%Z) in
  if Qlt_bool 150 pm10
  then (Qmax confidence (80 # 100), Z.max severity 4)
  else (confidence, severity).

Definition algal_bloom_rule (latest_data : Row) : Q * Z :=
  let water_temp := row_get "water_temperature" 20 latest_data in
  let visibility := row_get "visibility" 10 latest_data in
  let salinity := row_get "salinity" 35 latest_data in
  let temp_factor :=
    if Qlt_bool 28 water_temp then 4 # 10
    else if Qlt_bool 25 water_temp then 2 # 10
    else 0 in
  let visibility_factor :=
    if Qlt_bool visibility 2 then 5 # 10
    else if Qlt_bool visibility 5 then 3 # 10
    else 0 in
  let salinity_factor :=
    if Qle_bool 30 salinity && Qle_bool salinity 38 then 2 # 10 else 0 in
  let confidence :=
    Qmin (temp_factor + visibility_factor + salinity_factor) 1 in
  (confidence, clamp_1_5 (py_int (confidence * 5) + 1)).

Definition erosion_rule (latest_data : Row) : Q * Z :=
  let wave_height := row_get "wave_height" 0 latest_data in
  let wind_speed := row_get "wind_speed" 0 latest_data in
  let wave_factor := Qmin (wave_height / 10) 1 in
  let wind_factor := Qmin (wind_speed / 100) 1 in
  let confidence := wave_factor * (6 # 10) + wind_factor * (4 # 10) in
  (confidence, clamp_1_5 (py_int (confidence * 4) + 1)).

Definition illegal_dumping_rule (latest_data : Row) : Q * Z :=
  let visibility := row_get "visibility" 10 latest_data in
  if Qlt_bool visibility 3 then (60 # 100, 3%Z) else (0, 1%Z).

(** [_rule_based_detection]: the ladder of the category, on the latest row
    only; an unknown category keeps the initial [(0.0, 1)]. *)
Definition _rule_based_detection (threat : string) (feature_data : Table)
  (available_features : list string) : Q * Z :=
  let latest_data := latest_row feature_data in
  if String.eqb threat "storm" then storm_rule latest_data
  else if String.eqb threat "pollution" then pollution_rule latest_data
  else if String.eqb threat "algal_bloom" then algal_bloom_rule latest_data
  else if String.eqb threat "erosion" then erosion_rule latest_data
  else if String.eqb threat "illegal_dumping"
       then illegal_dumping_rule latest_data
  else (0, 1%Z).

(** [_detect_single_threat].  [None] is the function's own [None]: fewer
    than two features present, or a key missing from one of the
    dictionaries (the [KeyError] is caught and turned into [None]). *)
Definition _detect_single_threat (e : Engine) (threat : string)
  (data : DataFrame) : option ThreatDetectionResult :=
  match lookup threat (feature_columns e) with
  | None => None
  | Some required_features =>
      let available_features :=
        filter (fun f => has_column f data) required_features in
      if (List.length available_features <? 2)%nat then None
      else
        let feature_data := fillna_frame 0 (select available_features data) in
        match lookup threat (is_trained e) with
        | None => None
        | Some trained =>
            let '(conf, sev) :=
              if trained
              then _predict_with_ensemble e threat feature_data
              else _rule_based_detection threat feature_data
                     available_features in
            match lookup threat confidence_thresholds with
            | None => None
            | Some threshold =>
                Some {| threat_type := threat;
                        confidence := round4 conf;
                        severity := sev;
                        detected := Qle_bool threshold conf;
                        features_used := available_features;
                        ensemble_confidence := conf;
                        feature_count := List.length available_features;
                        detection_method :=
                          if trained then "ensemble" else "rule_based";
                        threshold_used := threshold |}
            end
        end
  end.

(** The loop of [detect_threats] over the categories to run. *)
Fixpoint run_models (e : Engine) (to_run : list string) (data : DataFrame)
  : list ThreatDetectionResult :=
  match to_run with
  | [] => []
  | threat :: rest =>
      match lookup threat (models e) with
      | None => run_models e rest data
      | Some _ =>
          match _detect_single_threat e threat data with
          | Some r => r :: run_models e rest data
          | None => run_models e rest data
          end
      end
  end.

(** [detect_threats], from the frame [_prepare_features] hands over.
    [detection_models] is [None] or a list; an empty list counts as
    absent ([detection_models or list(self.models.keys())]). *)
Definition detect_threats (e : Engine) (processed_data : DataFrame)
  (detection_models : option (list string)) : list ThreatDetectionResult :=
  if empty processed_data then []
  else
    let models_to_run :=
      match detection_models with
      | Some (m :: ms) => m :: ms
      | _ => map fst (models e)
      end in
    run_models e models_to_run processed_data.

End ThreatDetectionEngine.

(* ================================================================== *)
(** * prediction_models.py: ThreatPredictor                            *)
(* ================================================================== *)

Module ThreatPredictor.
Import Num Frame.

(** Configuration ([ML_MODEL_CONFIG['prediction']]) and the tables of
    [__init__]. *)
Definition forecast_horizons : list nat := [2; 4; 8; 24]%nat.
Definition min_data_points : nat := 50%nat.

Definition prediction_parameters : list string :=
  [ "temperature"; "pressure"; "wind_speed"; "humidity"; "pm25"; "pm10";
    "ozone"; "water_temperature"; "wave_height"; "tide_level"; "visibility";
    "salinity" ]%string.

Definition risk_thresholds : list (string * list Q) :=
  [ ("wind_speed"%string, [39; 62; 88; 118]);
    ("pressure"%string, [1000; 990; 980; 970]);
    ("pm25"%string, [25; 35; 55; 75]);
    ("pm10"%string, [50; 100; 150; 250]);
    ("wave_height"%string, [2; 4; 6; 8]);
    ("temperature"%string, [30; 35; 40; 45]);
    ("water_temperature"%string, [25; 28; 30; 32]);
    ("visibility"%string, [5; 3; 2; 1]) ].

(** The descending loop of [_assess_threat_severity]: it returns at the
    first threshold the value is at or below. *)
Fixpoint first_at_or_below (thresholds : list Q) (i : Z) (value : Q) : Z :=
  match thresholds with
  | [] => 1%Z
  | threshold :: rest =>
      if Qle_bool value threshold then (i + 2)%Z
      else first_at_or_below rest (i + 1)%Z value
  end.

(** The ascending loop: every threshold reached overwrites the severity. *)
Fixpoint last_at_or_above (thresholds : list Q) (i : Z) (severity : Z)
  (value : Q) : Z :=
  match thresholds with
  | [] => severity
  | threshold :: rest =>
      last_at_or_above rest (i + 1)%Z
        (if Qle_bool threshold value then (i + 2)%Z else severity) value
  end.

Definition _assess_threat_severity (parameter : string) (value : Q) : Z :=
  match lookup parameter risk_thresholds with
  | None => 1%Z
  | Some thresholds =>
      if String.eqb parameter "pressure" || String.eqb parameter "visibility"
      then first_at_or_below thresholds 0 value
      else Z.min (last_at_or_above thresholds 0 1 value) 5
  end.

(** The two-level dictionaries [parameter -> forecast_hour -> ...] of the
    predictor, keyed by the pair. *)
Definition Key := (string * nat)%type.

Definition key_eqb (a b : Key) : bool :=
  String.eqb (fst a) (fst b) && Nat.eqb (snd a) (snd b).

Fixpoint kget {A : Type} (k : Key) (d : list (Key * A)) : option A :=
  match d with
  | [] => None
  | (k', v) :: t => if key_eqb k k' then Some v else kget k t
  end.

Fixpoint kset {A : Type} (k : Key) (v : A) (d : list (Key * A))
  : list (Key * A) :=
  match d with
  | [] => [(k, v)]
  | (k', v') :: t =>
      if key_eqb k k' then (k, v) :: t else (k', v') :: kset k v t
  end.

(** [mse], [mae], [r2] of one evaluated model. *)
Record Metrics := { mse : Q; mae : Q; r2 : Q }.

Inductive Performance :=
| PerfError (message : string)
| PerfMetrics (average_r2 average_mae : Q) (parameters_trained : nat)
    (prediction_accuracy : Q).

Inductive Metadata :=
| MetaError (message : string)
| MetaRun (data_points_used parameters_predicted alerts_count : nat).

Record Alert := {
  alert_parameter : string;
  alert_forecast_hour : nat;
  alert_predicted_value : Q;
  alert_severity : Z;
  alert_confidence : Q
}.

Record PredictionResult := {
  predictions : list (string * list Q);
  forecast_hours : list nat;
  confidence_intervals : list (string * list (Q * Q));
  model_performance : Performance;
  trend_analysis : list (string * string);
  risk_assessment : list (string * Z);
  alerts_predicted : list Alert;
  metadata : Metadata
}.

(** [_create_empty_prediction]. *)
Definition _create_empty_prediction (message : string) : PredictionResult :=
  {| predictions := [];
     forecast_hours := forecast_horizons;
     confidence_intervals := [];
     model_performance := PerfError message;
     trend_analysis := [];
     risk_assessment := [];
     alerts_predicted := [];
     metadata := MetaError message |}.

(** [values.iloc[a:b]]. *)
Definition slice (a b : nat) (values : list Q) : list Q :=
  firstn (b - a) (skipn a values).

Definition list_min (l : list Q) : Q :=
  match l with
  | [] => 0
  | x :: t => fold_left Qmin t x
  end.

Definition list_max (l : list Q) : Q :=
  match l with
  | [] => 0
  | x :: t => fold_left Qmax t x
  end.

(** [np.polyfit(x, y, 1)] with [x = 0, 1, ..., n-1]: the least-squares
    line, by its normal equations. *)
Definition polyfit1 (ys : list Q) : Q * Q :=
  let n := Qlen ys in
  let xs := map (fun i => inject_Z (Z.of_nat i)) (seq 0 (List.length ys)) in
  let sx := Qsum xs in
  let sy := Qsum ys in
  let sxx := Qsum (map (fun x => x * x) xs) in
  let sxy := Qsum (map (fun xy => fst xy * snd xy) (combine xs ys)) in
  let slope := (n * sxy - sx * sy) / (n * sxx - sx * sx) in
  (slope, (sy - slope * sx) / n).

(** [_simple_trend_prediction]. *)
Definition _simple_trend_prediction (values : list Q) (forecast_hour : nat)
  : Q :=
  if (List.length values <? 2)%nat then last values 0
  else
    let k := Nat.min 12 (List.length values) in
    let recent_values := skipn (List.length values - k) values in
    let '(slope, intercept) := polyfit1 recent_values in
    slope * (Qlen recent_values + inject_Z (Z.of_nat forecast_hour))
    + intercept.

(** [_analyze_trend].  The quotient by a zero current value does not raise
    on numpy floats: it is an infinity of the sign of the numerator, or
    [NaN] for [0/0], and the comparisons then go as written below. *)
Definition _analyze_trend (historical_values : list Q) (preds : list Q)
  : string :=
  match preds, historical_values with
  | [], _ => "unknown"
  | _, [] => "unknown"
  | _, _ =>
      let current_value := last historical_values 0 in
      let future_value := last preds 0 in
      if Qeq_bool current_value 0
      then (if Qlt_bool 0 (future_value - current_value)
            then "increasing" else "decreasing")
      else
        let change_percent :=
          ((future_value - current_value) / current_value) * 100 in
        if Qlt_bool (Qabs change_percent) 5 then "stable"
        else if Qlt_bool 0 change_percent then "increasing"
        else "decreasing"
  end%string.

Section Sklearn.

(** What the embedding takes from scikit-learn, numpy and pandas. *)

(** A regressor object, fitted or not. *)
Variable Estimator : Type.

(** The body of the training [try]: [model.fit] on the scaled training
    split, then the evaluation on the scaled test split.  The object comes
    back as [fit] left it; the metrics are there when nothing raised. *)
Variable fit_evaluate :
  Estimator -> list (list Q) -> list Q -> list (list Q) -> list Q ->
  Estimator * option Metrics.

(** [model.predict(latest_features)[0]], [None] when it raises (as an
    unfitted estimator does). *)
Variable predict_one : Estimator -> list Q -> option Q.

(** [train_test_split(X, y, test_size=0.2, random_state=42)]:
    [(X_train, X_test, y_train, y_test)]. *)
Variable train_test_split :
  list (list Q) -> list Q ->
  list (list Q) * list (list Q) * list Q * list Q.

(** [StandardScaler] fitted on the first matrix and applied to the
    second. *)
Variable standard_scale : list (list Q) -> list (list Q) -> list (list Q).

(** [Series.std()] (sample deviation) and [np.std] (population deviation);
    both take a square root. *)
Variable series_std : list Q -> Q.
Variable np_std : list Q -> Q.

(** The features of one window. *)
Definition window_features (window : list Q) : list Q :=
  window ++
  [ np_mean window;
    series_std window;
    list_min window;
    list_max window;
    if (1 <? List.length window)%nat
    then last window 0 - nth (List.length window - 2) window 0 else 0;
    if (1 <? List.length window)%nat
    then (last window 0 - nth 0 window 0) / Qlen window else 0 ].

(** [_create_time_series_features]: one example per
    [i in range(window_size, len(values) - max_forecast_hour)]. *)
Definition window_size (values : list Q) : nat :=
  Nat.max 3 (Nat.min 24 (List.length values / 3)).

Definition _create_time_series_features (values : list Q)
  (max_forecast_hour : nat) : list (list Q) * list Q :=
  let w := window_size values in
  let idx := seq w (List.length values - max_forecast_hour - w) in
  (map (fun i => window_features (slice (i - w) i values)) idx,
   map (fun i => nth (i + max_forecast_hour) values 0) idx).

(** The mutable fields of the predictor. *)
Record Predictor := {
  models : list (Key * list (string * Estimator));
  scalers : list (Key * unit);
  is_trained : list (Key * bool);
  performance : list (Key * list (string * Metrics))
}.

(** A predictor on which [initialize_models] never ran. *)
Definition fresh : Predictor :=
  {| models := []; scalers := []; is_trained := []; performance := [] |}.

(** The constructors of the five regressors, by ensemble name. *)
Variable new_estimator : string -> Estimator.

Definition ensemble_names : list string :=
  [ "linear"; "ridge"; "random_forest"; "gradient_boost";
    "neural_network" ]%string.

(** [initialize_models]: an unfitted ensemble, a scaler and a cleared flag
    for every parameter and configured horizon. *)
Definition initialize_models : Predictor :=
  let keys :=
    flat_map (fun parameter => map (fun h => (parameter, h)) forecast_horizons)
      prediction_parameters in
  {| models :=
       map (fun k => (k, map (fun n => (n, new_estimator n)) ensemble_names))
         keys;
     scalers := map (fun k => (k, tt)) keys;
     is_trained := map (fun k => (k, false)) keys;
     performance := [] |}.

Definition kept {A : Type} (r : string * (A * option Metrics))
  : option (string * A) :=
  match snd (snd r) with
  | Some _ => Some (fst r, fst (snd r))
  | None => None
  end.

Definition scored {A : Type} (r : string * (A * option Metrics))
  : option (string * Metrics) :=
  match snd (snd r) with
  | Some m => Some (fst r, m)
  | None => None
  end.

Fixpoint filter_map {A B : Type} (f : A -> option B) (l : list A) : list B :=
  match l with
  | [] => []
  | x :: t =>
      match f x with
      | Some y => y :: filter_map f t
      | None => filter_map f t
      end
  end.

(** [_train_parameter_models]: the flag it returns and the predictor it
    leaves.  A missing scaler or ensemble is the caught [KeyError]. *)
Definition _train_parameter_models (st : Predictor) (parameter : string)
  (X : list (list Q)) (y : list Q) (forecast_hour : nat)
  : bool * Predictor :=
  let key := (parameter, forecast_hour) in
  if (List.length X <? 10)%nat then (false, st)
  else
    let '(X_train, X_test, y_train, y_test) := train_test_split X y in
    match kget key (scalers st) with
    | None => (false, st)
    | Some _ =>
        let X_train_scaled := standard_scale X_train X_train in
        let X_test_scaled := standard_scale X_train X_test in
        match kget key (models st) with
        | None => (false, st)
        | Some ensemble =>
            let outcome :=
              map (fun nm =>
                     (fst nm,
                      fit_evaluate (snd nm) X_train_scaled y_train
                        X_test_scaled y_test)) ensemble in
            match filter_map kept outcome with
            | [] =>
                (false,
                 {| models :=
                      kset key (map (fun r => (fst r, fst (snd r))) outcome)
                        (models st);
                    scalers := scalers st;
                    is_trained := is_trained st;
                    performance := performance st |})
            | trained_models =>
                (true,
                 {| models := kset key trained_models (models st);
                    scalers := scalers st;
                    is_trained := kset key true (is_trained st);
                    performance :=
                      kset key (filter_map scored outcome) (performance st) |})
            end
        end
    end.

(** One turn of the horizon loop of [_predict_parameter]: the prediction
    and interval appended for [forecast_hour], and the predictor after the
    lazy training. *)
Definition predict_horizon (st : Predictor) (parameter : string)
  (values : list Q) (X : list (list Q)) (y : list Q) (forecast_hour : nat)
  : (Q * (Q * Q)) * Predictor :=
  let key := (parameter, forecast_hour) in
  let st1 :=
    match kget key (is_trained st) with
    | Some true => st
    | _ => snd (_train_parameter_models st parameter X y forecast_hour)
    end in
  match kget key (models st1) with
  | None | Some [] =>
      let trend_pred := _simple_trend_prediction values forecast_hour in
      ((trend_pred, (trend_pred * (9 # 10), trend_pred * (11 # 10))), st1)
  | Some ensemble =>
      let latest_features := last X [] in
      match filter_map (fun nm => predict_one (snd nm) latest_features)
              ensemble with
      | [] =>
          let last_value := last values 0 in
          ((last_value, (last_value * (95 # 100), last_value * (105 # 100))),
           st1)
      | ensemble_predictions =>
          let avg_prediction := np_mean ensemble_predictions in
          let std_prediction := np_std ensemble_predictions in
          ((avg_prediction,
            (avg_prediction - (196 # 100) * std_prediction,
             avg_prediction + (196 # 100) * std_prediction)), st1)
      end
  end.

Fixpoint predict_horizons (st : Predictor) (parameter : string)
  (values : list Q) (X : list (list Q)) (y : list Q) (hours : list nat)
  : list (Q * (Q * Q)) * Predictor :=
  match hours with
  | [] => ([], st)
  | h :: rest =>
      let '(p, st1) := predict_horizon st parameter values X y h in
      let '(ps, st2) := predict_horizons st1 parameter values X y rest in
      (p :: ps, st2)
  end.

(** [_predict_parameter] on the column [df[parameter]]:
    [(predictions, confidence_intervals, trend, risk_level)] and the
    predictor it leaves.  One feature set is built, for the largest
    requested horizon, and handed to the training of every horizon. *)
Definition _predict_parameter (st : Predictor) (column : Series)
  (parameter : string) (hours : list nat)
  : (list Q * list (Q * Q) * string * Z) * Predictor :=
  let values := dropna column in
  if (List.length values <? 10)%nat
  then (([], [], "insufficient_data"%string, 1%Z), st)
  else
    match hours with
    | [] => (([], [], "error"%string, 1%Z), st)
    | h0 :: hs =>
        let '(X, y) :=
          _create_time_series_features values (fold_left Nat.max hs h0) in
        match X with
        | [] => (([], [], "insufficient_features"%string, 1%Z), st)
        | _ =>
            let '(ps, st1) := predict_horizons st parameter values X y hours in
            let preds := map fst ps in
            let trend := _analyze_trend values preds in
            let max_predicted := list_max preds in
            ((preds, map snd ps, trend,
              _assess_threat_severity parameter max_predicted), st1)
        end
    end.

(** The alert check of [predict_threats] for one parameter:
    [for i, hour in enumerate(forecast_hours)]. *)
Fixpoint parameter_alerts (parameter : string) (hours : list nat)
  (preds : list Q) (intervals : list (Q * Q)) : list Alert :=
  match hours, preds with
  | hour :: hours', predicted_value :: preds' =>
      let severity := _assess_threat_severity parameter predicted_value in
      let rest := parameter_alerts parameter hours' preds' (tl intervals) in
      if (3 <=? severity)%Z
      then {| alert_parameter := parameter;
              alert_forecast_hour := hour;
              alert_predicted_value := predicted_value;
              alert_severity := severity;
              alert_confidence :=
                match intervals with
                | (lo, hi) :: _ => hi - lo
                | [] => 5 # 10
                end |} :: rest
      else rest
  | _, _ => []
  end.

(** What the parameter loop of [predict_threats] accumulates. *)
Record Accumulated := {
  acc_predictions : list (string * list Q);
  acc_intervals : list (string * list (Q * Q));
  acc_trends : list (string * string);
  acc_risks : list (string * Z);
  acc_alerts : list Alert
}.

Fixpoint predict_parameters (st : Predictor) (df : DataFrame)
  (parameters : list string) (hours : list nat) (acc : Accumulated)
  : Accumulated * Predictor :=
  match parameters with
  | [] => (acc, st)
  | parameter :: rest =>
      match get_column parameter df with
      | None => predict_parameters st df rest hours acc
      | Some column =>
          let '((preds, intervals, trend, risk), st1) :=
            _predict_parameter st column parameter hours in
          predict_parameters st1 df rest hours
            {| acc_predictions := acc_predictions acc ++ [(parameter, preds)];
               acc_intervals := acc_intervals acc ++ [(parameter, intervals)];
               acc_trends := acc_trends acc ++ [(parameter, trend)];
               acc_risks := acc_risks acc ++ [(parameter, risk)];
               acc_alerts :=
                 acc_alerts acc
                 ++ parameter_alerts parameter hours preds intervals |}
      end
  end.

(** [_calculate_performance_metrics]: the scores of every evaluated model
    of every parameter that got a prediction. *)
Definition _calculate_performance_metrics (st : Predictor)
  (preds : list (string * list Q)) : Performance :=
  let all :=
    flat_map
      (fun parameter =>
         flat_map
           (fun entry =>
              if String.eqb (fst (fst entry)) parameter
              then map snd (snd entry) else [])
           (performance st))
      (map fst preds) in
  match all with
  | [] => PerfMetrics 0 0 0 0
  | _ =>
      let average_r2 := np_mean (map r2 all) in
      PerfMetrics average_r2 (np_mean (map mae all)) (List.length all)
        (Qmax 0 (Qmin 100 (average_r2 * 100)))
  end.

(** The records [predict_threats] receives, and the pandas part of
    [_prepare_features] (frame construction, pivot of long-format rows,
    name cleaning, zero fill, sort): [None] when it raises. *)
Variable Reading : Type.
Variable pandas_frame : list Reading -> option DataFrame.

(** [_prepare_features]: an empty list and a failure both give the empty
    frame. *)
Definition _prepare_features (data : list Reading) : DataFrame :=
  match data with
  | [] => []
  | _ =>
      match pandas_frame data with
      | Some df => df
      | None => []
      end
  end.

(** [predict_threats]: the result and the predictor it leaves.
    [forecast_hours or self.forecast_horizons] replaces an absent or empty
    list by the configured horizons. *)
Definition predict_threats (st : Predictor) (historical_data : list Reading)
  (hours_arg : option (list nat)) : PredictionResult * Predictor :=
  let hours :=
    match hours_arg with
    | Some (h :: hs) => h :: hs
    | _ => forecast_horizons
    end in
  let df := _prepare_features historical_data in
  if empty df || (nrows df <? min_data_points)%nat
  then (_create_empty_prediction "Insufficient historical data", st)
  else
    let '(acc, st1) :=
      predict_parameters st df prediction_parameters hours
        {| acc_predictions := []; acc_intervals := []; acc_trends := [];
           acc_risks := []; acc_alerts := [] |} in
    ({| predictions := acc_predictions acc;
        forecast_hours := hours;
        confidence_intervals := acc_intervals acc;
        model_performance :=
          _calculate_performance_metrics st1 (acc_predictions acc);
        trend_analysis := acc_trends acc;
        risk_assessment := acc_risks acc;
        alerts_predicted := acc_alerts acc;
        metadata :=
          MetaRun (nrows df) (List.length (acc_predictions acc))
            (List.length (acc_alerts acc)) |}, st1).

End Sklearn.

End ThreatPredictor.

(* ================================================================== *)
(** * anomaly_detection.py: AnomalyDetector                            *)
(* ================================================================== *)

Module AnomalyDetector.
Import Num Frame.

Definition parameter_weights : list (string * Q) :=
  [ ("temperature"%string, 1);
    ("pressure"%string, 12 # 10);
    ("wind_speed"%string, 11 # 10);
    ("humidity"%string, 8 # 10);
    ("pm25"%string, 13 # 10);
    ("pm10"%string, 12 # 10);
    ("ozone"%string, 11 # 10);
    ("water_temperature"%string, 1);
    ("salinity"%string, 9 # 10);
    ("wave_height"%string, 1);
    ("tide_level"%string, 8 # 10);
    ("visibility"%string, 9 # 10) ].

(** [self.parameter_weights.get(column, 1.0)]. *)
Definition weight_of (column : string) : Q :=
  match lookup column parameter_weights with
  | Some w => w
  | None => 1
  end.

(** [_calculate_severity] with
    [severity_thresholds = {low: 0.6, medium: 0.75, high: 0.85,
    critical: 0.95}]. *)
Definition _calculate_severity (score : Q) : Z :=
  if Qle_bool (95 # 100) score then 5%Z
  else if Qle_bool (85 # 100) score then 4%Z
  else if Qle_bool (75 # 100) score then 3%Z
  else if Qle_bool (6 # 10) score then 2%Z
  else 1%Z.

(** The diagnostics kept per column in [anomaly_scores] (the largest
    z-score, a square root, is not carried). *)
Record ColumnScore := {
  z_score_anomalies : nat;
  iqr_anomalies : nat;
  anomaly_ratio : Q;
  weighted_score : Q;
  latest_value : Q
}.

(** [z_scores > 3.0], the 3-sigma mask. *)
Definition z_flag (values : list Q) (x : Q) : bool :=
  zscore_exceeds 3 values x.

(** [(values < lower_bound) | (values > upper_bound)], the IQR mask. *)
Definition iqr_flag (values : list Q) (x : Q) : bool :=
  let Q1 := quantile (1 # 4) values in
  let Q3 := quantile (3 # 4) values in
  let IQR := Q3 - Q1 in
  let lower_bound := Q1 - (15 # 10) * IQR in
  let upper_bound := Q3 + (15 # 10) * IQR in
  Qlt_bool x lower_bound || Qlt_bool upper_bound x.

(** The statistics of one non-empty column. *)
Definition column_score (column : string) (values : list Q) : ColumnScore :=
  let anomaly_count :=
    count (fun x => z_flag values x || iqr_flag values x) values in
  let ratio := inject_Z (Z.of_nat anomaly_count) / Qlen values in
  {| z_score_anomalies := count (z_flag values) values;
     iqr_anomalies := count (iqr_flag values) values;
     anomaly_ratio := ratio;
     weighted_score := ratio * weight_of column;
     latest_value := last values 0 |}.

(** The three accumulators of the column loop. *)
Record Scan := {
  anomalies : list Q;
  anomaly_scores : list (string * ColumnScore);
  affected : list string
}.

(** The column loop of [_statistical_anomaly_detection]. *)
Fixpoint scan_columns (cols : DataFrame) (acc : Scan) : Scan :=
  match cols with
  | [] => acc
  | (column, cells) :: rest =>
      match dropna cells with
      | [] => scan_columns rest acc
      | values =>
          let sc := column_score column values in
          let acc1 :=
            if Qlt_bool (3 # 10) (weighted_score sc)
            then {| anomalies := anomalies acc ++ [weighted_score sc];
                    anomaly_scores := anomaly_scores acc ++ [(column, sc)];
                    affected := affected acc ++ [column] |}
            else {| anomalies := anomalies acc;
                    anomaly_scores := anomaly_scores acc ++ [(column, sc)];
                    affected := affected acc |} in
          scan_columns rest acc1
      end
  end.

Inductive Comparison :=
| PerColumn (scores : list (string * ColumnScore))
| PerModel (ratios : list (string * Q))
| NoComparison.

Record AnomalyResult := {
  is_anomaly : bool;
  anomaly_score : Q;
  severity : Z;
  confidence : Q;
  affected_parameters : list string;
  detection_method : string;
  baseline_comparison : Comparison;
  error : option string            (* metadata['error'] *)
}.

(** [_create_empty_result]. *)
Definition _create_empty_result (message : string) : AnomalyResult :=
  {| is_anomaly := false;
     anomaly_score := 0;
     severity := 1;
     confidence := 0;
     affected_parameters := [];
     detection_method := "none";
     baseline_comparison := NoComparison;
     error := Some message |}.

(** The overall score of the statistical path, before rounding:
    [np.mean(anomalies) if anomalies else 0.0]. *)
Definition overall_of (anoms : list Q) : Q :=
  match anoms with
  | [] => 0
  | _ => np_mean anoms
  end.

(** [_statistical_anomaly_detection]. *)
Definition _statistical_anomaly_detection (current_data : DataFrame)
  : AnomalyResult :=
  let acc :=
    scan_columns current_data
      {| anomalies := []; anomaly_scores := []; affected := [] |} in
  let overall_score := overall_of (anomalies acc) in
  {| is_anomaly := Qlt_bool (5 # 10) overall_score;
     anomaly_score := round4 overall_score;
     severity := _calculate_severity overall_score;
     confidence := round4 (Qmin (overall_score * 2) 1);
     affected_parameters := affected acc;
     detection_method := "statistical";
     baseline_comparison := PerColumn (anomaly_scores acc);
     error := None |}.

(** [needle in hay]. *)
Definition contains (needle hay : string) : bool :=
  match String.index 0 needle hay with
  | Some _ => true
  | None => false
  end.

(** The hint [_generate_recommendations] adds for one affected parameter,
    if it recognises it. *)
Definition parameter_hint (param : string) : list string :=
  let name := MlPackage.lower param in
  if contains "temperature"%string name
  then ["Monitor for heat stress or unusual cooling patterns"%string]
  else if contains "pressure"%string name
  then ["Check for approaching weather systems"%string]
  else if contains "pm25"%string name || contains "pm10"%string name
          || contains "ozone"%string name
  then ["Issue air quality advisories"%string]
  else if contains "wind"%string name
  then ["Monitor for storm development"%string]
  else if contains "water"%string name
  then ["Test water quality and check for contamination"%string]
  else if contains "wave"%string name || contains "tide"%string name
  then ["Monitor coastal conditions and erosion risk"%string]
  else [].

(** [_generate_recommendations]: the block of the severity tier, the hints
    of the first three affected parameters, two general entries; the first
    five of all that. *)
Definition _generate_recommendations (affected_params : list string)
  (severity : Z) : list string :=
  let by_severity :=
    if (4 <=? severity)%Z
    then [ "URGENT: Initiate emergency response protocols"%string;
           "Evacuate affected areas if necessary"%string;
           "Contact relevant authorities immediately"%string ]
    else if (3 <=? severity)%Z
    then [ "Increase monitoring frequency"%string;
           "Deploy additional sensors to affected area"%string;
           "Notify emergency management teams"%string ]
    else if (2 <=? severity)%Z
    then [ "Continue monitoring conditions"%string;
           "Verify sensor readings and data quality"%string ]
    else [] in
  firstn 5
    (by_severity
     ++ flat_map parameter_hint (firstn 3 affected_params)
     ++ [ "Document and report anomaly findings"%string;
          "Review historical data for similar patterns"%string ]).

(** One column's entry of [baseline_stats]. *)
Record Baseline := {
  base_mean : Q;
  base_std : Q;
  base_min : Q;
  base_max : Q
}.

(** [_identify_affected_parameters].  A column absent from the baseline
    reads the defaults of the four [.get] calls: mean 0, deviation 1,
    minimum 0, maximum 0. *)
Definition baseline_or_default (column : string)
  (stats : list (string * Baseline)) : Baseline :=
  match lookup column stats with
  | Some b => b
  | None => {| base_mean := 0; base_std := 1; base_min := 0; base_max := 0 |}
  end.

Definition departs (b : Baseline) (latest : Q) : bool :=
  Qlt_bool 0 (base_std b) &&
  (Qlt_bool 2 (Qabs ((latest - base_mean b) / base_std b))
   || Qlt_bool latest (base_min b * (8 # 10))
   || Qlt_bool (base_max b * (12 # 10)) latest).

Definition _identify_affected_parameters (stats : list (string * Baseline))
  (current_data : DataFrame) : list string :=
  match stats with
  | [] => columns current_data
  | _ =>
      flat_map
        (fun cs =>
           match dropna (snd cs) with
           | [] => []
           | values =>
               if departs (baseline_or_default (fst cs) stats) (last values 0)
               then [fst cs] else []
           end)
        current_data
  end.

(** [fillna(df.mean())]: a missing cell takes the mean of the cells that
    are present; a column with none stays missing. *)
Definition fill_with_mean (df : DataFrame) : DataFrame :=
  map (fun cs =>
         match dropna (snd cs) with
         | [] => cs
         | present => (fst cs, fillna (np_mean present) (snd cs))
         end) df.

Section Detectors.

(** What the embedding takes from scikit-learn and pandas. *)

(** An outlier detector object, fitted or not. *)
Variable Detector : Type.

(** [fit] (or [fit_predict]) on the scaled history: the object as the call
    left it and whether it returned without raising. *)
Variable fit_detector : string -> Detector -> list (list Q) -> Detector * bool.

(** The mask [predictions == -1] of one detector on the scaled current
    rows; [None] when the vote is dropped (the detector raises, or the
    local-outlier factor was never fitted). *)
Variable outlier_mask : string -> Detector -> list (list Q) -> option (list bool).

(** A fitted [RobustScaler]'s [transform]: the scaled rows, or [None] when
    it raises. *)
Definition Scaler := DataFrame -> option (list (list Q)).

(** [RobustScaler.fit] seen from outside: the fitted transform, or [None]
    when fitting raises. *)
Variable robust_fit : DataFrame -> option Scaler.

(** [X_hist.std()], column by column. *)
Variable series_std : list Q -> Q.

(** The records [detect_anomalies] receives and the pandas part of
    [_prepare_features] (frame construction, pivot, name cleaning, numeric
    columns only); [None] when it raises. *)
Variable Reading : Type.
Variable pandas_numeric_frame : list Reading -> option DataFrame.

Definition _prepare_features (data : list Reading) : DataFrame :=
  match data with
  | [] => []
  | _ =>
      match pandas_numeric_frame data with
      | Some [] => []
      | Some df => fill_with_mean df
      | None => []
      end
  end.

(** The mutable fields of the detector.  [robust] is [None] until the
    scaler is fitted (or when [initialize_models] never created it):
    [transform] then raises. *)
Record Detection := {
  models : list (string * Detector);
  robust : option Scaler;
  baseline_stats : list (string * Baseline);
  is_trained : bool
}.

Definition baseline_of (values : list Q) : Baseline :=
  {| base_mean := np_mean values;
     base_std := series_std values;
     base_min := fold_left Qmin values (hd 0 values);
     base_max := fold_left Qmax values (hd 0 values) |}.

(** [_train_on_historical_data].  Without [initialize_models] there is no
    scaler to fit and the [KeyError] is caught. *)
Definition _train_on_historical_data (st : Detection)
  (historical_data : list Reading) : Detection :=
  let hist_df := _prepare_features historical_data in
  if empty hist_df then st
  else
    match robust st with
    | None => st
    | Some _ =>
        let X_hist := fill_with_mean hist_df in
        match robust_fit X_hist with
        | None => st
        | Some scaler =>
            match scaler X_hist with
            | None => st
            | Some X_scaled =>
                let outcome :=
                  map (fun nm =>
                         (fst nm, fit_detector (fst nm) (snd nm) X_scaled))
                    (models st) in
                match filter (fun r => snd (snd r)) outcome with
                | [] =>
                    {| models := map (fun r => (fst r, fst (snd r))) outcome;
                       robust := Some scaler;
                       baseline_stats := baseline_stats st;
                       is_trained := is_trained st |}
                | trained_models =>
                    {| models :=
                         map (fun r => (fst r, fst (snd r))) trained_models;
                       robust := Some scaler;
                       baseline_stats :=
                         map (fun cs =>
                                (fst cs, baseline_of (dropna (snd cs))))
                           X_hist;
                       is_trained := true |}
                end
            end
        end
    end.

(** The detector loop of [_ml_anomaly_detection]: the anomalous fraction
    each answering detector reports. *)
Fixpoint model_ratios (ms : list (string * Detector))
  (X_scaled : list (list Q)) : list (string * Q) :=
  match ms with
  | [] => []
  | (name, m) :: rest =>
      match outlier_mask name m X_scaled with
      | Some mask =>
          (name,
           inject_Z (Z.of_nat (List.length (filter (fun b => b) mask)))
           / Qlen mask) :: model_ratios rest X_scaled
      | None => model_ratios rest X_scaled
      end
  end.

(** [_ml_anomaly_detection].  The message of the caught exception is
    shortened to its fixed prefix. *)
Definition _ml_anomaly_detection (st : Detection) (current_data : DataFrame)
  (historical_data : option (list Reading)) : AnomalyResult * Detection :=
  let st1 :=
    match historical_data with
    | Some (r :: rs) =>
        if is_trained st then st
        else _train_on_historical_data st (r :: rs)
    | _ => st
    end in
  match current_data with
  | [] => (_create_empty_result "No numeric data for ML detection", st1)
  | _ =>
      match robust st1 with
      | None => (_create_empty_result "ML detection error", st1)
      | Some scaler =>
          match scaler (fill_with_mean current_data) with
          | None => (_create_empty_result "ML detection error", st1)
          | Some X_scaled =>
              match model_ratios (models st1) X_scaled with
              | [] =>
                  (_create_empty_result "No model predictions available", st1)
              | results =>
                  let overall_score := np_mean (map snd results) in
                  ({| is_anomaly := Qlt_bool (1 # 10) overall_score;
                      anomaly_score := round4 overall_score;
                      severity := _calculate_severity (overall_score * 5);
                      confidence := round4 (Qmin (overall_score * 3) 1);
                      affected_parameters :=
                        _identify_affected_parameters (baseline_stats st1)
                          current_data;
                      detection_method := "ensemble_ml";
                      baseline_comparison := PerModel results;
                      error := None |}, st1)
              end
          end
      end
  end.

(** [detect_anomalies]. *)
Definition detect_anomalies (st : Detection) (current_data : list Reading)
  (historical_data : option (list Reading)) : AnomalyResult * Detection :=
  let current_df := _prepare_features current_data in
  if empty current_df
  then (_create_empty_result "No valid data for anomaly detection", st)
  else
    match historical_data, is_trained st with
    | None, false => (_statistical_anomaly_detection current_df, st)
    | Some [], false =>
        (_create_empty_result "Insufficient data for anomaly detection", st)
    | _, _ => _ml_anomaly_detection st current_df historical_data
    end.

End Detectors.

End AnomalyDetector.

(* ================================================================== *)
(** * The claims in the words of the specification                     *)
(* ================================================================== *)

Module Spec.
Import Num Frame.

(** Severity of the trained path as the specification words it:
    [clamp(round(confidence*5)+1, 1, 5)], then the maximum with
    [table_level], the highest level of the category's threshold table
    whose thresholds the features satisfy. *)
Definition trained_severity (confidence : Q) (table_level : Z) : Z :=
  Z.max (ThreatDetectionEngine.clamp_1_5 (py_round (confidence * 5) + 1))
        table_level.

(** The label the specification gives the example whose window ends at
    position [window_end] (exclusive) for the horizon [forecast_hour]: the
    value [forecast_hour] steps later. *)
Definition label_for (values : list Q) (window_end forecast_hour : nat) : Q :=
  nth (window_end + forecast_hour) values 0.

(** The statistical path as the specification words it.  The anomalous
    fraction of a column is the share of its points flagged by either
    test, its weighted score that fraction times the importance weight;
    the affected columns are those whose weighted score exceeds 0.3; the
    overall score is the mean of their weighted scores, 0 when there is
    none. *)
Definition anomalous_fraction (values : list Q) : Q :=
  inject_Z (Z.of_nat
    (count (fun x => AnomalyDetector.z_flag values x
                     || AnomalyDetector.iqr_flag values x) values))
  / Qlen values.

Definition weighted_scores (df : DataFrame) : list (string * Q) :=
  flat_map
    (fun cs =>
       match dropna (snd cs) with
       | [] => []
       | values =>
           [ (fst cs,
              anomalous_fraction values * AnomalyDetector.weight_of (fst cs)) ]
       end) df.

Definition affected_columns (df : DataFrame) : list (string * Q) :=
  filter (fun cw => Qlt_bool (3 # 10) (snd cw)) (weighted_scores df).

Definition overall_score (df : DataFrame) : Q :=
  match affected_columns df with
  | [] => 0
  | affected => np_mean (map snd affected)
  end.

(** The ranges of the result fields. *)
Definition unit_interval (x : Q) : Prop := 0 <= x /\ x <= 1.
Definition severity_level (s : Z) : Prop := (1 <= s <= 5)%Z.

(** A valid input: every reading present lies in the valid range of its
    parameter ([parameter_ranges]). *)
Definition in_valid_range (name : string) (x : Q) : bool :=
  match lookup name DataPreprocessor.parameter_ranges with
  | Some (lo, hi) => Qle_bool lo x && Qle_bool x hi
  | None => true
  end.

Definition valid_cell (name : string) (c : option Q) : bool :=
  match c with
  | Some x => in_valid_range name x
  | None => true
  end.

Definition valid_frame (df : DataFrame) : bool :=
  forallb (fun cs => forallb (valid_cell (fst cs)) (snd cs)) df.

(** The classifiers of an engine answer with probabilities. *)
Definition probabilities (e : ThreatDetectionEngine.Engine) : Prop :=
  forall threat ms m X pp,
    lookup threat (ThreatDetectionEngine.models e) = Some ms ->
    In m ms ->
    ThreatDetectionEngine.predict_proba m X = Some pp ->
    Forall (Forall (fun p => 0 <= p /\ p <= 1)) pp.

(** Two frames with the same columns and the same values. *)
Definition cell_eq (a b : option Q) : Prop :=
  match a, b with
  | Some x, Some y => x == y
  | None, None => True
  | _, _ => False
  end.

Definition column_eq (a b : string * Series) : Prop :=
  fst a = fst b /\ Forall2 cell_eq (snd a) (snd b).

Definition frame_eq (a b : DataFrame) : Prop := Forall2 column_eq a b.

(** No name occurs twice. *)
Fixpoint distinct (names : list string) : bool :=
  match names with
  | [] => true
  | n :: t => negb (existsb (String.eqb n) t) && distinct t
  end.

(** An alert carries the severity of its own predicted value, and that
    severity is 3 or more. *)
Definition alert_sound (a : ThreatPredictor.Alert) : Prop :=
  ThreatPredictor.alert_severity a
  = ThreatPredictor._assess_threat_severity
      (ThreatPredictor.alert_parameter a)
      (ThreatPredictor.alert_predicted_value a)
  /\ (3 <= ThreatPredictor.alert_severity a)%Z.

End Spec.

(* ================================================================== *)
(** * Concrete inputs                                                  *)
(* ================================================================== *)

Module Scenario.
Import Num Frame.

(** A regressor that remembers the examples it was fitted on and answers
    with the last label it saw; unfitted, it raises. *)
Definition Spy := option (list (list Q) * list Q).

Definition spy_fit (e : Spy) (X_train : list (list Q)) (y_train : list Q)
  (X_test : list (list Q)) (y_test : list Q)
  : Spy * option ThreatPredictor.Metrics :=
  (Some (X_train, y_train),
   Some {| ThreatPredictor.mse := 0; ThreatPredictor.mae := 0;
           ThreatPredictor.r2 := 1 |}).

Definition spy_predict (e : Spy) (latest_features : list Q) : option Q :=
  match e with
  | Some (_, y) => Some (last y 0)
  | None => None
  end.

(** A split that keeps every example in the training part, so that the
    fitted examples can be read back in order. *)
Definition keep_all (X : list (list Q)) (y : list Q)
  : list (list Q) * list (list Q) * list Q * list Q :=
  (X, [], y, []).

Definition no_scaling (fitted_on X : list (list Q)) : list (list Q) := X.

Definition zero_deviation (l : list Q) : Q := 0.

(** The predictor after [initialize_models], with spies for regressors. *)
Definition spy_predictor : ThreatPredictor.Predictor Spy :=
  ThreatPredictor.initialize_models Spy (fun _ => None).

(** Sixty hourly readings [0, 1, ..., 59]. *)
Definition ramp : list Q := map (fun i => inject_Z (Z.of_nat i)) (seq 0 60).

(** [_predict_parameter] on the ramp for the horizons 2h and 4h. *)
Definition ramp_run :=
  ThreatPredictor._predict_parameter Spy spy_fit spy_predict keep_all
    no_scaling zero_deviation zero_deviation
    spy_predictor (map Some ramp) "temperature" [2; 4]%nat.

(** The labels the ensemble stored for [(parameter, hour)] was fitted on. *)
Definition fitted_labels (st : ThreatPredictor.Predictor Spy)
  (parameter : string) (hour : nat) : option (list Q) :=
  match ThreatPredictor.kget (parameter, hour) (ThreatPredictor.models Spy st) with
  | Some ((_, Some (_, y)) :: _) => Some y
  | _ => None
  end.

Definition fitted_examples (st : ThreatPredictor.Predictor Spy)
  (parameter : string) (hour : nat) : option (list (list Q) * list Q) :=
  match ThreatPredictor.kget (parameter, hour) (ThreatPredictor.models Spy st) with
  | Some ((_, Some xy) :: _) => Some xy
  | _ => None
  end.

(** Readings that are one temperature each, and the frame pandas builds of
    them. *)
Definition temperature_frame (data : list Q) : option DataFrame :=
  Some [ ("temperature"%string, map Some data) ].

(** Sixty readings of a steady 130 km/h wind and 960 hPa. *)
Definition gale_frame (data : list unit) : option DataFrame :=
  Some [ ("wind_speed"%string, map (fun _ => Some 130) data);
         ("pressure"%string, map (fun _ => Some 960) data) ].

Definition gale_run :=
  ThreatPredictor.predict_threats Spy spy_fit spy_predict keep_all
    no_scaling zero_deviation zero_deviation unit gale_frame
    (ThreatPredictor.fresh Spy) (repeat tt 60) None.

(** One classifier that is 72% sure of its top class. *)
Definition sure_72 : ThreatDetectionEngine.Classifier :=
  {| ThreatDetectionEngine.clf_name := "rf";
     ThreatDetectionEngine.predict_proba :=
       fun _ => Some [ [72 # 100; 28 # 100] ] |}.

Definition trained_storm : ThreatDetectionEngine.Engine :=
  {| ThreatDetectionEngine.models := [ ("storm"%string, [sure_72]) ];
     ThreatDetectionEngine.scalers :=
       [ ("storm"%string, fun t => Some (map snd t)) ];
     ThreatDetectionEngine.feature_columns :=
       [ ("storm"%string, ["wind_speed"; "pressure"]%string) ];
     ThreatDetectionEngine.is_trained := [ ("storm"%string, true) ] |}.

Definition calm_features : Table :=
  [ ("wind_speed"%string, [10]); ("pressure"%string, [1013]) ].

(** Three pressure readings in hPa. *)
Definition pressure_frame : DataFrame :=
  [ ("pressure"%string, [Some 1000; Some 1010; Some 1020]) ].

Definition no_trigonometry (degrees : Q) : Q := 0.

Definition prepared_once : DataFrame :=
  DataPreprocessor.prepare_features no_trigonometry no_trigonometry
    pressure_frame.

Definition prepared_twice : DataFrame :=
  DataPreprocessor.prepare_features no_trigonometry no_trigonometry
    prepared_once.

End Scenario.

(* ================================================================== *)
(** * Shapes of frames                                                 *)
(* ================================================================== *)

Module Shape.
Import Num Frame.

(** No cell of the frame is missing. *)
Definition complete (df : DataFrame) : bool :=
  forallb (fun cs => negb (existsb DataPreprocessor.is_missing (snd cs))) df.

(** Every column has [n] rows. *)
Definition rows_are (n : nat) (df : DataFrame) : Prop :=
  Forall (fun cs => List.length (snd cs) = n) df.

(** The positions of the missing cells of a column. *)
Definition gaps (cells : Series) : list bool :=
  map DataPreprocessor.is_missing cells.

(** [after] keeps every value [before] holds, position by position. *)
Definition keeps_values (before after : Series) : Prop :=
  Forall2 (fun b a => match b with Some x => a = Some x | None => True end)
    before after.

(** [y] lies between two values of the column. *)
Definition within (cells : Series) (y : Q) : Prop :=
  exists lo hi, In (Some lo) cells /\ In (Some hi) cells /\ lo <= y <= hi.

(** The per-column diagnostics a result of the statistical path carries
    in [baseline_comparison]. *)
Definition recorded_scores (r : AnomalyDetector.AnomalyResult)
  : list (string * AnomalyDetector.ColumnScore) :=
  match AnomalyDetector.baseline_comparison r with
  | AnomalyDetector.PerColumn scores => scores
  | _ => []
  end.

(** The entries whose recorded weighted score exceeds 0.3. *)
Definition above_threshold (scores : list (string * AnomalyDetector.ColumnScore))
  : list (string * AnomalyDetector.ColumnScore) :=
  filter (fun cs => Qlt_bool (3 # 10) (AnomalyDetector.weighted_score (snd cs)))
    scores.
(** A property of the cells of every column. *)
Definition columns_all (P : Series -> Prop) (df : DataFrame) : Prop :=
  Forall (fun cs => P (snd cs)) df.

(** The latest reading of a column as the rules see it: 0 for a missing
    cell, [default] without the column. *)
Definition latest_reading (name : string) (default : Q) (data : DataFrame)
  : Q :=
  match get_column name data with
  | Some s => fill_cell 0 (last s None)
  | None => default
  end.

(** A column name without white space other than the plain space. *)
Definition ordinary_name (name : string) : bool :=
  forallb (fun c => negb (DataPreprocessor.is_space c) || Ascii.eqb c " ")
    (list_ascii_of_string name).

(** The frames the embedding of the preprocessor covers: wide frames of
    numeric readings.  After renaming, no column is one pandas parses as a
    date ([timestamp], [created_at], [updated_at]), the long-format pair
    [data_type]/[value] is not there (nothing to pivot), and no two
    columns share a name (pandas would select both at once, and
    [to_numeric] raises on that). *)
Definition wide_numeric (df : DataFrame) : bool :=
  let names := map DataPreprocessor.canonical_name (columns df) in
  Spec.distinct names
  && forallb (fun n => negb (existsb (String.eqb n)
                               [ "timestamp"; "created_at";
                                 "updated_at" ]%string)) names
  && negb (existsb (String.eqb "data_type") names
           && existsb (String.eqb "value") names).

(** [name in names]. *)
Definition has (name : string) (names : list string) : bool :=
  existsb (String.eqb name) names.

(** The rules of [_engineer_features] on a frame without timestamp: the
    columns a derived feature needs and the columns it writes. *)
Definition derivations : list (list string * list string) :=
  [ (["temperature"; "humidity"], ["heat_index"]);
    (["wind_speed"; "wind_direction"], ["wind_u"; "wind_v"]);
    (["temperature"; "pressure"], ["density_altitude"]);
    (["pm25"], ["aqi_pm25"]);
    (["pm10"], ["aqi_pm10"]);
    (["wave_height"; "wind_speed"], ["wave_energy"]) ]%string.

(** [df[t] = ...] on the column names: in place, or appended. *)
Definition add_name (names : list string) (t : string) : list string :=
  if has t names then names else names ++ [t].

Definition derive_names (names : list string)
  (rule : list string * list string) : list string :=
  if forallb (fun i => has i names) (fst rule)
  then fold_left add_name (snd rule) names
  else names.

(** The column names after [_engineer_features]. *)
Definition derived_names (rules : list (list string * list string))
  (names : list string) : list string :=
  fold_left derive_names rules names.

(** A rule has nothing left to do: its inputs are not all there, or all
    its outputs are. *)
Definition closed (names : list string) (rule : list string * list string)
  : Prop :=
  forallb (fun i => has i names) (fst rule) = true ->
  forallb (fun t => has t names) (snd rule) = true.

(** No output of [by_rule] is an input of [rule]. *)
Definition apart (by_rule rule : list string * list string) : Prop :=
  forall i, In i (fst rule) -> has i (snd by_rule) = false.

(** The four steps after the cleaning. *)
Definition after_cleaning (sin_degrees cos_degrees : Q -> Q)
  (df : DataFrame) : DataFrame :=
  DataPreprocessor._scale_features
    (DataPreprocessor._engineer_features sin_degrees cos_degrees
       (DataPreprocessor._handle_outliers
          (DataPreprocessor._handle_missing_values df))).

End Shape.

(* ================================================================== *)
(** * Sample inputs                                                    *)
(* ================================================================== *)

Module Cases.
Import Num Frame ThreatDetectionEngine.

(** Three readings of temperature and humidity under the names a feed
    may give them, one temperature missing. *)
Definition weather_frame : DataFrame :=
  [ ("Air Temp"%string, [Some 20; None; Some 22]);
    ("humidity"%string, [Some 50; Some 55; Some 60]) ].

(** One reading in fog, and what the engine says of it before any training
    when asked for illegal dumping alone. *)
Definition fog_frame : DataFrame :=
  [ ("visibility"%string, [Some 1]); ("wind_speed"%string, [Some 5]);
    ("pm25"%string, [Some 60]); ("pm10"%string, [Some 20]) ].

Definition fog_dumping : list ThreatDetectionResult :=
  detect_threats initialized fog_frame (Some ["illegal_dumping"%string]).

Definition fog_pollution : list ThreatDetectionResult :=
  detect_threats initialized fog_frame (Some ["pollution"%string]).

(** The initial engine with the storm ensemble marked as trained, its
    members still unfitted. *)
Definition armed_storm : Engine :=
  {| models := models initialized;
     scalers := [ ("storm"%string, fun t => Some (map snd t)) ];
     feature_columns := feature_columns initialized;
     is_trained := [ ("storm"%string, true) ] |}.

Definition gale_reading : DataFrame :=
  [ ("wind_speed"%string, [Some 130]); ("pressure"%string, [Some 970]) ].

(** Two latest rows, the second with more fine dust and higher waves. *)
Definition calm_row : Row :=
  [ ("pm25"%string, 30); ("pm10"%string, 20);
    ("wave_height"%string, 1); ("wind_speed"%string, 10) ].

Definition rough_row : Row :=
  [ ("pm25"%string, 60); ("pm10"%string, 20);
    ("wave_height"%string, 6); ("wind_speed"%string, 70) ].

(** The examples built from the ramp for the horizon 4h, and the spy
    predictor after training the 2h ensemble of the temperature on them. *)
Definition ramp_examples : list (list Q) * list Q :=
  ThreatPredictor._create_time_series_features Scenario.zero_deviation
    Scenario.ramp 4.

Definition ramp_training :=
  ThreatPredictor._train_parameter_models Scenario.Spy Scenario.spy_fit
    Scenario.keep_all Scenario.no_scaling Scenario.spy_predictor
    "temperature" (fst ramp_examples) (snd ramp_examples) 2.

(** Nine PM2.5 readings, four of them far from the other five. *)
Definition dust_frame : DataFrame :=
  [ ("pm25"%string, map Some [1; 1; 10; 10; 10; 10; 10; 100; 100]) ].

(** Records that are columns already, and a detector on which
    [initialize_models] never ran. *)
Definition as_frame (data : DataFrame) : option DataFrame := Some data.

Definition idle_detector : AnomalyDetector.Detection unit :=
  {| AnomalyDetector.models := [];
     AnomalyDetector.robust := None;
     AnomalyDetector.baseline_stats := [];
     AnomalyDetector.is_trained := false |}.

Definition dust_run :=
  AnomalyDetector.detect_anomalies unit (fun _ d _ => (d, true))
    (fun _ _ _ => None) (fun _ => None) Scenario.zero_deviation
    (string * Series) as_frame idle_detector dust_frame None.

(** A single reading of fine dust. *)
Definition single_reading : DataFrame := [ ("pm25"%string, [Some 500]) ].

(** Eleven turbidity readings, the last one far off. *)
Definition spike_column : Series :=
  map Some [3; 4; 5; 4; 3; 5; 4; 3; 5; 4; 1000].

Definition spike_frame : DataFrame := [ ("turbidity"%string, spike_column) ].

End Cases.

(* ================================================================== *)
(** * Properties                                                       *)
(* ================================================================== *)

Section AqiBoundary.
Import Num DataPreprocessor.

Lemma aqi_above_top (c : Q) :
  (3504 # 10) < c -> pm25_to_aqi c = 500%Z.
Proof.
  intros Hc. unfold pm25_to_aqi, pm25_breakpoints, aqi_from.
  repeat match goal with
  | |- context [Qle_bool c ?hi] =>
      let E := fresh "E" in
      destruct (Qle_bool c hi) eqn:E;
      [ apply Qle_bool_iff in E; exfalso; lra | rewrite ?andb_false_r ]
  end.
  reflexivity.
Qed.

(** C7.  The PM2.5 sub-index is 50 at exactly 12.0, 51 at 12.1 (the lower
    bound of the next tier), and 500 for every concentration above the
    top breakpoint 350.4. *)
Theorem pm25_aqi_boundary :
  pm25_to_aqi 12 = 50%Z /\
  pm25_to_aqi (121 # 10) = 51%Z /\
  (forall c : Q, (3504 # 10) < c -> pm25_to_aqi c = 500%Z).
Proof.
  split; [ vm_compute; reflexivity | split; [ vm_compute; reflexivity | ] ].
  exact aqi_above_top.
Qed.

Lemma pm25_aqi_boundary_witness :
  (3504 # 10) < 400 /\ pm25_to_aqi 400 = 500%Z.
Proof.
  split; [ reflexivity | ].
  apply (proj2 (proj2 pm25_aqi_boundary)). reflexivity.
Defined.

End AqiBoundary.

(* ------------------------------------------------------------------ *)
(** ** Booleans on rationals, frames                                   *)
(* ------------------------------------------------------------------ *)

Section Basics.
Import Num Frame.

Lemma Qlt_bool_iff (x y : Q) : Qlt_bool x y = true <-> x < y.
Proof.
  unfold Qlt_bool. rewrite negb_true_iff.
  split; intros H.
  - apply Qnot_le_lt. intros Hle. apply Qle_bool_iff in Hle. congruence.
  - destruct (Qle_bool y x) eqn:E; [ | reflexivity ].
    apply Qle_bool_iff in E. lra.
Qed.

Lemma Qlt_bool_false (x y : Q) : Qlt_bool x y = false <-> y <= x.
Proof.
  unfold Qlt_bool. rewrite negb_false_iff. apply Qle_bool_iff.
Qed.

Lemma Qle_bool_false (x y : Q) : Qle_bool x y = false <-> y < x.
Proof.
  split; intros H.
  - apply Qnot_le_lt. intros Hle. apply Qle_bool_iff in Hle. congruence.
  - destruct (Qle_bool x y) eqn:E; [ | reflexivity ].
    apply Qle_bool_iff in E. lra.
Qed.

Lemma has_column_lookup (name : string) (df : DataFrame) :
  has_column name df = true <-> exists s, get_column name df = Some s.
Proof.
  unfold has_column, get_column, columns.
  induction df as [ | [c s] t IH ]; simpl.
  - split; [ discriminate | intros [s Hs]; discriminate ].
  - destruct (String.eqb name c); simpl.
    + split; [ eauto | reflexivity ].
    + exact IH.
Qed.

Lemma lookup_select (name : string) (names : list string) (df : DataFrame)
  (s : Series) :
  In name names -> get_column name df = Some s ->
  lookup name (select names df) = Some s.
Proof.
  intros Hin Hs. induction names as [ | n t IH ]; [ destruct Hin | ].
  simpl. destruct (String.eqb name n) eqn:E.
  - apply String.eqb_eq in E. subst n. rewrite Hs. simpl.
    rewrite String.eqb_refl. reflexivity.
  - destruct Hin as [ -> | Hin ]; [ rewrite String.eqb_refl in E; discriminate | ].
    destruct (get_column n df); simpl; [ rewrite E | ]; auto.
Qed.

Lemma lookup_fillna (name : string) (v : Q) (df : DataFrame) :
  lookup name (fillna_frame v df) =
  option_map (map (fill_cell v)) (lookup name df).
Proof.
  induction df as [ | [c s] t IH ]; simpl; [ reflexivity | ].
  destruct (String.eqb name c); simpl; auto.
Qed.

Lemma row_get_latest (name : string) (d : Q) (t : Table) :
  table_empty t = false ->
  row_get name d (latest_row t) =
  match lookup name t with
  | Some s => last s 0
  | None => d
  end.
Proof.
  intros He. unfold latest_row. rewrite He. clear He.
  induction t as [ | [c s] t IH ]; simpl; [ reflexivity | ].
  destruct (String.eqb name c); auto.
Qed.

Lemma last_map_fill (v : Q) (s : Series) (x : Q) :
  last s None = Some x -> last (map (fill_cell v) s) 0 = x.
Proof.
  induction s as [ | c s IH ]; simpl; [ discriminate | ].
  destruct s as [ | c' s' ].
  - simpl. intros ->. reflexivity.
  - intros H. specialize (IH H). exact IH.
Qed.

End Basics.

(** Case analysis on the rational comparisons of a goal, each branch
    keeping the comparison as an ordinary inequality. *)
Ltac qcases :=
  repeat match goal with
  | |- context [Num.Qlt_bool ?a ?b] =>
      let E := fresh "E" in
      destruct (Num.Qlt_bool a b) eqn:E;
      [ apply Qlt_bool_iff in E | apply Qlt_bool_false in E ]
  | |- context [Qle_bool ?a ?b] =>
      let E := fresh "E" in
      destruct (Qle_bool a b) eqn:E;
      [ apply Qle_bool_iff in E | apply Qle_bool_false in E ]
  end.

(* ------------------------------------------------------------------ *)
(** ** Means, order statistics and counts                              *)
(* ------------------------------------------------------------------ *)

Section NumFacts.
Import Num.

Lemma Qlen_cons {A : Type} (x : A) (l : list A) : Qlen (x :: l) == 1 + Qlen l.
Proof.
  unfold Qlen. cbn [List.length]. rewrite Nat2Z.inj_succ.
  unfold Z.succ. rewrite inject_Z_plus. change (inject_Z 1) with 1. ring.
Qed.

Lemma Qlen_nonneg {A : Type} (l : list A) : 0 <= Qlen l.
Proof.
  unfold Qlen. change 0 with (inject_Z 0). rewrite <- Zle_Qle. lia.
Qed.

Lemma Qlen_pos {A : Type} (l : list A) : l <> [] -> 0 < Qlen l.
Proof.
  destruct l as [ | x t ]; [ congruence | intros _ ].
  rewrite Qlen_cons. pose proof (Qlen_nonneg t). lra.
Qed.

Lemma Qsum_bounds (a b : Q) (l : list Q) :
  Forall (fun x => a <= x <= b) l ->
  a * Qlen l <= Qsum l <= b * Qlen l.
Proof.
  induction 1 as [ | x t Hx _ IH ].
  - unfold Qlen. cbn [List.length Z.of_nat Qsum].
    change (inject_Z 0) with 0. lra.
  - rewrite Qlen_cons. cbn [Qsum]. nra.
Qed.

Lemma np_mean_bounds (a b : Q) (l : list Q) :
  l <> [] -> Forall (fun x => a <= x <= b) l ->
  a <= np_mean l <= b.
Proof.
  intros Hne Hall. pose proof (Qlen_pos l Hne) as Hpos.
  pose proof (Qsum_bounds a b l Hall) as [Hlo Hhi].
  unfold np_mean. split.
  - apply Qle_shift_div_l; assumption.
  - apply Qle_shift_div_r; assumption.
Qed.

(** Sorting. *)
Lemma insert_perm (x : Q) (l : list Q) : Permutation (x :: l) (insert x l).
Proof.
  induction l as [ | y t IH ]; simpl; [ reflexivity | ].
  destruct (Qle_bool x y); [ reflexivity | ].
  rewrite perm_swap. apply perm_skip, IH.
Qed.

Lemma sort_perm (l : list Q) : Permutation l (sort l).
Proof.
  induction l as [ | x t IH ]; simpl; [ constructor | ].
  rewrite <- insert_perm. apply perm_skip, IH.
Qed.

Lemma length_sort (l : list Q) : List.length (sort l) = List.length l.
Proof. symmetry. apply Permutation_length, sort_perm. Qed.

Lemma insert_sorted (x : Q) (l : list Q) :
  StronglySorted Qle l -> StronglySorted Qle (insert x l).
Proof.
  induction 1 as [ | y t Ht IH Hy ]; simpl.
  - repeat constructor.
  - destruct (Qle_bool x y) eqn:E.
    + apply Qle_bool_iff in E. constructor; [ constructor; assumption | ].
      constructor; [ exact E | ].
      eapply Forall_impl; [ | exact Hy ]. intros z Hz. simpl in Hz. lra.
    + apply Qle_bool_false in E. constructor; [ exact IH | ].
      eapply Permutation_Forall; [ apply insert_perm | ].
      constructor; [ lra | exact Hy ].
Qed.

Lemma sort_sorted (l : list Q) : StronglySorted Qle (sort l).
Proof.
  induction l as [ | x t IH ]; simpl; [ constructor | ].
  apply insert_sorted, IH.
Qed.

Lemma sorted_nth (s : list Q) :
  StronglySorted Qle s ->
  forall i j, (i <= j)%nat -> (j < List.length s)%nat ->
              nth i s 0 <= nth j s 0.
Proof.
  induction 1 as [ | x t Ht IH Hx ]; intros i j Hij Hj; simpl in Hj.
  - lia.
  - destruct i as [ | i ], j as [ | j ]; simpl; try lia.
    + lra.
    + rewrite Forall_forall in Hx. apply Hx, nth_In. lia.
    + apply IH; lia.
Qed.

(** Counting. *)
Lemma count_perm (p : Q -> bool) (l l' : list Q) :
  Permutation l l' -> count p l = count p l'.
Proof.
  induction 1 as [ | x l l' _ IH | x y l | l l' l'' _ IH1 _ IH2 ]; simpl.
  - reflexivity.
  - rewrite IH. reflexivity.
  - destruct (p x), (p y); reflexivity.
  - congruence.
Qed.

Lemma count_split (p : Q -> bool) (l : list Q) :
  (count p l + count (fun x => negb (p x)) l = List.length l)%nat.
Proof.
  induction l as [ | x t IH ]; simpl; [ reflexivity | ].
  destruct (p x); simpl; lia.
Qed.

Lemma count_or (p q : Q -> bool) (l : list Q) :
  (count (fun x => p x || q x) l <= count p l + count q l)%nat.
Proof.
  induction l as [ | x t IH ]; simpl; [ lia | ].
  destruct (p x), (q x); simpl; lia.
Qed.

Lemma count_none (p : Q -> bool) (l : list Q) :
  (forall x, In x l -> p x = false) -> count p l = O.
Proof.
  induction l as [ | x t IH ]; intros H; simpl; [ reflexivity | ].
  rewrite (H x) by (left; reflexivity). apply IH.
  intros y Hy. apply H. right. exact Hy.
Qed.

Lemma count_range (p : Q -> bool) (s : list Q) :
  forall a b, (b <= List.length s)%nat ->
    (forall i, (a <= i < b)%nat -> p (nth i s 0) = true) ->
    (b - a <= count p s)%nat.
Proof.
  induction s as [ | x t IH ]; intros a b Hb Hp; simpl in *.
  - lia.
  - destruct b as [ | b ]; [ lia | ].
    destruct a as [ | a ].
    + rewrite (Hp O) by lia.
      specialize (IH O b). 
      assert (b - 0 <= count p t)%nat.
      { apply IH; [ lia | ]. intros i Hi. apply (Hp (S i)). lia. }
      lia.
    + assert (b - a <= count p t)%nat.
      { apply IH; [ lia | ]. intros i Hi. apply (Hp (S i)). lia. }
      destruct (p x); simpl; lia.
Qed.


(** Order statistics. *)
Lemma Qfloor_quarter (k : Z) : Qfloor ((1 # 4) * inject_Z k) = (k / 4)%Z.
Proof.
  unfold Qfloor, Qmult, inject_Z. simpl. destruct k; reflexivity.
Qed.

Lemma Qfloor_three_quarters (k : Z) :
  Qfloor ((3 # 4) * inject_Z k) = (3 * k / 4)%Z.
Proof.
  unfold Qfloor, Qmult, inject_Z. simpl. reflexivity.
Qed.

Lemma frac_unit (x : Q) : 0 <= x - inject_Z (Qfloor x) < 1.
Proof.
  pose proof (Qfloor_le x) as H1. pose proof (Qlt_floor x) as H2.
  rewrite inject_Z_plus in H2. change (inject_Z 1) with 1 in H2.
  split; lra.
Qed.

Lemma quantile_bounds (q : Q) (l : list Q) :
  l <> [] -> 0 <= q <= 1 ->
  let n := List.length l in
  let lo := Z.to_nat (Qfloor (q * inject_Z (Z.of_nat n - 1))) in
  (lo <= n - 1)%nat /\
  nth lo (sort l) 0 <= quantile q l
  /\ quantile q l <= nth (Nat.min (S lo) (n - 1)) (sort l) 0.
Proof.
  intros Hne [Hq0 Hq1] n lo.
  assert (Hn : (0 < n)%nat)
    by (unfold n; destruct l; [ congruence | simpl; lia ]).
  set (k := (Z.of_nat n - 1)%Z) in *.
  assert (Hk : (0 <= k)%Z) by (unfold k; lia).
  assert (Hkq : 0 <= inject_Z k)
    by (change 0 with (inject_Z 0); rewrite <- Zle_Qle; exact Hk).
  set (pos := q * inject_Z k) in *.
  assert (Hpos : 0 <= pos <= inject_Z k).
  { unfold pos. revert Hkq. generalize (inject_Z k). intros K HK.
    split; nra. }
  assert (Hfl : (0 <= Qfloor pos <= k)%Z).
  { split.
    - change 0%Z with (Qfloor (inject_Z 0)). apply Qfloor_resp_le, Hpos.
    - rewrite <- (Qfloor_Z k). apply Qfloor_resp_le, Hpos. }
  assert (Hlo : (lo <= n - 1)%nat) by (unfold lo, k in *; lia).
  split; [ exact Hlo | ].
  unfold quantile. fold n. fold k. fold pos.
  replace (Z.to_nat (Z.min (Qfloor pos + 1) k)) with (Nat.min (S lo) (n - 1))
    by (unfold lo, k in *; lia).
  fold lo.
  pose proof (frac_unit pos) as Hfrac.
  assert (Hab : nth lo (sort l) 0 <= nth (Nat.min (S lo) (n - 1)) (sort l) 0).
  { apply sorted_nth; [ apply sort_sorted | lia | rewrite length_sort; fold n; lia ]. }
  set (a := nth lo (sort l) 0) in *.
  set (b := nth (Nat.min (S lo) (n - 1)) (sort l) 0) in *.
  set (f := pos - inject_Z (Qfloor pos)) in *.
  destruct Hfrac as [Hf0 Hf1].
  split; nra.
Qed.


End NumFacts.

Section FlaggedFraction.
Import Num Frame AnomalyDetector.

(** The interquartile fences leave the middle of the sorted column
    unflagged: every order statistic from the one above the lower
    quartile's position up to the one at the upper quartile's position. *)
Lemma iqr_middle (l : list Q) (i : nat) :
  let k := (Z.of_nat (List.length l) - 1)%Z in
  (S (Z.to_nat (k / 4)) <= i <= Z.to_nat (3 * k / 4))%nat ->
  iqr_flag l (nth i (sort l) 0) = false.
Proof.
  intros k Hi.
  assert (Hne : l <> []).
  { intros ->. unfold k in Hi. simpl in Hi. lia. }
  assert (Hq1 : 0 <= (1 # 4) <= 1) by (split; discriminate).
  assert (Hq3 : 0 <= (3 # 4) <= 1) by (split; discriminate).
  pose proof (quantile_bounds (1 # 4) l Hne Hq1) as [Hlo1 [_ Hup1]].
  pose proof (quantile_bounds (3 # 4) l Hne Hq3) as [Hlo3 [Hdn3 _]].
  cbv zeta in Hlo1, Hup1, Hlo3, Hdn3.
  fold k in Hlo1, Hup1, Hlo3, Hdn3.
  rewrite Qfloor_quarter in Hlo1, Hup1.
  rewrite Qfloor_three_quarters in Hlo3, Hdn3.
  set (lo1 := Z.to_nat (k / 4)) in *.
  set (lo3 := Z.to_nat (3 * k / 4)) in *.
  assert (H1 : nth (Nat.min (S lo1) (List.length l - 1)) (sort l) 0
               <= nth i (sort l) 0)
    by (apply sorted_nth; [ apply sort_sorted | lia | rewrite length_sort; lia ]).
  assert (H3 : nth i (sort l) 0 <= nth lo3 (sort l) 0)
    by (apply sorted_nth; [ apply sort_sorted | lia | rewrite length_sort; lia ]).
  unfold iqr_flag.
  set (Q1 := quantile (1 # 4) l) in *.
  set (Q3 := quantile (3 # 4) l) in *.
  apply orb_false_iff. split; apply Qlt_bool_false; lra.
Qed.

Lemma iqr_count (l : list Q) :
  let k := (Z.of_nat (List.length l) - 1)%Z in
  (count (iqr_flag l) l + (Z.to_nat (3 * k / 4) - Z.to_nat (k / 4))
   <= List.length l)%nat.
Proof.
  intros k.
  rewrite (count_perm _ _ _ (sort_perm l)).
  pose proof (count_split (iqr_flag l) (sort l)) as Hsplit.
  rewrite length_sort in Hsplit.
  destruct (Nat.eq_dec (List.length l) 0) as [Hz | Hnz].
  - assert (Z.to_nat (3 * k / 4) = O)
      by (unfold k; rewrite Hz; reflexivity).
    lia.
  - assert (Hk : (0 <= 3 * k / 4 <= k)%Z)
      by (unfold k; Z.div_mod_to_equations; lia).
    assert (Hmid : (S (Z.to_nat (3 * k / 4)) - S (Z.to_nat (k / 4))
                    <= count (fun x => negb (iqr_flag l x)) (sort l))%nat).
    { apply count_range.
      - rewrite length_sort. unfold k in *. lia.
      - intros i Hi. rewrite iqr_middle; [ reflexivity | fold k; lia ]. }
    lia.
Qed.

Lemma squares_of_flagged (m v : Q) (l : list Q) :
  9 * v * inject_Z (Z.of_nat
                      (count (fun x => Qlt_bool (3 * 3 * v) ((x - m) * (x - m))) l))
  <= Qsum (map (fun x => (x - m) * (x - m)) l).
Proof.
  induction l as [ | x t IH ].
  - cbn [map Qsum count Z.of_nat]. change (inject_Z 0) with 0. lra.
  - cbn [map Qsum count].
    destruct (Qlt_bool _ _) eqn:E.
    + apply Qlt_bool_iff in E. rewrite Nat2Z.inj_succ. unfold Z.succ.
      rewrite inject_Z_plus. change (inject_Z 1) with 1.
      revert IH. generalize (inject_Z (Z.of_nat
        (count (fun x => Qlt_bool (3 * 3 * v) ((x - m) * (x - m))) t))).
      generalize (Qsum (map (fun x => (x - m) * (x - m)) t)).
      intros S c IH.
      set (y := (x - m) * (x - m)) in *. clearbody y. lra.
    + assert (0 <= (x - m) * (x - m))
        by (set (y := x - m); clearbody y; nra).
      lra.
Qed.

(** Chebyshev's inequality for the 3-sigma mask: at most one point in nine
    can be flagged. *)
Lemma zflag_count (l : list Q) :
  (9 * count (z_flag l) l <= List.length l)%nat.
Proof.
  unfold z_flag, zscore_exceeds.
  destruct (Qlt_bool 0 (pvariance l)) eqn:Ev.
  2:{ rewrite count_none; [ lia | intros; reflexivity ]. }
  apply Qlt_bool_iff in Ev. cbn [andb].
  assert (Hne : l <> []).
  { intros ->. vm_compute in Ev. discriminate. }
  pose proof (squares_of_flagged (np_mean l) (pvariance l) l) as Hsum.
  assert (Hv : Qsum (map (fun x => (x - np_mean l) * (x - np_mean l)) l)
               == pvariance l * Qlen l).
  { unfold pvariance. pose proof (Qlen_pos l Hne). field. lra. }
  rewrite Hv in Hsum. unfold Qlen in Hsum.
  assert (Hq : 9 * inject_Z (Z.of_nat
                 (count (fun x => Qlt_bool (3 * 3 * pvariance l)
                                   ((x - np_mean l) * (x - np_mean l))) l))
               <= inject_Z (Z.of_nat (List.length l))).
  { revert Hsum Ev. generalize (pvariance l).
    generalize (inject_Z (Z.of_nat
      (count (fun x => Qlt_bool (3 * 3 * pvariance l)
                        ((x - np_mean l) * (x - np_mean l))) l))).
    generalize (inject_Z (Z.of_nat (List.length l))).
    intros n c v Hsum Ev. nra. }
  change 9 with (inject_Z 9) in Hq. rewrite <- inject_Z_mult in Hq.
  rewrite <- Zle_Qle in Hq. lia.
Qed.


(** One or two points are never fenced out. *)
Lemma iqr_flag_single (x : Q) : iqr_flag [x] x = false.
Proof.
  unfold iqr_flag, quantile. cbn [sort insert List.length nth].
  change (Z.of_nat 1 - 1)%Z with 0%Z.
  change (Qfloor ((1 # 4) * inject_Z 0)) with 0%Z.
  change (Qfloor ((3 # 4) * inject_Z 0)) with 0%Z.
  change (Z.to_nat (Z.min (0 + 1) 0)) with O.
  change (Z.to_nat 0) with O. cbn [nth].
  apply orb_false_iff. split; apply Qlt_bool_false; lra.
Qed.

Lemma iqr_flag_pair (x y z : Q) : In z [x; y] -> iqr_flag [x; y] z = false.
Proof.
  intros Hz. unfold iqr_flag, quantile. cbn [sort insert List.length].
  change (Z.of_nat 2 - 1)%Z with 1%Z.
  change (Qfloor ((1 # 4) * inject_Z 1)) with 0%Z.
  change (Qfloor ((3 # 4) * inject_Z 1)) with 0%Z.
  change (Z.to_nat (Z.min (0 + 1) 1)) with 1%nat.
  change (Z.to_nat 0) with O.
  change (inject_Z 1) with 1. change (inject_Z 0) with 0.
  apply orb_false_iff.
  destruct (Qle_bool x y) eqn:E;
    [ apply Qle_bool_iff in E | apply Qle_bool_false in E ];
    cbn [nth];
    destruct Hz as [ <- | [ <- | [] ] ];
    split; apply Qlt_bool_false; lra.
Qed.

(** At most ten points in thirteen of a column are flagged by either
    test. *)
Lemma flagged_bound (values : list Q) :
  (13 * count (fun x => z_flag values x || iqr_flag values x) values
   <= 10 * List.length values)%nat.
Proof.
  pose proof (count_or (z_flag values) (iqr_flag values) values) as Hor.
  pose proof (zflag_count values) as Hz.
  pose proof (iqr_count values) as Hi. cbv zeta in Hi.
  destruct values as [ | x [ | y [ | z t ] ] ].
  - simpl. lia.
  - assert (count (iqr_flag [x]) [x] = O).
    { apply count_none. intros w [ <- | [] ]. apply iqr_flag_single. }
    simpl List.length in *. lia.
  - assert (count (iqr_flag [x; y]) [x; y] = O).
    { apply count_none. intros w Hw. apply iqr_flag_pair, Hw. }
    simpl List.length in *. lia.
  - set (l := x :: y :: z :: t) in *.
    assert (Hn : (3 <= List.length l)%nat) by (unfold l; simpl; lia).
    revert Hor Hz Hi Hn.
    generalize (count (fun x0 => z_flag l x0 || iqr_flag l x0) l).
    generalize (count (z_flag l) l). generalize (count (iqr_flag l) l).
    generalize (List.length l). clear.
    intros n ci cz c Hor Hz Hi Hn.
    assert (Hdiv : (Z.to_nat (3 * (Z.of_nat n - 1) / 4)
                    - Z.to_nat ((Z.of_nat n - 1) / 4)
                    = Z.to_nat (3 * (Z.of_nat n - 1) / 4 - (Z.of_nat n - 1) / 4))%nat).
    { Z.div_mod_to_equations. lia. }
    rewrite Hdiv in Hi. clear Hdiv.
    Z.div_mod_to_equations. lia.
Qed.

End FlaggedFraction.

(* ------------------------------------------------------------------ *)
(** ** The threat classifier                                           *)
(* ------------------------------------------------------------------ *)

Section StormRule.
Import Num Frame ThreatDetectionEngine.

(** C6.  With the storm ensemble initialised but not trained, a frame whose
    latest row has wind speed 130 and pressure 970 is classified as a
    storm of severity 5, detected, with confidence at least 0.95 (the
    pressure bonus lifts it to the cap 1.0). *)
Theorem storm_rule_fallback (data : DataFrame) (ws ps : Series) :
  get_column "wind_speed" data = Some ws ->
  get_column "pressure" data = Some ps ->
  last ws None = Some 130 ->
  last ps None = Some 970 ->
  exists r,
    _detect_single_threat initialized "storm" data = Some r /\
    threat_type r = "storm"%string /\
    severity r = 5%Z /\
    detected r = true /\
    (95 # 100) <= confidence r /\
    detection_method r = "rule_based"%string.
Proof.
  intros Hws Hps Hlw Hlp.
  unfold _detect_single_threat. cbv zeta.
  change (lookup "storm" (feature_columns initialized))
    with (Some ["wind_speed"; "pressure"; "temperature"; "humidity";
                "visibility"; "wind_direction"]%string).
  change (lookup "storm" (is_trained initialized)) with (Some false).
  change (lookup "storm" confidence_thresholds) with (Some (80 # 100)).
  set (req := ["wind_speed"; "pressure"; "temperature"; "humidity";
               "visibility"; "wind_direction"]%string).
  set (avail := filter (fun f => has_column f data) req).
  assert (Hw : has_column "wind_speed" data = true)
    by (apply has_column_lookup; eauto).
  assert (Hp : has_column "pressure" data = true)
    by (apply has_column_lookup; eauto).
  assert (Hshape : exists rest, avail = "wind_speed"%string :: "pressure"%string :: rest).
  { unfold avail, req. simpl. rewrite Hw, Hp. eauto. }
  destruct Hshape as [rest Havail].
  assert (Hlen : (List.length avail <? 2)%nat = false)
    by (rewrite Havail; reflexivity).
  fold avail. rewrite Hlen.
  set (fd := fillna_frame 0 (select avail data)).
  assert (Hne : table_empty fd = false).
  { unfold fd. rewrite Havail. simpl. rewrite Hws.
    simpl. destruct ws; [ discriminate | reflexivity ]. }
  assert (Hwind : row_get "wind_speed" 0 (latest_row fd) = 130).
  { rewrite row_get_latest by exact Hne. unfold fd.
    rewrite lookup_fillna, (lookup_select _ _ _ ws).
    - simpl. apply last_map_fill, Hlw.
    - rewrite Havail. simpl. auto.
    - exact Hws. }
  assert (Hpres : row_get "pressure" 1013 (latest_row fd) = 970).
  { rewrite row_get_latest by exact Hne. unfold fd.
    rewrite lookup_fillna, (lookup_select _ _ _ ps).
    - simpl. apply last_map_fill, Hlp.
    - rewrite Havail. simpl. auto.
    - exact Hps. }
  assert (Hrule : _rule_based_detection "storm" fd avail = (1, 5%Z)).
  { unfold _rule_based_detection. simpl String.eqb. cbv iota.
    unfold storm_rule. rewrite Hwind, Hpres. reflexivity. }
  rewrite Hrule.
  eexists. split; [ reflexivity | ]. simpl.
  repeat split; try reflexivity. vm_compute. discriminate.
Qed.

(** The scenario itself: a single reading [{wind_speed: 130, pressure: 970}]. *)
Lemma storm_rule_fallback_witness :
  exists r,
    _detect_single_threat initialized "storm"
      [ ("wind_speed"%string, [Some 130]); ("pressure"%string, [Some 970]) ]
      = Some r /\
    threat_type r = "storm"%string /\ severity r = 5%Z /\
    detected r = true /\ (95 # 100) <= confidence r /\
    detection_method r = "rule_based"%string.
Proof.
  apply (storm_rule_fallback
           [ ("wind_speed"%string, [Some 130]); ("pressure"%string, [Some 970]) ]
           [Some 130] [Some 970]); reflexivity.
Defined.

(** C9.  The storm ladder is monotone in the wind speed: of two latest rows
    that agree on every feature but [wind_speed], the one with the larger
    wind speed never gets the smaller severity. *)
Theorem storm_severity_monotone (fd1 fd2 : Table) (av1 av2 : list string) :
  (forall c d, c <> "wind_speed"%string ->
     row_get c d (latest_row fd1) = row_get c d (latest_row fd2)) ->
  row_get "wind_speed" 0 (latest_row fd1)
    <= row_get "wind_speed" 0 (latest_row fd2) ->
  (snd (_rule_based_detection "storm" fd1 av1)
     <= snd (_rule_based_detection "storm" fd2 av2))%Z.
Proof.
  intros Hsame Hwind.
  unfold _rule_based_detection. simpl String.eqb. cbv iota.
  unfold storm_rule.
  rewrite (Hsame "pressure"%string 1013) by discriminate.
  set (w1 := row_get "wind_speed" 0 (latest_row fd1)) in *.
  set (w2 := row_get "wind_speed" 0 (latest_row fd2)) in *.
  set (p := row_get "pressure" 1013 (latest_row fd2)).
  qcases; simpl; try lia; exfalso; lra.
Qed.

Lemma storm_severity_monotone_witness :
  Z.le
    (snd (_rule_based_detection "storm"
            [ ("wind_speed"%string, [50]); ("pressure"%string, [990]) ]
            [ "wind_speed"; "pressure" ]%string))
    (snd (_rule_based_detection "storm"
            [ ("wind_speed"%string, [100]); ("pressure"%string, [990]) ]
            [ "wind_speed"; "pressure" ]%string)).
Proof.
  apply storm_severity_monotone.
  - intros c d Hc. simpl.
    destruct (String.eqb c "wind_speed") eqn:E;
      [ apply String.eqb_eq in E; contradiction | reflexivity ].
  - vm_compute. discriminate.
Defined.

End StormRule.

Section EnsembleSeverity.
Import Num Frame ThreatDetectionEngine.

Lemma clamp_of_zero : clamp_1_5 (py_int (0 * 5) + 1) = 1%Z.
Proof. reflexivity. Qed.

(** C2, as the code has it.  In the trained path the severity is
    [max(1, min(5, int(confidence*5) + 1))] of the confidence the call
    returns, with [int] truncating; nothing else enters it: the engine
    holds no severity threshold table, and the features reach the severity
    through the ensemble confidence only. *)
Theorem ensemble_severity_from_confidence (e : Engine) (threat : string)
  (feature_data : Table) :
  snd (_predict_with_ensemble e threat feature_data)
  = clamp_1_5 (py_int (fst (_predict_with_ensemble e threat feature_data) * 5) + 1).
Proof.
  unfold _predict_with_ensemble.
  destruct (lookup threat (scalers e)) as [transform | ]; [ | reflexivity ].
  destruct (transform feature_data) as [X_scaled | ]; [ | reflexivity ].
  destruct (lookup threat (models e)) as [ms | ]; [ | reflexivity ].
  destruct (collect_confidences ms X_scaled); reflexivity.
Qed.

(** C2, as stated, fails: one classifier that is 72% sure gives
    [int(3.6) + 1 = 4], while [round(3.6) + 1 = 5] and a maximum with any
    table level can only be larger. *)
Lemma ensemble_severity_counterexample :
  snd (_predict_with_ensemble Scenario.trained_storm "storm"
         Scenario.calm_features) = 4%Z /\
  ~ exists table_level : Z,
      snd (_predict_with_ensemble Scenario.trained_storm "storm"
             Scenario.calm_features)
      = Spec.trained_severity
          (fst (_predict_with_ensemble Scenario.trained_storm "storm"
                  Scenario.calm_features)) table_level.
Proof.
  split; [ vm_compute; reflexivity | ].
  intros [level H].
  assert (E : Spec.trained_severity
                (fst (_predict_with_ensemble Scenario.trained_storm "storm"
                        Scenario.calm_features)) level
              = Z.max 5 level)
    by (unfold Spec.trained_severity; f_equal).
  rewrite E in H.
  assert (E4 : snd (_predict_with_ensemble Scenario.trained_storm "storm"
                      Scenario.calm_features) = 4%Z)
    by (vm_compute; reflexivity).
  rewrite E4 in H. lia.
Qed.

End EnsembleSeverity.

(* ------------------------------------------------------------------ *)
(** ** The predictor                                                   *)
(* ------------------------------------------------------------------ *)

Section HorizonLabels.
Import Num Frame ThreatPredictor.

Variable series_std : list Q -> Q.

(** Every example is labelled with the value [max_forecast_hour] steps
    after the end of its window. *)
Lemma label_after_window (values : list Q) (max_forecast_hour j : nat) :
  (j < List.length values - max_forecast_hour - window_size values)%nat ->
  nth j (snd (_create_time_series_features series_std values max_forecast_hour)) 0
  = Spec.label_for values (window_size values + j) max_forecast_hour.
Proof.
  intros Hj. unfold _create_time_series_features, Spec.label_for. simpl snd.
  set (f := fun i => nth (i + max_forecast_hour) values 0).
  rewrite (nth_indep _ 0 (f O))
    by (rewrite length_map, length_seq; exact Hj).
  rewrite map_nth, seq_nth by exact Hj.
  reflexivity.
Qed.

End HorizonLabels.

Section SharedExamples.
Import Num Frame ThreatPredictor Scenario.

(** C1, on the code.  Sixty readings [0..59] of one parameter, horizons 2h
    and 4h: the ensemble kept for 2h and the one kept for 4h were fitted on
    the very same examples, whose labels are the values four steps after
    the window (the largest horizon), not two. *)
Theorem horizon_models_share_examples :
  fitted_examples (snd ramp_run) "temperature" 2
    = fitted_examples (snd ramp_run) "temperature" 4 /\
  fitted_labels (snd ramp_run) "temperature" 2
    = Some (map (fun i => Spec.label_for ramp i 4) (seq 20 36)) /\
  fitted_labels (snd ramp_run) "temperature" 2
    <> Some (map (fun i => Spec.label_for ramp i 2) (seq 20 36)) /\
  fst (fst (fst (fst ramp_run))) = [295 # 5; 295 # 5].
Proof.
  split; [ vm_compute; reflexivity | ].
  split; [ vm_compute; reflexivity | ].
  split; [ vm_compute; discriminate | vm_compute; reflexivity ].
Qed.

End SharedExamples.

Section PredictorFacts.
Import Num Frame ThreatPredictor.

Context {Estimator : Type}.
Variable fit_evaluate :
  Estimator -> list (list Q) -> list Q -> list (list Q) -> list Q ->
  Estimator * option Metrics.
Variable predict_one : Estimator -> list Q -> option Q.
Variable train_test_split :
  list (list Q) -> list Q ->
  list (list Q) * list (list Q) * list Q * list Q.
Variable standard_scale : list (list Q) -> list (list Q) -> list (list Q).
Variable series_std : list Q -> Q.
Variable np_std : list Q -> Q.
Context {Reading : Type}.
Variable pandas_frame : list Reading -> option DataFrame.

Local Abbreviation run_threats :=
  (predict_threats Estimator fit_evaluate predict_one train_test_split
     standard_scale series_std np_std Reading pandas_frame).
Local Abbreviation run_parameters :=
  (predict_parameters Estimator fit_evaluate predict_one train_test_split
     standard_scale series_std np_std).

(** The descending loop stops at the first threshold: for a descending
    table the severity is 2 at or below the head and 1 above it. *)
Lemma first_at_or_below_head (t : Q) (rest : list Q) (v : Q) :
  Forall (fun t' => t' <= t) rest ->
  first_at_or_below (t :: rest) 0 v = if Qle_bool v t then 2%Z else 1%Z.
Proof.
  intros Hdesc. simpl.
  destruct (Qle_bool v t) eqn:E; [ reflexivity | ].
  apply Qle_bool_false in E.
  generalize 1%Z at 1. intros i.
  revert i. induction Hdesc as [ | t' rest' Ht' _ IH ]; intros i; simpl.
  - reflexivity.
  - destruct (Qle_bool v t') eqn:E'; [ | apply IH ].
    apply Qle_bool_iff in E'. exfalso. lra.
Qed.

Lemma pressure_severity (v : Q) :
  _assess_threat_severity "pressure" v = if Qle_bool v 1000 then 2%Z else 1%Z.
Proof.
  change (_assess_threat_severity "pressure" v)
    with (first_at_or_below [1000; 990; 980; 970] 0 v).
  apply first_at_or_below_head.
  repeat constructor; discriminate.
Qed.

Lemma visibility_severity (v : Q) :
  _assess_threat_severity "visibility" v = if Qle_bool v 5 then 2%Z else 1%Z.
Proof.
  change (_assess_threat_severity "visibility" v)
    with (first_at_or_below [5; 3; 2; 1] 0 v).
  apply first_at_or_below_head.
  repeat constructor; discriminate.
Qed.

Lemma parameter_alerts_sound (parameter : string) (hours : list nat)
  (preds : list Q) (intervals : list (Q * Q)) :
  Forall Spec.alert_sound (parameter_alerts parameter hours preds intervals).
Proof.
  revert preds intervals.
  induction hours as [ | h hours IH ]; intros preds intervals; simpl.
  - constructor.
  - destruct preds as [ | p preds ]; [ constructor | ].
    destruct (3 <=? _assess_threat_severity parameter p)%Z eqn:E.
    + constructor; [ | apply IH ].
      split; simpl; [ reflexivity | apply Z.leb_le, E ].
    + apply IH.
Qed.

Lemma predict_parameters_sound (parameters : list string) :
  forall st df hours acc,
    Forall Spec.alert_sound (acc_alerts acc) ->
    Forall Spec.alert_sound
      (acc_alerts (fst (run_parameters st df parameters hours acc))).
Proof.
  induction parameters as [ | parameter rest IH ]; intros st df hours acc Hacc.
  - exact Hacc.
  - simpl. destruct (get_column parameter df) as [column | ].
    + destruct (_predict_parameter _ _ _ _ _ _ _ st column parameter hours)
        as [[[[preds intervals] trend] risk] st1].
      apply IH. simpl. apply Forall_app. split; [ exact Hacc | ].
      apply parameter_alerts_sound.
    + apply IH, Hacc.
Qed.

Lemma alerts_sound st data hours :
  Forall Spec.alert_sound (alerts_predicted (fst (run_threats st data hours))).
Proof.
  unfold predict_threats.
  destruct (empty _ || _)%bool; [ constructor | ].
  match goal with
  | |- context [predict_parameters _ _ _ _ _ _ _ ?s ?d ?ps ?hs ?a] =>
      pose proof (predict_parameters_sound ps s d hs a) as H;
      destruct (predict_parameters _ _ _ _ _ _ _ s d ps hs a) as [acc st1]
  end.
  simpl in *. apply H. constructor.
Qed.

(** C10.  For the descending tables the severity is 2 when the value is at
    or below the first threshold (pressure 1000 hPa, visibility 5 km) and 1
    otherwise, so never more than 2; and no run of [predict_threats] puts a
    pressure or visibility entry in the predicted alerts. *)
Theorem descending_severity_at_most_two :
  (forall v : Q,
     _assess_threat_severity "pressure" v
     = if Qle_bool v 1000 then 2%Z else 1%Z) /\
  (forall v : Q,
     _assess_threat_severity "visibility" v
     = if Qle_bool v 5 then 2%Z else 1%Z) /\
  (forall st data hours,
     Forall (fun a => alert_parameter a <> "pressure"%string /\
                      alert_parameter a <> "visibility"%string)
       (alerts_predicted (fst (run_threats st data hours)))).
Proof.
  split; [ exact pressure_severity | ].
  split; [ exact visibility_severity | ].
  intros st data hours.
  eapply Forall_impl; [ | apply alerts_sound ].
  intros a [Hsev Hge]. split; intros Hp; rewrite Hp in Hsev.
  - rewrite pressure_severity in Hsev.
    destruct (Qle_bool _ _); lia.
  - rewrite visibility_severity in Hsev.
    destruct (Qle_bool _ _); lia.
Qed.

(** What pandas is relied on for: every row of the frame it builds comes
    from at least one record. *)
Hypothesis frame_rows :
  forall data df, pandas_frame data = Some df ->
                  (nrows df <= List.length data)%nat.

(** C8.  With fewer records than [min_data_points = 50], the empty list
    included, [predict_threats] returns the empty prediction tagged
    "Insufficient historical data", and leaves the predictor as it was. *)
Theorem insufficient_history st (data : list Reading) hours :
  (List.length data < min_data_points)%nat ->
  run_threats st data hours
    = (_create_empty_prediction "Insufficient historical data", st)
  /\ predictions (fst (run_threats st data hours)) = []
  /\ alerts_predicted (fst (run_threats st data hours)) = []
  /\ metadata (fst (run_threats st data hours))
     = MetaError "Insufficient historical data".
Proof.
  intros Hlen.
  assert (E : run_threats st data hours
              = (_create_empty_prediction "Insufficient historical data", st)).
  { unfold predict_threats.
    assert (Hb : (empty (_prepare_features Reading pandas_frame data)
                  || (nrows (_prepare_features Reading pandas_frame data)
                      <? min_data_points)%nat)%bool = true).
    { apply orb_true_iff. right. apply Nat.ltb_lt.
      unfold _prepare_features. destruct data as [ | r rs ].
      - simpl. unfold min_data_points. lia.
      - destruct (pandas_frame (r :: rs)) as [df | ] eqn:Hp.
        + apply frame_rows in Hp. lia.
        + simpl. unfold min_data_points. lia. }
    rewrite Hb. reflexivity. }
  rewrite E. repeat split.
Qed.

End PredictorFacts.

Section PredictorWitnesses.
Import Num Frame ThreatPredictor Scenario.

(** The scenario of the specification: no history at all. *)
Lemma insufficient_history_witness :
  predict_threats Spy spy_fit spy_predict keep_all no_scaling zero_deviation
    zero_deviation Q temperature_frame spy_predictor [] None
  = (_create_empty_prediction "Insufficient historical data", spy_predictor).
Proof.
  refine (proj1 (insufficient_history spy_fit spy_predict keep_all no_scaling
                   zero_deviation zero_deviation temperature_frame _
                   spy_predictor [] None _)).
  - intros data df H. injection H as <-. simpl. rewrite length_map. lia.
  - unfold min_data_points. simpl. lia.
Defined.

(** A run that does raise alerts, none of them for pressure although the
    predicted 960 hPa is below every pressure threshold. *)
Lemma descending_severity_witness :
  List.length (alerts_predicted (fst gale_run)) = 4%nat /\
  Forall (fun a => alert_parameter a <> "pressure"%string /\
                   alert_parameter a <> "visibility"%string)
    (alerts_predicted (fst gale_run)).
Proof.
  split; [ vm_compute; reflexivity | ].
  apply (proj2 (proj2 (descending_severity_at_most_two spy_fit spy_predict
                         keep_all no_scaling zero_deviation zero_deviation
                         gale_frame))).
Defined.

End PredictorWitnesses.

(* ------------------------------------------------------------------ *)
(** ** The anomaly scorer                                              *)
(* ------------------------------------------------------------------ *)

Section StatisticalPath.
Import Num Frame AnomalyDetector.

(** The column loop adds, to what it was given, the affected columns of
    the frame in column order. *)
Lemma scan_columns_spec (df : DataFrame) :
  forall acc,
    anomalies (scan_columns df acc)
      = anomalies acc ++ map snd (Spec.affected_columns df)
    /\ affected (scan_columns df acc)
      = affected acc ++ map fst (Spec.affected_columns df).
Proof.
  unfold Spec.affected_columns, Spec.weighted_scores.
  induction df as [ | [column cells] rest IH ]; intros acc.
  - simpl. rewrite !app_nil_r. split; reflexivity.
  - cbn [scan_columns flat_map fst snd].
    destruct (dropna cells) as [ | v vs ] eqn:Ev.
    + simpl. apply IH.
    + rewrite filter_app. cbn [filter snd].
      change (Spec.anomalous_fraction (v :: vs) * weight_of column)
        with (weighted_score (column_score column (v :: vs))).
      destruct (Qlt_bool (3 # 10) (weighted_score (column_score column (v :: vs)))).
      * destruct (IH {| anomalies := anomalies acc
                          ++ [weighted_score (column_score column (v :: vs))];
                        anomaly_scores := anomaly_scores acc
                          ++ [(column, column_score column (v :: vs))];
                        affected := affected acc ++ [column] |}) as [H1 H2].
        rewrite H1, H2. cbn [anomalies affected].
        rewrite !map_app, <- !app_assoc. split; reflexivity.
      * destruct (IH {| anomalies := anomalies acc;
                        anomaly_scores := anomaly_scores acc
                          ++ [(column, column_score column (v :: vs))];
                        affected := affected acc |}) as [H1 H2].
        rewrite H1, H2. split; reflexivity.
Qed.

Lemma scan_overall (df : DataFrame) :
  overall_of (anomalies (scan_columns df
                {| anomalies := []; anomaly_scores := []; affected := [] |}))
  = Spec.overall_score df.
Proof.
  destruct (scan_columns_spec df
              {| anomalies := []; anomaly_scores := []; affected := [] |})
    as [Han _].
  cbn [anomalies app] in Han. rewrite Han.
  unfold overall_of, Spec.overall_score.
  destruct (Spec.affected_columns df); reflexivity.
Qed.

(** The column loop records one entry per column that has a value, and
    takes the affected columns and their scores from those entries. *)
Lemma scan_columns_recorded (df : DataFrame) :
  forall acc,
    exists added,
      anomaly_scores (scan_columns df acc) = anomaly_scores acc ++ added
      /\ map fst added
         = map fst (filter (fun cs => negb (forallb DataPreprocessor.is_missing
                                              (snd cs))) df)
      /\ anomalies (scan_columns df acc)
         = anomalies acc
           ++ map (fun cs => weighted_score (snd cs))
                (Shape.above_threshold added)
      /\ affected (scan_columns df acc)
         = affected acc ++ map fst (Shape.above_threshold added).
Proof.
  induction df as [ | [column cells] rest IH ]; intros acc.
  - exists []. cbn. rewrite !app_nil_r. auto.
  - cbn [scan_columns filter snd].
    assert (Hm : forallb DataPreprocessor.is_missing cells
                 = match dropna cells with [] => true | _ => false end).
    { clear. induction cells as [ | [x | ] t IHc ]; cbn; auto. }
    rewrite Hm.
    destruct (dropna cells) as [ | v vs ] eqn:Ev; cbn [negb].
    + apply IH.
    + set (sc := column_score column (v :: vs)).
      destruct (Qlt_bool (3 # 10) (weighted_score sc)) eqn:Et.
      * destruct (IH {| anomalies := anomalies acc ++ [weighted_score sc];
                        anomaly_scores := anomaly_scores acc ++ [(column, sc)];
                        affected := affected acc ++ [column] |})
          as [added [H1 [H2 [H3 H4]]]].
        exists ((column, sc) :: added).
        cbn [anomalies anomaly_scores affected] in *.
        unfold Shape.above_threshold in *. cbn [filter snd map fst].
        rewrite Et. cbn [map fst snd].
        rewrite H1, H2, H3, H4, <- !app_assoc. cbn [app]. auto.
      * destruct (IH {| anomalies := anomalies acc;
                        anomaly_scores := anomaly_scores acc ++ [(column, sc)];
                        affected := affected acc |})
          as [added [H1 [H2 [H3 H4]]]].
        exists ((column, sc) :: added).
        cbn [anomalies anomaly_scores affected] in *.
        unfold Shape.above_threshold in *. cbn [filter snd map fst].
        rewrite Et.
        rewrite H1, H2, H3, H4, <- !app_assoc. cbn [app]. auto.
Qed.


End StatisticalPath.

(* ------------------------------------------------------------------ *)
(** ** Ranges of the results                                           *)
(* ------------------------------------------------------------------ *)

Section Rounding.
Import Num.

Lemma py_round_between (a b : Z) (y : Q) :
  inject_Z a <= y -> y <= inject_Z b -> (a <= py_round y <= b)%Z.
Proof.
  intros Ha Hb.
  assert (Hfa : (a <= Qfloor y)%Z)
    by (rewrite <- (Qfloor_Z a); apply Qfloor_resp_le, Ha).
  assert (Hfb : (Qfloor y <= b)%Z)
    by (rewrite <- (Qfloor_Z b); apply Qfloor_resp_le, Hb).
  unfold py_round.
  destruct (Z.eq_dec (Qfloor y) b) as [Heq | Hneq].
  - assert (Hlt : y - inject_Z (Qfloor y) < 1 # 2) by (rewrite Heq; lra).
    destruct (Qcompare (y - inject_Z (Qfloor y)) (1 # 2)) eqn:E.
    + apply Qeq_alt in E. lra.
    + lia.
    + apply Qgt_alt in E. lra.
  - destruct (Qcompare _ _); [ destruct (Z.even _) | | ]; lia.
Qed.

Lemma round4_unit (x : Q) : 0 <= x -> x <= 1 -> 0 <= round4 x /\ round4 x <= 1.
Proof.
  intros H0 H1. unfold round4.
  destruct (py_round_between 0 10000 (x * 10000)) as [Hlo Hhi].
  - change (inject_Z 0) with 0. lra.
  - change (inject_Z 10000) with 10000. lra.
  - rewrite Zle_Qle in Hlo, Hhi.
    change (inject_Z 0) with 0 in Hlo.
    change (inject_Z 10000) with 10000 in Hhi.
    revert Hlo Hhi. generalize (inject_Z (py_round (x * 10000))).
    intros r Hlo Hhi. split.
    + apply Qle_shift_div_l; lra.
    + apply Qle_shift_div_r; lra.
Qed.

End Rounding.

Section AnomalyRanges.
Import Num Frame AnomalyDetector.

Lemma lookup_in {A : Type} (k : string) (d : list (string * A)) (v : A) :
  lookup k d = Some v -> In (k, v) d.
Proof.
  induction d as [ | [k' v'] t IH ]; simpl; [ discriminate | ].
  destruct (String.eqb k k') eqn:E.
  - apply String.eqb_eq in E. subst k'. intros H. injection H as ->. auto.
  - auto.
Qed.

Lemma weight_bounds (column : string) :
  0 < weight_of column /\ weight_of column <= 13 # 10.
Proof.
  unfold weight_of.
  destruct (lookup column parameter_weights) as [w | ] eqn:E.
  - apply lookup_in in E.
    assert (Hall : Forall (fun kv => 0 < snd kv /\ snd kv <= 13 # 10)
                     parameter_weights)
      by (repeat constructor; discriminate).
    rewrite Forall_forall in Hall. exact (Hall _ E).
  - split; [ reflexivity | discriminate ].
Qed.

Lemma fraction_bounds (values : list Q) :
  values <> [] ->
  0 <= Spec.anomalous_fraction values
  /\ Spec.anomalous_fraction values <= 10 # 13.
Proof.
  intros Hne. unfold Spec.anomalous_fraction.
  pose proof (flagged_bound values) as Hb.
  pose proof (Qlen_pos values Hne) as Hpos.
  set (c := count _ values) in *.
  assert (Hc : 0 <= inject_Z (Z.of_nat c))
    by (change 0 with (inject_Z 0); rewrite <- Zle_Qle; lia).
  assert (Hq : 13 * inject_Z (Z.of_nat c) <= 10 * Qlen values).
  { unfold Qlen. change 13 with (inject_Z 13). change 10 with (inject_Z 10).
    rewrite <- !inject_Z_mult, <- Zle_Qle. lia. }
  revert Hc Hq Hpos. generalize (inject_Z (Z.of_nat c)) (Qlen values).
  intros cq n Hc Hq Hpos. split.
  - apply Qle_shift_div_l; lra.
  - apply Qle_shift_div_r; lra.
Qed.

Lemma weighted_scores_unit (df : DataFrame) :
  Forall (fun cw => 0 <= snd cw /\ snd cw <= 1) (Spec.weighted_scores df).
Proof.
  unfold Spec.weighted_scores.
  induction df as [ | [column cells] rest IH ]; simpl; [ constructor | ].
  destruct (dropna cells) as [ | v vs ] eqn:Ev; [ exact IH | ].
  simpl. constructor; [ | exact IH ]. simpl.
  destruct (fraction_bounds (v :: vs)) as [Hf0 Hf1]; [ discriminate | ].
  destruct (weight_bounds column) as [Hw0 Hw1].
  revert Hf0 Hf1 Hw0 Hw1.
  generalize (Spec.anomalous_fraction (v :: vs)) (weight_of column).
  intros f w Hf0 Hf1 Hw0 Hw1. split; nra.
Qed.

(** The overall score of the statistical path lies in [[0, 1]]: a weight
    is at most 1.3 and at most 10 points in 13 are flagged. *)
Lemma overall_score_unit (df : DataFrame) :
  0 <= Spec.overall_score df /\ Spec.overall_score df <= 1.
Proof.
  unfold Spec.overall_score.
  destruct (Spec.affected_columns df) as [ | cw rest ] eqn:E.
  - split; discriminate.
  - assert (Hall : Forall (fun x => 0 <= x <= 1) (map snd (cw :: rest))).
    { rewrite <- E. unfold Spec.affected_columns.
      apply Forall_map.
      pose proof (weighted_scores_unit df) as H.
      rewrite Forall_forall in *. intros x Hx.
      apply filter_In in Hx. apply H, Hx. }
    apply np_mean_bounds in Hall; [ | discriminate ].
    exact Hall.
Qed.

Lemma calculate_severity_level (score : Q) :
  Spec.severity_level (_calculate_severity score).
Proof.
  unfold _calculate_severity, Spec.severity_level.
  repeat destruct (Qle_bool _ _); lia.
Qed.

Lemma scaled_confidence_unit (k x : Q) :
  0 <= k -> 0 <= x -> Spec.unit_interval (round4 (Qmin (x * k) 1)).
Proof.
  intros Hk Hx. apply round4_unit.
  - apply Q.min_glb; [ nra | discriminate ].
  - apply Q.le_min_r.
Qed.

Lemma statistical_ranges (df : DataFrame) :
  Spec.unit_interval (anomaly_score (_statistical_anomaly_detection df))
  /\ Spec.unit_interval (confidence (_statistical_anomaly_detection df))
  /\ Spec.severity_level (severity (_statistical_anomaly_detection df)).
Proof.
  unfold _statistical_anomaly_detection. cbn [anomaly_score confidence severity].
  rewrite scan_overall. destruct (overall_score_unit df) as [H0 H1].
  split; [ apply round4_unit; assumption | ].
  split; [ apply scaled_confidence_unit; [ discriminate | assumption ] | ].
  apply calculate_severity_level.
Qed.

Lemma empty_result_ranges (message : string) :
  Spec.unit_interval (anomaly_score (_create_empty_result message))
  /\ Spec.unit_interval (confidence (_create_empty_result message))
  /\ Spec.severity_level (severity (_create_empty_result message)).
Proof.
  simpl. unfold Spec.unit_interval, Spec.severity_level.
  repeat split; try discriminate; lia.
Qed.

End AnomalyRanges.

Section DetectorRanges.
Import Num Frame AnomalyDetector.

Context {Detector : Type}.
Variable fit_detector : string -> Detector -> list (list Q) -> Detector * bool.
Variable outlier_mask : string -> Detector -> list (list Q) -> option (list bool).
Variable robust_fit : DataFrame -> option Scaler.
Variable series_std : list Q -> Q.
Context {Reading : Type}.
Variable pandas_numeric_frame : list Reading -> option DataFrame.

Lemma mask_fraction_unit (mask : list bool) :
  0 <= inject_Z (Z.of_nat (List.length (filter (fun b => b) mask))) / Qlen mask
  /\ inject_Z (Z.of_nat (List.length (filter (fun b => b) mask))) / Qlen mask
     <= 1.
Proof.
  destruct mask as [ | b t ].
  - split; discriminate.
  - pose proof (Qlen_pos (b :: t)) as Hpos.
    assert (Hlen : (List.length (filter (fun b => b) (b :: t))
                    <= List.length (b :: t))%nat) by apply filter_length_le.
    assert (Hc : 0 <= inject_Z (Z.of_nat (List.length (filter (fun b => b) (b :: t)))))
      by (change 0 with (inject_Z 0); rewrite <- Zle_Qle; lia).
    assert (Hq : inject_Z (Z.of_nat (List.length (filter (fun b => b) (b :: t))))
                 <= Qlen (b :: t))
      by (unfold Qlen; rewrite <- Zle_Qle; lia).
    specialize (Hpos ltac:(discriminate)).
    revert Hc Hq Hpos.
    generalize (inject_Z (Z.of_nat (List.length (filter (fun b => b) (b :: t)))))
               (Qlen (b :: t)).
    intros c n Hc Hq Hpos. split.
    + apply Qle_shift_div_l; lra.
    + apply Qle_shift_div_r; lra.
Qed.

Lemma model_ratios_unit (ms : list (string * Detector)) (X : list (list Q)) :
  Forall (fun x => 0 <= x <= 1)
    (map snd (model_ratios Detector outlier_mask ms X)).
Proof.
  induction ms as [ | [name m] rest IH ]; simpl; [ constructor | ].
  destruct (outlier_mask name m X) as [mask | ]; [ | exact IH ].
  simpl. constructor; [ apply mask_fraction_unit | exact IH ].
Qed.

Lemma ml_ranges st current_data historical_data :
  let r := fst (_ml_anomaly_detection Detector fit_detector outlier_mask
                  robust_fit series_std Reading pandas_numeric_frame
                  st current_data historical_data) in
  Spec.unit_interval (anomaly_score r)
  /\ Spec.unit_interval (confidence r)
  /\ Spec.severity_level (severity r).
Proof.
  unfold _ml_anomaly_detection.
  match goal with
  | |- context [robust _ ?s] => generalize s
  end.
  intros st1.
  destruct current_data as [ | c0 cs ]; [ apply empty_result_ranges | ].
  destruct (robust _ st1) as [scaler | ]; [ | apply empty_result_ranges ].
  destruct (scaler _) as [X_scaled | ]; [ | apply empty_result_ranges ].
  pose proof (model_ratios_unit (models _ st1) X_scaled) as Hall.
  destruct (model_ratios _ _ _ _) as [ | r0 rs ] eqn:E;
    [ apply empty_result_ranges | ].
  apply np_mean_bounds in Hall; [ | discriminate ].
  destruct Hall as [H0 H1].
  cbv zeta. cbn [fst anomaly_score confidence severity].
  split; [ apply round4_unit; assumption | ].
  split; [ apply scaled_confidence_unit; [ discriminate | assumption ] | ].
  apply calculate_severity_level.
Qed.

Lemma anomaly_ranges st current_data historical_data :
  let r := fst (detect_anomalies Detector fit_detector outlier_mask
                  robust_fit series_std Reading pandas_numeric_frame
                  st current_data historical_data) in
  Spec.unit_interval (anomaly_score r)
  /\ Spec.unit_interval (confidence r)
  /\ Spec.severity_level (severity r).
Proof.
  unfold detect_anomalies.
  destruct (empty _); [ apply empty_result_ranges | ].
  destruct historical_data as [ [ | h hs ] | ], (is_trained _ st);
    first [ apply empty_result_ranges
          | apply statistical_ranges
          | apply ml_ranges ].
Qed.

End DetectorRanges.

Section ClassifierRanges.
Import Num Frame ThreatDetectionEngine.

Lemma clamp_level (n : Z) : Spec.severity_level (clamp_1_5 n).
Proof. unfold clamp_1_5, Spec.severity_level. lia. Qed.

Lemma lookup_select_inv (name : string) (names : list string) (df : DataFrame)
  (s : Series) :
  lookup name (select names df) = Some s -> get_column name df = Some s.
Proof.
  induction names as [ | n t IH ]; simpl; [ discriminate | ].
  destruct (get_column n df) as [s' | ] eqn:E; [ | exact IH ].
  simpl. destruct (String.eqb name n) eqn:En; [ | exact IH ].
  apply String.eqb_eq in En. subst n. intros H. injection H as <-. exact E.
Qed.

Lemma last_forall {A : Type} (P : A -> Prop) (l : list A) (d : A) :
  Forall P l -> P d -> P (last l d).
Proof.
  induction 1 as [ | x t Hx _ IH ]; intros Hd; simpl; [ exact Hd | ].
  destruct t; [ exact Hx | apply IH, Hd ].
Qed.

(** In a valid frame the latest value of a ranged parameter, as the rules
    read it, lies in the parameter's range. *)
Lemma latest_value_valid (data : DataFrame) (names : list string)
  (name : string) (lo hi d : Q) :
  Spec.valid_frame data = true ->
  lookup name DataPreprocessor.parameter_ranges = Some (lo, hi) ->
  lo <= 0 <= hi -> lo <= d <= hi ->
  lo <= row_get name d (latest_row (fillna_frame 0 (select names data))) <= hi.
Proof.
  intros Hvalid Hrange H0 Hd.
  set (t := fillna_frame 0 (select names data)).
  destruct (table_empty t) eqn:Ee.
  - unfold latest_row. rewrite Ee. exact Hd.
  - rewrite row_get_latest by exact Ee. unfold t.
    rewrite lookup_fillna.
    destruct (lookup name (select names data)) as [s | ] eqn:Es;
      [ | exact Hd ].
    simpl. apply lookup_select_inv, lookup_in in Es.
    unfold Spec.valid_frame in Hvalid. rewrite forallb_forall in Hvalid.
    specialize (Hvalid _ Es). simpl in Hvalid.
    rewrite forallb_forall in Hvalid.
    apply (last_forall (fun x => lo <= x <= hi)); [ | exact H0 ].
    apply Forall_map. apply Forall_forall. intros c Hc.
    specialize (Hvalid c Hc). destruct c as [x | ]; simpl; [ | exact H0 ].
    unfold Spec.valid_cell, Spec.in_valid_range in Hvalid.
    rewrite Hrange in Hvalid. apply andb_true_iff in Hvalid.
    destruct Hvalid as [H1 H2]. apply Qle_bool_iff in H1, H2. split; assumption.
Qed.

Ltac closed_unit :=
  unfold Spec.unit_interval, Spec.severity_level; simpl fst; simpl snd;
  repeat split; try lia; vm_compute; discriminate.

Lemma storm_rule_ranges (row : Row) :
  Spec.unit_interval (fst (storm_rule row))
  /\ Spec.severity_level (snd (storm_rule row)).
Proof.
  unfold storm_rule.
  generalize (row_get "wind_speed" 0 row) (row_get "pressure" 1013 row).
  intros w p. qcases; closed_unit.
Qed.

Lemma pollution_rule_ranges (row : Row) :
  Spec.unit_interval (fst (pollution_rule row))
  /\ Spec.severity_level (snd (pollution_rule row)).
Proof.
  unfold pollution_rule.
  generalize (row_get "pm25" 0 row) (row_get "pm10" 0 row).
  intros a b. qcases; closed_unit.
Qed.

Lemma algal_bloom_rule_ranges (row : Row) :
  Spec.unit_interval (fst (algal_bloom_rule row))
  /\ Spec.severity_level (snd (algal_bloom_rule row)).
Proof.
  unfold algal_bloom_rule. cbv zeta. cbn [fst snd].
  split; [ | apply clamp_level ].
  generalize (row_get "water_temperature" 20 row)
             (row_get "visibility" 10 row) (row_get "salinity" 35 row).
  intros a b c. unfold Spec.unit_interval.
  qcases; cbn [andb]; split; vm_compute; discriminate.
Qed.

Lemma illegal_dumping_rule_ranges (row : Row) :
  Spec.unit_interval (fst (illegal_dumping_rule row))
  /\ Spec.severity_level (snd (illegal_dumping_rule row)).
Proof.
  unfold illegal_dumping_rule.
  generalize (row_get "visibility" 10 row). intros v. qcases; closed_unit.
Qed.

Lemma capped_share (x k : Q) : 0 <= x -> 0 < k -> 0 <= Qmin (x / k) 1 <= 1.
Proof.
  intros Hx Hk. split.
  - apply Q.min_glb; [ apply Qle_shift_div_l; lra | discriminate ].
  - apply Q.le_min_r.
Qed.

Lemma erosion_rule_ranges (row : Row) :
  0 <= row_get "wave_height" 0 row ->
  0 <= row_get "wind_speed" 0 row ->
  Spec.unit_interval (fst (erosion_rule row))
  /\ Spec.severity_level (snd (erosion_rule row)).
Proof.
  intros Hwave Hwind. unfold erosion_rule. cbv zeta. cbn [fst snd].
  split; [ | apply clamp_level ].
  pose proof (capped_share _ 10 Hwave ltac:(reflexivity)) as [Ha0 Ha1].
  pose proof (capped_share _ 100 Hwind ltac:(reflexivity)) as [Hb0 Hb1].
  revert Ha0 Ha1 Hb0 Hb1.
  generalize (Qmin (row_get "wave_height" 0 row / 10) 1)
             (Qmin (row_get "wind_speed" 0 row / 100) 1).
  intros a b Ha0 Ha1 Hb0 Hb1. unfold Spec.unit_interval. split; lra.
Qed.

Lemma rule_based_ranges (threat : string) (data : DataFrame)
  (names av : list string) :
  Spec.valid_frame data = true ->
  let fd := fillna_frame 0 (select names data) in
  Spec.unit_interval (fst (_rule_based_detection threat fd av))
  /\ Spec.severity_level (snd (_rule_based_detection threat fd av)).
Proof.
  intros Hvalid fd. unfold _rule_based_detection.
  destruct (String.eqb threat "storm"); [ apply storm_rule_ranges | ].
  destruct (String.eqb threat "pollution"); [ apply pollution_rule_ranges | ].
  destruct (String.eqb threat "algal_bloom");
    [ apply algal_bloom_rule_ranges | ].
  destruct (String.eqb threat "erosion").
  - apply erosion_rule_ranges.
    + apply (latest_value_valid data names "wave_height" 0 30 0 Hvalid);
        [ reflexivity | split; discriminate | split; discriminate ].
    + apply (latest_value_valid data names "wind_speed" 0 200 0 Hvalid);
        [ reflexivity | split; discriminate | split; discriminate ].
  - destruct (String.eqb threat "illegal_dumping");
      [ apply illegal_dumping_rule_ranges | closed_unit ].
Qed.

Lemma np_max_unit (p : Q) (rest : list Q) :
  0 <= p <= 1 -> Forall (fun x => 0 <= x /\ x <= 1) rest ->
  0 <= np_max p rest <= 1.
Proof.
  unfold np_max. intros Hp Hrest. revert p Hp.
  induction Hrest as [ | x t Hx _ IH ]; intros p Hp; simpl; [ exact Hp | ].
  apply IH. destruct Hp, Hx. split.
  - apply Q.max_le_iff. left. assumption.
  - apply Q.max_lub; assumption.
Qed.

Lemma model_confidence_unit (pp : list (list Q)) (c : Q) :
  Forall (Forall (fun p => 0 <= p /\ p <= 1)) pp ->
  model_confidence pp = Some c -> 0 <= c <= 1.
Proof.
  intros Hpp. unfold model_confidence.
  destruct pp as [ | row rows ]; [ discriminate | ].
  inversion Hpp as [ | ? ? Hrow _ ]; subst.
  destruct row as [ | p rest ]; [ discriminate | ].
  inversion Hrow as [ | ? ? Hp Hrest ]; subst.
  destruct (1 <? List.length (p :: rest))%nat; intros H; injection H as <-.
  - apply np_max_unit; assumption.
  - exact Hp.
Qed.

Lemma collect_confidences_unit (ms : list Classifier) (X : list (list Q)) :
  (forall m pp, In m ms -> predict_proba m X = Some pp ->
                Forall (Forall (fun p => 0 <= p /\ p <= 1)) pp) ->
  Forall (fun c => 0 <= c <= 1) (collect_confidences ms X).
Proof.
  induction ms as [ | m rest IH ]; intros H; simpl; [ constructor | ].
  assert (Hrest : Forall (fun c => 0 <= c <= 1) (collect_confidences rest X))
    by (apply IH; intros m' pp Hin; apply H; right; exact Hin).
  destruct (predict_proba m X) as [pp | ] eqn:E; [ | exact Hrest ].
  destruct (model_confidence pp) as [c | ] eqn:Ec; [ | exact Hrest ].
  constructor; [ | exact Hrest ].
  eapply model_confidence_unit; [ | exact Ec ].
  apply (H m pp); [ left; reflexivity | exact E ].
Qed.

Lemma ensemble_ranges (e : Engine) (threat : string) (fd : Table) :
  Spec.probabilities e ->
  Spec.unit_interval (fst (_predict_with_ensemble e threat fd))
  /\ Spec.severity_level (snd (_predict_with_ensemble e threat fd)).
Proof.
  intros Hprob. unfold _predict_with_ensemble.
  destruct (lookup threat (scalers e)) as [transform | ]; [ | closed_unit ].
  destruct (transform fd) as [X | ]; [ | closed_unit ].
  destruct (lookup threat (models e)) as [ms | ] eqn:Em; [ | closed_unit ].
  pose proof (collect_confidences_unit ms X) as Hall.
  destruct (collect_confidences ms X) as [ | c cs ] eqn:Ec; [ closed_unit | ].
  cbn [fst snd]. split; [ | apply clamp_level ].
  apply np_mean_bounds; [ discriminate | ].
  apply Hall. intros m pp Hin Hpp. exact (Hprob threat ms m X pp Em Hin Hpp).
Qed.

Lemma single_threat_ranges (e : Engine) (threat : string) (data : DataFrame)
  (r : ThreatDetectionResult) :
  Spec.probabilities e -> Spec.valid_frame data = true ->
  _detect_single_threat e threat data = Some r ->
  Spec.unit_interval (confidence r) /\ Spec.severity_level (severity r).
Proof.
  intros Hprob Hvalid. unfold _detect_single_threat.
  destruct (lookup threat (feature_columns e)) as [req | ]; [ | discriminate ].
  cbv zeta.
  set (avail := filter (fun f => has_column f data) req).
  destruct (List.length avail <? 2)%nat; [ discriminate | ].
  destruct (lookup threat (is_trained e)) as [trained | ]; [ | discriminate ].
  assert (Hcs : Spec.unit_interval
                  (fst (if trained
                        then _predict_with_ensemble e threat
                               (fillna_frame 0 (select avail data))
                        else _rule_based_detection threat
                               (fillna_frame 0 (select avail data)) avail))
                /\ Spec.severity_level
                  (snd (if trained
                        then _predict_with_ensemble e threat
                               (fillna_frame 0 (select avail data))
                        else _rule_based_detection threat
                               (fillna_frame 0 (select avail data)) avail))).
  { destruct trained;
      [ apply ensemble_ranges, Hprob | apply rule_based_ranges, Hvalid ]. }
  destruct (if trained then _ else _) as [conf sev].
  destruct (lookup threat confidence_thresholds); [ | discriminate ].
  intros H. injection H as <-. cbn [confidence severity fst snd] in *.
  destruct Hcs as [[H0 H1] Hs]. split; [ apply round4_unit; assumption | exact Hs ].
Qed.

End ClassifierRanges.

Section PredictorRanges.
Import Num Frame ThreatPredictor.

Lemma last_at_or_above_lower (ths : list Q) :
  forall i sev v, (0 <= i)%Z -> (1 <= sev)%Z ->
                  (1 <= last_at_or_above ths i sev v)%Z.
Proof.
  induction ths as [ | t rest IH ]; intros i sev v Hi Hs; simpl; [ exact Hs | ].
  apply IH; [ lia | destruct (Qle_bool t v); lia ].
Qed.

Lemma assess_level (parameter : string) (value : Q) :
  Spec.severity_level (_assess_threat_severity parameter value).
Proof.
  unfold Spec.severity_level.
  destruct (String.eqb parameter "pressure") eqn:Ep.
  { apply String.eqb_eq in Ep. subst. rewrite pressure_severity.
    destruct (Qle_bool _ _); lia. }
  destruct (String.eqb parameter "visibility") eqn:Ev.
  { apply String.eqb_eq in Ev. subst. rewrite visibility_severity.
    destruct (Qle_bool _ _); lia. }
  unfold _assess_threat_severity. rewrite Ep, Ev.
  destruct (lookup parameter risk_thresholds) as [ths | ]; [ | lia ].
  cbn [orb].
  pose proof (last_at_or_above_lower ths 0 1 value ltac:(lia) ltac:(lia)).
  lia.
Qed.

Context {Estimator : Type}.
Variable fit_evaluate :
  Estimator -> list (list Q) -> list Q -> list (list Q) -> list Q ->
  Estimator * option Metrics.
Variable predict_one : Estimator -> list Q -> option Q.
Variable train_test_split :
  list (list Q) -> list Q ->
  list (list Q) * list (list Q) * list Q * list Q.
Variable standard_scale : list (list Q) -> list (list Q) -> list (list Q).
Variable series_std : list Q -> Q.
Variable np_std : list Q -> Q.
Context {Reading : Type}.
Variable pandas_frame : list Reading -> option DataFrame.

Lemma predict_parameter_risk st column parameter hours :
  Spec.severity_level
    (snd (fst (_predict_parameter Estimator fit_evaluate predict_one
                 train_test_split standard_scale series_std np_std
                 st column parameter hours))).
Proof.
  unfold _predict_parameter.
  destruct (_ <? 10)%nat; [ simpl; unfold Spec.severity_level; lia | ].
  destruct hours as [ | h0 hs ]; [ simpl; unfold Spec.severity_level; lia | ].
  destruct (_create_time_series_features _ _ _) as [X y].
  destruct X as [ | x0 xs ]; [ simpl; unfold Spec.severity_level; lia | ].
  destruct (predict_horizons _ _ _ _ _ _ _ _ _ _ _ _) as [ps st1].
  simpl. apply assess_level.
Qed.

Lemma predict_parameters_risks (parameters : list string) :
  forall st df hours acc,
    Forall (fun ps => Spec.severity_level (snd ps)) (acc_risks acc) ->
    Forall (fun ps => Spec.severity_level (snd ps))
      (acc_risks
         (fst (predict_parameters Estimator fit_evaluate predict_one
                 train_test_split standard_scale series_std np_std
                 st df parameters hours acc))).
Proof.
  induction parameters as [ | parameter rest IH ]; intros st df hours acc Hacc.
  - exact Hacc.
  - simpl. destruct (get_column parameter df) as [column | ]; [ | apply IH, Hacc ].
    pose proof (predict_parameter_risk st column parameter hours) as Hrisk.
    destruct (_predict_parameter _ _ _ _ _ _ _ st column parameter hours)
      as [[[[preds intervals] trend] risk] st1].
    apply IH. simpl. apply Forall_app. split; [ exact Hacc | ].
    constructor; [ exact Hrisk | constructor ].
Qed.

Lemma prediction_ranges st data hours :
  let r := fst (predict_threats Estimator fit_evaluate predict_one
                  train_test_split standard_scale series_std np_std
                  Reading pandas_frame st data hours) in
  Forall (fun ps => Spec.severity_level (snd ps)) (risk_assessment r)
  /\ Forall (fun a => Spec.severity_level (alert_severity a))
       (alerts_predicted r).
Proof.
  intros r. split.
  - unfold r, predict_threats.
    destruct (empty _ || _)%bool; [ constructor | ].
    match goal with
    | |- context [predict_parameters _ _ _ _ _ _ _ ?s ?d ?ps ?hs ?a] =>
        pose proof (predict_parameters_risks ps s d hs a) as H;
        destruct (predict_parameters _ _ _ _ _ _ _ s d ps hs a) as [acc st1]
    end.
    simpl in *. apply H. constructor.
  - eapply Forall_impl;
      [ | apply (alerts_sound fit_evaluate predict_one train_test_split
                   standard_scale series_std np_std pandas_frame) ].
    intros a [Hsev _]. rewrite Hsev. apply assess_level.
Qed.

End PredictorRanges.

Section RangeInvariants.
Import Num Frame.

Context {Detector : Type}.
Variable fit_detector : string -> Detector -> list (list Q) -> Detector * bool.
Variable outlier_mask : string -> Detector -> list (list Q) -> option (list bool).
Variable robust_fit : DataFrame -> option AnomalyDetector.Scaler.
Variable history_std : list Q -> Q.
Context {Reading : Type}.
Variable pandas_numeric_frame : list Reading -> option DataFrame.

Context {Estimator : Type}.
Variable fit_evaluate :
  Estimator -> list (list Q) -> list Q -> list (list Q) -> list Q ->
  Estimator * option ThreatPredictor.Metrics.
Variable predict_one : Estimator -> list Q -> option Q.
Variable train_test_split :
  list (list Q) -> list Q ->
  list (list Q) * list (list Q) * list Q * list Q.
Variable standard_scale : list (list Q) -> list (list Q) -> list (list Q).
Variable series_std : list Q -> Q.
Variable np_std : list Q -> Q.
Variable pandas_frame : list Reading -> option DataFrame.

(** C3, as the code has it.  An [AnomalyResult], on any of the three paths
    of [detect_anomalies], has score and confidence in [[0, 1]] and
    severity in 1..5; the overall score of the statistical path, before
    rounding, never exceeds 1 although weights go up to 1.3; a
    [ThreatDetectionResult] for a valid frame, from probabilistic
    classifiers or from the rules, has confidence in [[0, 1]] and severity
    in 1..5; and every severity a [PredictionResult] carries (risk
    assessment and predicted alerts) is in 1..5.  The [confidence] entry
    of a predicted alert is left out. *)
Theorem range_invariants :
  (forall st current_data historical_data,
     let r := fst (AnomalyDetector.detect_anomalies Detector fit_detector
                     outlier_mask robust_fit history_std Reading
                     pandas_numeric_frame st current_data historical_data) in
     Spec.unit_interval (AnomalyDetector.anomaly_score r)
     /\ Spec.unit_interval (AnomalyDetector.confidence r)
     /\ Spec.severity_level (AnomalyDetector.severity r))
  /\ (forall df : DataFrame,
        Spec.unit_interval
          (AnomalyDetector.overall_of
             (AnomalyDetector.anomalies
                (AnomalyDetector.scan_columns df
                   {| AnomalyDetector.anomalies := [];
                      AnomalyDetector.anomaly_scores := [];
                      AnomalyDetector.affected := [] |}))))
  /\ (forall e threat data r,
        Spec.probabilities e -> Spec.valid_frame data = true ->
        ThreatDetectionEngine._detect_single_threat e threat data = Some r ->
        Spec.unit_interval (ThreatDetectionEngine.confidence r)
        /\ Spec.severity_level (ThreatDetectionEngine.severity r))
  /\ (forall st data hours,
        let r := fst (ThreatPredictor.predict_threats Estimator fit_evaluate
                        predict_one train_test_split standard_scale
                        series_std np_std Reading pandas_frame st data hours) in
        Forall (fun ps => Spec.severity_level (snd ps))
          (ThreatPredictor.risk_assessment r)
        /\ Forall (fun a => Spec.severity_level (ThreatPredictor.alert_severity a))
             (ThreatPredictor.alerts_predicted r)).
Proof.
  split; [ intros; apply anomaly_ranges | ].
  split; [ intros df; rewrite scan_overall; apply overall_score_unit | ].
  split; [ intros e threat data r; apply single_threat_ranges | ].
  intros; apply prediction_ranges.
Qed.

End RangeInvariants.

Section RangeWitness.
Import Num Frame ThreatDetectionEngine.

Lemma initialized_probabilities : Spec.probabilities initialized.
Proof.
  intros threat ms m X pp Hl Hin Hp. exfalso.
  apply lookup_in in Hl. simpl in Hl.
  repeat (destruct Hl as [Hl | Hl];
          [ injection Hl as _ <-; simpl in Hin;
            repeat (destruct Hin as [<- | Hin]; [ discriminate Hp | ]);
            exact Hin | ]).
  exact Hl.
Qed.

Lemma range_invariants_witness :
  exists r,
    _detect_single_threat initialized "storm"
      [ ("wind_speed"%string, [Some 130]); ("pressure"%string, [Some 970]) ]
      = Some r
    /\ Spec.unit_interval (confidence r) /\ Spec.severity_level (severity r).
Proof.
  eexists. split; [ reflexivity | ].
  refine (proj1 (proj2 (proj2
            (@range_invariants unit (fun _ d _ => (d, true)) (fun _ _ _ => None)
               (fun _ => None) (fun _ => 0) unit (fun _ => None)
               Scenario.Spy Scenario.spy_fit Scenario.spy_predict
               Scenario.keep_all Scenario.no_scaling Scenario.zero_deviation
               Scenario.zero_deviation (fun _ => None))))
            initialized "storm"%string
            [ ("wind_speed"%string, [Some 130]); ("pressure"%string, [Some 970]) ]
            _ initialized_probabilities _ _);
    reflexivity.
Defined.

(** C3, as stated, fails for the predictor: the [confidence] entry of a
    predicted alert is [upper - lower] of the prediction interval, a width
    in the unit of the parameter.  Sixty readings of a steady gale
    (130 km/h, 960 hPa) give four wind-speed alerts, none with a
    confidence in [[0, 1]]. *)
Lemma range_invariants_counterexample :
  ThreatPredictor.alerts_predicted (fst Scenario.gale_run) <> []
  /\ Forall (fun a => ~ Spec.unit_interval (ThreatPredictor.alert_confidence a))
       (ThreatPredictor.alerts_predicted (fst Scenario.gale_run)).
Proof.
  split; [ vm_compute; discriminate | ].
  vm_compute. repeat constructor; intros [_ H]; apply H; reflexivity.
Qed.

End RangeWitness.

(* ------------------------------------------------------------------ *)
(** ** Columns and their cells                                         *)
(* ------------------------------------------------------------------ *)

Section FillingGaps.
Import Num Frame DataPreprocessor.

Lemma length_ffill (previous : option Q) (cells : Series) :
  List.length (ffill previous cells) = List.length cells.
Proof.
  revert previous. induction cells as [ | [x | ] t IH ]; intros p; simpl;
    [ reflexivity | | ]; rewrite IH; reflexivity.
Qed.

Lemma length_bfill (cells : Series) :
  List.length (bfill cells) = List.length cells.
Proof. unfold bfill. rewrite length_rev, length_ffill, length_rev. reflexivity. Qed.

Lemma complete_not_all_missing (cells : Series) :
  existsb is_missing cells = false -> cells <> [] ->
  forallb is_missing cells = false.
Proof.
  destruct cells as [ | c t ]; [ congruence | ].
  simpl. intros H _. apply orb_false_iff in H. destruct H as [H _].
  rewrite H. reflexivity.
Qed.

End FillingGaps.

Section MappedCells.
Import Num Frame DataPreprocessor.

Lemma map_same {A : Type} (f : A -> A) (l : list A) :
  (forall x, In x l -> f x = x) -> map f l = l.
Proof.
  induction l as [ | x t IH ]; simpl; intros H; [ reflexivity | ].
  rewrite H by (left; reflexivity). rewrite IH; [ reflexivity | ].
  intros y Hy. apply H. right. exact Hy.
Qed.

Lemma missing_map (f : Q -> Q) (cells : list (option Q)) :
  existsb is_missing (map (option_map f) cells) = existsb is_missing cells.
Proof.
  induction cells as [ | [x | ] t IH ]; simpl; auto.
Qed.

End MappedCells.

(* ================================================================== *)
(** * Further properties of the preprocessor                           *)
(* ================================================================== *)

Section ColumnNames.
Import Num Frame DataPreprocessor.

Lemma replace_pairs_cons (a b : ascii) (t : list ascii) :
  replace_pairs (a :: b :: t)
  = if is_underscore a && is_underscore b
    then "_"%char :: replace_pairs t
    else a :: replace_pairs (b :: t).
Proof. reflexivity. Qed.

Lemma has_pair_cons (a b : ascii) (t : list ascii) :
  has_pair (a :: b :: t)
  = (is_underscore a && is_underscore b || has_pair (b :: t)).
Proof. reflexivity. Qed.

Lemma length_replace_pairs (l : list ascii) :
  (List.length (replace_pairs l) <= List.length l)%nat
  /\ (has_pair l = true ->
      (List.length (replace_pairs l) < List.length l)%nat).
Proof.
  assert (H : forall n l, (List.length l <= n)%nat ->
            (List.length (replace_pairs l) <= List.length l)%nat
            /\ (has_pair l = true ->
                (List.length (replace_pairs l) < List.length l)%nat)).
  { clear l. induction n as [ | n IH ]; intros l Hl.
    - destruct l; [ | simpl in Hl; lia ].
      split; [ simpl; lia | discriminate ].
    - destruct l as [ | a [ | b t ] ];
        try (split; [ simpl; lia | discriminate ]).
      rewrite replace_pairs_cons, has_pair_cons.
      cbn [List.length] in Hl.
      destruct (is_underscore a && is_underscore b).
      + destruct (IH t) as [H1 _]; [ lia | ].
        cbn [List.length]. split; [ | intros _ ]; lia.
      + destruct (IH (b :: t)) as [H1 H2]; [ cbn [List.length]; lia | ].
        cbn [orb]. cbn [List.length] in *. split; [ lia | ].
        intros H. specialize (H2 H). lia. }
  apply (H (List.length l)). lia.
Qed.

Lemma collapse_no_pair (fuel : nat) (l : list ascii) :
  (List.length l <= fuel)%nat -> has_pair (collapse fuel l) = false.
Proof.
  revert l. induction fuel as [ | fuel IH ]; intros l Hl; simpl.
  - destruct l; [ reflexivity | simpl in Hl; lia ].
  - destruct (has_pair l) eqn:E; [ | exact E ].
    apply IH. destruct (length_replace_pairs l) as [_ H].
    specialize (H E). lia.
Qed.

Lemma has_pair_spec (l : list ascii) :
  has_pair l = true <->
  exists l1 l2, l = l1 ++ "_"%char :: "_"%char :: l2.
Proof.
  induction l as [ | a t IH ].
  - split; [ discriminate | ]. intros [l1 [l2 E]].
    destruct l1; discriminate.
  - destruct t as [ | b t' ].
    + split; [ discriminate | ]. intros [l1 [l2 E]].
      destruct l1 as [ | x [ | y l1 ] ]; discriminate.
    + cbn [has_pair]. rewrite orb_true_iff, IH, andb_true_iff.
      unfold is_underscore. rewrite !Ascii.eqb_eq. split.
      * intros [[-> ->] | [l1 [l2 E]]].
        -- exists [], t'. reflexivity.
        -- exists (a :: l1), l2. rewrite E. reflexivity.
      * intros [l1 [l2 E]]. destruct l1 as [ | x l1 ].
        -- injection E as -> -> _. left. auto.
        -- injection E as -> E. right. exists l1, l2. exact E.
Qed.

Lemma no_pair_inside (pre l post : list ascii) :
  has_pair (pre ++ l ++ post) = false -> has_pair l = false.
Proof.
  intros H. destruct (has_pair l) eqn:E; [ | reflexivity ].
  apply has_pair_spec in E. destruct E as [l1 [l2 E]].
  assert (Hp : has_pair (pre ++ l ++ post) = true).
  { apply has_pair_spec. exists (pre ++ l1), (l2 ++ post).
    rewrite E, <- !app_assoc. reflexivity. }
  congruence.
Qed.

Lemma drop_while_suffix (p : ascii -> bool) (l : list ascii) :
  exists pre, l = pre ++ drop_while p l /\ forallb p pre = true.
Proof.
  induction l as [ | c t IH ]; simpl.
  - exists []. auto.
  - destruct (p c) eqn:E.
    + destruct IH as [pre [E' Hp]]. exists (c :: pre). simpl.
      rewrite <- E', E, Hp. auto.
    + exists []. auto.
Qed.

Lemma drop_while_head (p : ascii -> bool) (l : list ascii) (c : ascii)
  (t : list ascii) :
  drop_while p l = c :: t -> p c = false.
Proof.
  induction l as [ | a l' IH ]; simpl; [ discriminate | ].
  destruct (p a) eqn:E; [ exact IH | ].
  intros H. injection H as <- _. exact E.
Qed.

Lemma strip_inside (p : ascii -> bool) (l : list ascii) :
  exists pre post, l = pre ++ strip_chars p l ++ post.
Proof.
  unfold strip_chars.
  destruct (drop_while_suffix p l) as [pre [E _]].
  destruct (drop_while_suffix p (rev (drop_while p l))) as [pre' [E' _]].
  exists pre, (rev pre'). rewrite <- rev_app_distr, <- E', rev_involutive.
  exact E.
Qed.

Lemma strip_ends (p : ascii -> bool) (l : list ascii) (c : ascii)
  (t : list ascii) :
  (strip_chars p l = c :: t -> p c = false)
  /\ (strip_chars p l = t ++ [c] -> p c = false).
Proof.
  unfold strip_chars.
  set (m := drop_while p l).
  destruct (drop_while_suffix p (rev m)) as [pre' [E' Hp]].
  set (d := drop_while p (rev m)) in *.
  split; intros H.
  - (* the first character of the result is the first one of [m] *)
    assert (Hd : d = rev t ++ [c]).
    { rewrite <- (rev_involutive d), H. reflexivity. }
    assert (Hm : m = c :: t ++ rev pre').
    { rewrite <- (rev_involutive m), E', Hd, !rev_app_distr, rev_involutive.
      reflexivity. }
    exact (drop_while_head p l c _ Hm).
  - assert (Hd : d = c :: rev t).
    { rewrite <- (rev_involutive d), H, rev_app_distr. reflexivity. }
    exact (drop_while_head p (rev m) c _ Hd).
Qed.

Lemma in_drop_while (p : ascii -> bool) (l : list ascii) (c : ascii) :
  In c (drop_while p l) -> In c l.
Proof.
  induction l as [ | a t IH ]; simpl; [ tauto | ].
  destruct (p a); [ auto | simpl; tauto ].
Qed.

Lemma in_strip (p : ascii -> bool) (l : list ascii) (c : ascii) :
  In c (strip_chars p l) -> In c l.
Proof.
  unfold strip_chars. intros H. apply in_rev in H.
  apply in_drop_while in H. apply in_rev in H.
  apply in_drop_while in H. exact H.
Qed.

Lemma in_replace_pairs (l : list ascii) (c : ascii) :
  In c (replace_pairs l) -> In c l.
Proof.
  assert (H : forall n l, (List.length l <= n)%nat ->
            In c (replace_pairs l) -> In c l).
  { clear l. induction n as [ | n IH ]; intros l Hl.
    - destruct l; [ simpl; tauto | simpl in Hl; lia ].
    - destruct l as [ | a [ | b t ] ]; try (simpl; tauto).
      rewrite replace_pairs_cons. cbn [List.length] in Hl.
      destruct (is_underscore a && is_underscore b) eqn:E.
      + apply andb_true_iff in E. destruct E as [Ea _].
        apply Ascii.eqb_eq in Ea. subst a.
        intros [H | H]; [ left; exact H | ].
        right. right. apply IH; [ lia | exact H ].
      + intros [H | H]; [ left; exact H | ].
        right. apply IH; [ cbn [List.length]; lia | exact H ]. }
  apply (H (List.length l)). lia.
Qed.

Lemma in_collapse (fuel : nat) (l : list ascii) (c : ascii) :
  In c (collapse fuel l) -> In c l.
Proof.
  revert l. induction fuel as [ | fuel IH ]; intros l; simpl; [ tauto | ].
  destruct (has_pair l); [ | tauto ].
  intros H. apply in_replace_pairs, IH, H.
Qed.

Lemma lower_char_twice (c : ascii) : lower_char (lower_char c) = lower_char c.
Proof.
  destruct c as [[] [] [] [] [] [] [] []]; reflexivity.
Qed.

Lemma replaced_char (c : ascii) :
  lower_char c = c ->
  to_underscore (to_underscore c) = to_underscore c
  /\ lower_char (to_underscore c) = to_underscore c.
Proof.
  intros H. unfold to_underscore.
  destruct (Ascii.eqb c " " || Ascii.eqb c "-" || Ascii.eqb c ".") eqn:E.
  - split; reflexivity.
  - rewrite E. auto.
Qed.

(** X1.  A standardized column name holds no double underscore, neither
    starts nor ends with an underscore, and holds no space, hyphen, dot or
    upper-case letter. *)
Theorem standardized_name_form (column_name : string) :
  let name := list_ascii_of_string (_standardize_column_name column_name) in
  has_pair name = false
  /\ (forall c t, name = c :: t -> c <> "_"%char)
  /\ (forall c t, name = t ++ [c] -> c <> "_"%char)
  /\ (forall c, In c name -> to_underscore c = c /\ lower_char c = c).
Proof.
  cbv zeta. unfold _standardize_column_name.
  rewrite list_ascii_of_string_of_list_ascii.
  set (lowered := map lower_char (list_ascii_of_string column_name)).
  set (replaced := map to_underscore (strip_chars is_space lowered)).
  set (collapsed := collapse (List.length replaced) replaced).
  assert (Hnot : forall c, is_underscore c = false -> c <> "_"%char).
  { intros c H ->. discriminate. }
  repeat split.
  - destruct (strip_inside is_underscore collapsed) as [pre [post E]].
    apply (no_pair_inside pre _ post). rewrite <- E.
    apply collapse_no_pair. lia.
  - intros c t H. apply Hnot.
    exact (proj1 (strip_ends is_underscore collapsed c t) H).
  - intros c t H. apply Hnot.
    exact (proj2 (strip_ends is_underscore collapsed c t) H).
  - apply in_strip, in_collapse in H. apply in_map_iff in H.
    destruct H as [c0 [<- H]]. apply in_strip, in_map_iff in H.
    destruct H as [c1 [<- _]].
    apply replaced_char, lower_char_twice.
  - apply in_strip, in_collapse in H. apply in_map_iff in H.
    destruct H as [c0 [<- H]]. apply in_strip, in_map_iff in H.
    destruct H as [c1 [<- _]].
    apply replaced_char, lower_char_twice.
Qed.

End ColumnNames.

Section Cleaning.
Import Num Frame DataPreprocessor.

Lemma range_filter_valid (name : string) (cells : Series) :
  forallb (Spec.valid_cell name) (range_filter name cells) = true.
Proof.
  unfold range_filter, Spec.valid_cell, Spec.in_valid_range.
  destruct (lookup name parameter_ranges) as [[lo hi] | ] eqn:E.
  - rewrite forallb_forall. intros c Hin. apply in_map_iff in Hin.
    destruct Hin as [[x | ] [Hc _]]; [ | subst c; reflexivity ].
    destruct (Qlt_bool x lo) eqn:E1; simpl in Hc; [ subst c; reflexivity | ].
    destruct (Qlt_bool hi x) eqn:E2; simpl in Hc; subst c; [ reflexivity | ].
    apply Qlt_bool_false in E1. apply Qlt_bool_false in E2.
    apply andb_true_iff. split; apply Qle_bool_iff; assumption.
  - rewrite forallb_forall. intros [x | ] _; reflexivity.
Qed.


End Cleaning.

Section MissingValues.
Import Num Frame DataPreprocessor.

Lemma keeps_refl (cells : Series) : Shape.keeps_values cells cells.
Proof.
  induction cells as [ | [x | ] t IH ]; constructor; auto.
Qed.

Lemma keeps_ffill (previous : option Q) (cells : Series) :
  Shape.keeps_values cells (ffill previous cells).
Proof.
  revert previous.
  induction cells as [ | [x | ] t IH ]; intros p; simpl; constructor;
    try reflexivity; try exact I; apply IH.
Qed.

Lemma keeps_rev (a b : Series) :
  Shape.keeps_values a b -> Shape.keeps_values (rev a) (rev b).
Proof.
  unfold Shape.keeps_values.
  induction 1 as [ | x y l l' Hxy H IH ]; simpl; [ constructor | ].
  apply Forall2_app; [ exact IH | constructor; [ exact Hxy | constructor ] ].
Qed.

Lemma keeps_trans (a b c : Series) :
  Shape.keeps_values a b -> Shape.keeps_values b c -> Shape.keeps_values a c.
Proof.
  unfold Shape.keeps_values. intros Hab. revert c.
  induction Hab as [ | x y l l' Hxy H IH ]; intros c Hbc;
    inversion Hbc; subst; constructor.
  - destruct x as [ x | ]; [ | exact I ]. subst y. assumption.
  - apply IH. assumption.
Qed.

Lemma keeps_bfill (cells : Series) : Shape.keeps_values cells (bfill cells).
Proof.
  unfold bfill. rewrite <- (rev_involutive cells) at 1.
  apply keeps_rev, keeps_ffill.
Qed.

Lemma keeps_fillna (v : Q) (cells : Series) :
  Shape.keeps_values cells (fillna v cells).
Proof.
  induction cells as [ | [x | ] t IH ]; simpl; constructor; auto.
Qed.

Lemma fillna_complete (v : Q) (cells : Series) :
  existsb is_missing (fillna v cells) = false.
Proof.
  induction cells as [ | [x | ] t IH ]; simpl; auto.
Qed.

Lemma keeps_length (a b : Series) :
  Shape.keeps_values a b -> List.length b = List.length a.
Proof.
  induction 1; simpl; congruence.
Qed.


End MissingValues.

Section Outliers.
Import Num Frame DataPreprocessor.

Lemma in_dropna (x : Q) (cells : Series) :
  In x (dropna cells) <-> In (Some x) cells.
Proof.
  induction cells as [ | [y | ] t IH ]; simpl.
  - tauto.
  - rewrite IH. split; intros [H | H]; auto; left; congruence.
  - rewrite IH. split; [ auto | intros [H | H]; [ discriminate | auto ] ].
Qed.

(** A quantile lies between two of the values. *)
Lemma quantile_between (q : Q) (l : list Q) :
  l <> [] -> 0 <= q <= 1 ->
  exists a b, In a l /\ In b l /\ a <= quantile q l <= b.
Proof.
  intros Hne Hq.
  destruct (quantile_bounds q l Hne Hq) as [Hlo [Ha Hb]].
  assert (Hlen : (0 < List.length l)%nat)
    by (destruct l; [ congruence | simpl; lia ]).
  set (lo := Z.to_nat (Qfloor (q * inject_Z (Z.of_nat (List.length l) - 1)))) in *.
  exists (nth lo (sort l) 0),
         (nth (Nat.min (S lo) (List.length l - 1)) (sort l) 0).
  repeat split; try assumption.
  - apply (Permutation_in _ (Permutation_sym (sort_perm l))).
    apply nth_In. rewrite length_sort. lia.
  - apply (Permutation_in _ (Permutation_sym (sort_perm l))).
    apply nth_In. rewrite length_sort. lia.
Qed.

Lemma within_self (cells : Series) (y : Q) :
  In (Some y) cells -> Shape.within cells y.
Proof. intros H. exists y, y. repeat split; auto; apply Qle_refl. Qed.

Lemma within_quantile (q : Q) (cells : Series) :
  dropna cells <> [] -> 0 <= q <= 1 ->
  Shape.within cells (quantile q (dropna cells)).
Proof.
  intros Hne Hq. destruct (quantile_between q _ Hne Hq) as [a [b [Ha [Hb H]]]].
  exists a, b. rewrite <- !in_dropna. auto.
Qed.

Lemma column_outliers_shape (cells : Series) :
  Shape.gaps (handle_column_outliers cells) = Shape.gaps cells
  /\ forall y, In (Some y) (handle_column_outliers cells) -> Shape.within cells y.
Proof.
  unfold handle_column_outliers.
  destruct (List.length (dropna cells) <? 10)%nat eqn:E10;
    [ split; [ reflexivity | apply within_self ] | ].
  assert (Hne : dropna cells <> []).
  { apply Nat.ltb_ge in E10. destruct (dropna cells); simpl in *;
      [ lia | congruence ]. }
  destruct (List.length (filter (outlier_cell (dropna cells)) cells) =? 0)%nat;
    [ split; [ reflexivity | apply within_self ] | ].
  destruct (Qlt_bool _ _).
  - split.
    + unfold Shape.gaps. rewrite map_map. apply map_ext.
      intros [x | ]; simpl; [ | reflexivity ].
      destruct (Qlt_bool x _); [ reflexivity | ].
      destruct (Qlt_bool _ x); reflexivity.
    + intros y Hy. apply in_map_iff in Hy. destruct Hy as [[x | ] [Hc Hin]];
        simpl in Hc; [ | discriminate ].
      destruct (Qlt_bool x _).
      * injection Hc as <-. apply within_quantile; [ exact Hne | ].
        split; discriminate.
      * destruct (Qlt_bool _ x); injection Hc as <-.
        -- apply within_quantile; [ exact Hne | ]. split; discriminate.
        -- apply within_self, Hin.
  - split.
    + unfold Shape.gaps. rewrite map_map. apply map_ext.
      intros [x | ]; simpl; [ | reflexivity ].
      destruct (_ || _); reflexivity.
    + intros y Hy. apply in_map_iff in Hy. destruct Hy as [c [Hc Hin]].
      destruct (outlier_cell (dropna cells) c).
      * injection Hc as <-. apply within_quantile; [ exact Hne | ].
        split; discriminate.
      * subst c. apply within_self, Hin.
Qed.

(** X4.  [_handle_outliers] keeps the columns and their missing cells, and
    every value it leaves lies between two values the column held
    before. *)
Theorem outliers_stay_in_span (df : DataFrame) :
  let out := _handle_outliers df in
  columns out = columns df
  /\ Forall2 (fun before after =>
       Shape.gaps (snd after) = Shape.gaps (snd before)
       /\ forall y, In (Some y) (snd after) -> Shape.within (snd before) y)
       df out.
Proof.
  cbv zeta. unfold _handle_outliers. split.
  - unfold columns. rewrite map_map. reflexivity.
  - induction df as [ | [c s] t IH ]; simpl; constructor; [ | exact IH ].
    simpl. apply column_outliers_shape.
Qed.

End Outliers.

Section PreparedShape.
Import Num Frame DataPreprocessor.

Variable sin_degrees cos_degrees : Q -> Q.

Lemma complete_columns (df : DataFrame) :
  Shape.complete df = true <->
  Shape.columns_all (fun s => existsb is_missing s = false) df.
Proof.
  unfold Shape.complete, Shape.columns_all. rewrite forallb_forall, Forall_forall.
  split; intros H cs Hin; specialize (H cs Hin); cbv beta in *.
  - apply negb_true_iff in H. exact H.
  - apply negb_true_iff. exact H.
Qed.

Lemma assign_all (P : Series -> Prop) (name : string) (cells : Series)
  (df : DataFrame) :
  Shape.columns_all P df -> P cells -> Shape.columns_all P (assign name cells df).
Proof.
  unfold Shape.columns_all. intros Hdf Hc.
  induction df as [ | [c s] t IH ]; simpl.
  - constructor; [ exact Hc | constructor ].
  - inversion Hdf; subst. destruct (String.eqb name c); constructor; auto.
Qed.

Lemma column_all (P : Series -> Prop) (name : string) (df : DataFrame)
  (s : Series) :
  Shape.columns_all P df -> get_column name df = Some s -> P s.
Proof.
  unfold Shape.columns_all, get_column. intros Hdf Hs. apply lookup_in in Hs.
  rewrite Forall_forall in Hdf. exact (Hdf _ Hs).
Qed.

Lemma derive2_all (P : Series -> Prop) (a b target : string)
  (f : Q -> Q -> Q) (df : DataFrame) :
  (forall sa sb, P sa -> P sb -> P (zip_cells f sa sb)) ->
  Shape.columns_all P df -> Shape.columns_all P (derive2 a b target f df).
Proof.
  intros Hz Hdf. unfold derive2.
  destruct (get_column a df) as [ sa | ] eqn:Ea; [ | exact Hdf ].
  destruct (get_column b df) as [ sb | ] eqn:Eb; [ | exact Hdf ].
  apply assign_all; [ exact Hdf | ].
  apply Hz; eapply column_all; eauto.
Qed.

Lemma derive1_all (P : Series -> Prop) (a target : string)
  (f : Series -> Series) (df : DataFrame) :
  (forall s, P s -> P (f s)) ->
  Shape.columns_all P df -> Shape.columns_all P (derive1 a target f df).
Proof.
  intros Hf Hdf. unfold derive1.
  destruct (get_column a df) as [ sa | ] eqn:Ea; [ | exact Hdf ].
  apply assign_all; [ exact Hdf | ]. apply Hf. eapply column_all; eauto.
Qed.

Lemma engineer_all (P : Series -> Prop) (df : DataFrame) :
  (forall f sa sb, P sa -> P sb -> P (zip_cells f sa sb)) ->
  (forall f s, P s -> P (map (option_map f) s)) ->
  Shape.columns_all P df ->
  Shape.columns_all P (_engineer_features sin_degrees cos_degrees df).
Proof.
  intros Hz Hm Hdf. unfold _engineer_features.
  apply derive2_all; [ apply Hz | ].
  apply derive1_all; [ intros s; apply Hm | ].
  apply derive1_all; [ intros s; apply Hm | ].
  apply derive2_all; [ apply Hz | ].
  set (df1 := derive2 "temperature" "humidity" "heat_index" _ df).
  assert (H1 : Shape.columns_all P df1) by (apply derive2_all; [ apply Hz | exact Hdf ]).
  destruct (get_column "wind_speed" df1) as [ ws | ] eqn:Ea; [ | exact H1 ].
  destruct (get_column "wind_direction" df1) as [ wd | ] eqn:Eb; [ | exact H1 ].
  assert (Hws : P ws) by (eapply column_all; eauto).
  assert (Hwd : P wd) by (eapply column_all; eauto).
  apply assign_all; [ apply assign_all; [ exact H1 | ] | ]; apply Hz; assumption.
Qed.

Lemma zip_complete (f : Q -> Q -> Q) (a b : Series) :
  existsb is_missing a = false -> existsb is_missing b = false ->
  existsb is_missing (zip_cells f a b) = false.
Proof.
  unfold zip_cells. revert b.
  induction a as [ | [x | ] ta IH ]; intros [ | [y | ] tb ]; simpl;
    try reflexivity; try discriminate.
  intros Ha Hb. apply IH; assumption.
Qed.

Lemma zip_length (n : nat) (f : Q -> Q -> Q) (a b : Series) :
  List.length a = n -> List.length b = n ->
  List.length (zip_cells f a b) = n.
Proof.
  intros Ha Hb. unfold zip_cells. rewrite length_map, length_combine. lia.
Qed.

Lemma gaps_complete (a b : Series) :
  Shape.gaps a = Shape.gaps b ->
  existsb is_missing b = false -> existsb is_missing a = false.
Proof.
  unfold Shape.gaps. revert b.
  induction a as [ | x ta IH ]; intros [ | y tb ]; simpl;
    try reflexivity; try discriminate.
  intros H. injection H as Hxy Ht. rewrite Hxy. intros Hb.
  apply orb_false_iff in Hb. destruct Hb as [Hy Hb]. rewrite Hy. simpl.
  eapply IH; eauto.
Qed.

Lemma gaps_length (a b : Series) :
  Shape.gaps a = Shape.gaps b -> List.length a = List.length b.
Proof.
  unfold Shape.gaps. intros H.
  rewrite <- (length_map is_missing a), H, length_map. reflexivity.
Qed.

Lemma outliers_gaps (cells : Series) :
  Shape.gaps (handle_column_outliers cells) = Shape.gaps cells.
Proof.
  unfold handle_column_outliers, Shape.gaps.
  destruct (List.length (dropna cells) <? 10)%nat; [ reflexivity | ].
  destruct (List.length (filter (outlier_cell (dropna cells)) cells) =? 0)%nat;
    [ reflexivity | ].
  destruct (Qlt_bool _ _); rewrite map_map; apply map_ext.
  - intros [x | ]; simpl; [ | reflexivity ].
    destruct (Qlt_bool x _); [ reflexivity | ].
    destruct (Qlt_bool _ x); reflexivity.
  - intros [x | ]; simpl; [ | reflexivity ].
    destruct (_ || _); reflexivity.
Qed.

Lemma map_all (P : Series -> Prop) (f : Series -> Series) (df : DataFrame) :
  (forall s, P s -> P (f s)) ->
  Shape.columns_all P df -> Shape.columns_all P (map (fun cs => (fst cs, f (snd cs))) df).
Proof.
  unfold Shape.columns_all. intros Hf H.
  induction H as [ | [c s] t Hs _ IH ]; simpl; constructor;
    [ apply Hf, Hs | exact IH ].
Qed.

Lemma missing_values_complete (df : DataFrame) :
  Shape.complete (_handle_missing_values df) = true.
Proof.
  unfold _handle_missing_values, Shape.complete.
  destruct (forallb (fun cs => negb (existsb is_missing (snd cs))) df) eqn:E0;
    [ exact E0 | ].
  match goal with |- context [map ?f df] => set (filled := map f df) end.
  destruct (forallb (fun cs => negb (existsb is_missing (snd cs))) filled)
    eqn:E1; [ exact E1 | ].
  rewrite forallb_forall. intros cs Hin. apply in_map_iff in Hin.
  destruct Hin as [[c s] [<- _]]. simpl.
  induction s as [ | [x | ] t IH ]; simpl; auto.
Qed.


Lemma missing_values_rows (n : nat) (df : DataFrame) :
  Shape.rows_are n df -> Shape.rows_are n (_handle_missing_values df).
Proof.
  unfold Shape.rows_are. intros H. unfold _handle_missing_values.
  destruct (forallb (fun cs => negb (existsb is_missing (snd cs))) df);
    [ exact H | ].
  match goal with |- context [map ?f df] => set (filled := map f df) end.
  assert (Hf : Forall (fun cs => List.length (snd cs) = n) filled).
  { unfold filled. clear filled. induction H as [ | [c s] t Hs _ IH ]; simpl;
      constructor; auto.
    destruct (existsb is_missing s); simpl; [ | exact Hs ].
    rewrite length_bfill, length_ffill. exact Hs. }
  destruct (forallb (fun cs => negb (existsb is_missing (snd cs))) filled);
    [ exact Hf | ].
  clear - Hf. induction Hf as [ | [c s] t Hs _ IH ]; simpl; constructor; auto.
  simpl in *. unfold fillna. rewrite length_map. exact Hs.
Qed.

Lemma clean_rows (n : nat) (df : DataFrame) :
  Shape.rows_are n df -> Shape.rows_are n (_clean_and_standardize df).
Proof.
  unfold Shape.rows_are, _clean_and_standardize. intros H.
  rewrite Forall_forall in *. intros cs Hin.
  apply in_map_iff in Hin. destruct Hin as [[c s] [<- Hin]].
  apply filter_In in Hin. destruct Hin as [Hin _].
  apply in_map_iff in Hin. destruct Hin as [[c0 s0] [E Hin]].
  injection E as <- <-. specialize (H _ Hin). simpl in *.
  unfold range_filter. destruct (lookup _ parameter_ranges) as [[lo hi] | ];
    [ rewrite length_map | ]; exact H.
Qed.


End PreparedShape.



Section AqiTiers.
Import Num Frame DataPreprocessor.

Lemma tier_interpolates (alo ahi : Z) (blo bhi c : Q) :
  (alo <= ahi)%Z -> blo < bhi -> blo <= c <= bhi ->
  inject_Z alo
  <= inject_Z (py_round (((inject_Z ahi - inject_Z alo) / (bhi - blo))
                         * (c - blo) + inject_Z alo))
  <= inject_Z ahi.
Proof.
  intros Ha Hb [Hc1 Hc2]. rewrite <- !Zle_Qle.
  assert (Hd : 0 < bhi - blo) by lra.
  assert (Hw : 0 <= inject_Z ahi - inject_Z alo).
  { rewrite Zle_Qle in Ha. lra. }
  set (w := inject_Z ahi - inject_Z alo) in *.
  assert (Ht0 : 0 <= (c - blo) / (bhi - blo)).
  { apply Qle_shift_div_l; [ exact Hd | lra ]. }
  assert (Ht1 : (c - blo) / (bhi - blo) <= 1).
  { apply Qle_shift_div_r; [ exact Hd | lra ]. }
  assert (E : w / (bhi - blo) * (c - blo) == w * ((c - blo) / (bhi - blo))).
  { field. lra. }
  set (t := (c - blo) / (bhi - blo)) in *. clearbody t.
  apply py_round_between; rewrite E.
  - assert (0 <= w * t) by (apply Qmult_le_0_compat; assumption). lra.
  - assert (w * t <= w * 1).
    { rewrite !(Qmult_comm w). apply Qmult_le_compat_r; assumption. }
    unfold w in *. lra.
Qed.

Lemma aqi_from_skip (lo hi alo ahi : Q) (rest : list (Q * Q * Q * Q))
  (c : Q) :
  hi < c -> aqi_from ((lo, hi, alo, ahi) :: rest) c = aqi_from rest c.
Proof.
  intros H. cbn [aqi_from].
  assert (E : Qle_bool c hi = false).
  { destruct (Qle_bool c hi) eqn:E; [ | reflexivity ].
    apply Qle_bool_iff in E. exfalso. apply (Qlt_irrefl c).
    eapply Qle_lt_trans; eauto. }
  rewrite E, andb_false_r. reflexivity.
Qed.

Lemma aqi_from_hit (lo hi alo ahi : Q) (rest : list (Q * Q * Q * Q))
  (c : Q) :
  lo <= c <= hi ->
  aqi_from ((lo, hi, alo, ahi) :: rest) c
  = py_round (((ahi - alo) / (hi - lo)) * (c - lo) + alo).
Proof.
  intros [H1 H2]. cbn [aqi_from].
  apply Qle_bool_iff in H1, H2. rewrite H1, H2. reflexivity.
Qed.

Ltac tier_case alo ahi :=
  repeat (rewrite aqi_from_skip by (eapply Qlt_le_trans; [ | eassumption ];
                                    reflexivity));
  rewrite aqi_from_hit by (split; assumption);
  apply (tier_interpolates alo ahi); [ lia | reflexivity | split; assumption ].

Lemma pm25_tier (c lo hi alo ahi : Q) :
  In (lo, hi, alo, ahi) pm25_breakpoints -> lo <= c <= hi ->
  alo <= inject_Z (pm25_to_aqi c) <= ahi.
Proof.
  intros Hin [H1 H2]. unfold pm25_to_aqi.
  unfold pm25_breakpoints in *. cbn [In] in Hin.
  destruct Hin as [E | [E | [E | [E | [E | [E | []]]]]]];
    injection E as <- <- <- <-.
  - tier_case 0%Z 50%Z.
  - tier_case 51%Z 100%Z.
  - tier_case 101%Z 150%Z.
  - tier_case 151%Z 200%Z.
  - tier_case 201%Z 300%Z.
  - tier_case 301%Z 400%Z.
Qed.

Lemma pm10_tier (c lo hi alo ahi : Q) :
  In (lo, hi, alo, ahi) pm10_breakpoints -> lo <= c <= hi ->
  alo <= inject_Z (pm10_to_aqi c) <= ahi.
Proof.
  intros Hin [H1 H2]. unfold pm10_to_aqi.
  unfold pm10_breakpoints in *. cbn [In] in Hin.
  destruct Hin as [E | [E | [E | [E | [E | [E | []]]]]]];
    injection E as <- <- <- <-.
  - tier_case 0%Z 50%Z.
  - tier_case 51%Z 100%Z.
  - tier_case 101%Z 150%Z.
  - tier_case 151%Z 200%Z.
  - tier_case 201%Z 300%Z.
  - tier_case 301%Z 400%Z.
Qed.

Lemma no_tier (bps : list (Q * Q * Q * Q)) (c : Q) :
  (forall lo hi alo ahi, In (lo, hi, alo, ahi) bps -> ~ (lo <= c <= hi)) ->
  aqi_from bps c = 500%Z.
Proof.
  induction bps as [ | [[[lo hi] alo] ahi] t IH ]; intros H; simpl;
    [ reflexivity | ].
  destruct (Qle_bool lo c && Qle_bool c hi) eqn:E.
  - exfalso. apply andb_true_iff in E. destruct E as [E1 E2].
    apply Qle_bool_iff in E1, E2. apply (H lo hi alo ahi); [ left | ]; auto.
  - apply IH. intros lo' hi' alo' ahi' Hin.
    apply (H lo' hi' alo' ahi'). right. exact Hin.
Qed.

(** X7.  A concentration inside a tier of the PM2.5 or PM10 table gets a
    sub-index inside the index range of that tier. *)
Theorem aqi_within_tier (c lo hi alo ahi : Q) :
  lo <= c <= hi ->
  (In (lo, hi, alo, ahi) pm25_breakpoints ->
   alo <= inject_Z (pm25_to_aqi c) <= ahi)
  /\ (In (lo, hi, alo, ahi) pm10_breakpoints ->
      alo <= inject_Z (pm10_to_aqi c) <= ahi).
Proof.
  intros H. split; intros Hin; [ eapply pm25_tier | eapply pm10_tier ]; eauto.
Qed.

Lemma aqi_within_tier_witness :
  (121 # 10) <= 20 <= (354 # 10)
  /\ 51 <= inject_Z (pm25_to_aqi 20) <= 100.
Proof.
  assert (H : (121 # 10) <= 20 <= (354 # 10)) by (split; discriminate).
  split; [ exact H | ].
  apply (proj1 (aqi_within_tier 20 (121 # 10) (354 # 10) 51 100 H)).
  right. left. reflexivity.
Defined.

(** X8.  The PM2.5 and PM10 sub-indices are 500 exactly for the
    concentrations no tier covers: negative ones, those above the last
    tier, and those between two tiers (12 < c < 12.1 for PM2.5). *)
Theorem aqi_hazardous_iff (c : Q) :
  (pm25_to_aqi c = 500%Z <->
   forall lo hi alo ahi,
     In (lo, hi, alo, ahi) pm25_breakpoints -> ~ (lo <= c <= hi))
  /\ (pm10_to_aqi c = 500%Z <->
      forall lo hi alo ahi,
        In (lo, hi, alo, ahi) pm10_breakpoints -> ~ (lo <= c <= hi)).
Proof.
  split; split.
  - intros E lo hi alo ahi Hin Hc.
    pose proof (pm25_tier c lo hi alo ahi Hin Hc) as [_ Hb].
    rewrite E in Hb.
    assert (Hm : ahi <= 400).
    { unfold pm25_breakpoints in Hin. cbn [In] in Hin.
      destruct Hin as [E' | [E' | [E' | [E' | [E' | [E' | []]]]]]];
        injection E' as <- <- <- <-; discriminate. }
    assert (Hx : inject_Z 500 <= 400) by (eapply Qle_trans; eauto).
    apply Hx. reflexivity.
  - apply no_tier.
  - intros E lo hi alo ahi Hin Hc.
    pose proof (pm10_tier c lo hi alo ahi Hin Hc) as [_ Hb].
    rewrite E in Hb.
    assert (Hm : ahi <= 400).
    { unfold pm10_breakpoints in Hin. cbn [In] in Hin.
      destruct Hin as [E' | [E' | [E' | [E' | [E' | [E' | []]]]]]];
        injection E' as <- <- <- <-; discriminate. }
    assert (Hx : inject_Z 500 <= 400) by (eapply Qle_trans; eauto).
    apply Hx. reflexivity.
  - apply no_tier.
Qed.

End AqiTiers.

(* ------------------------------------------------------------------ *)
(** ** Preparing a prepared frame                                      *)
(* ------------------------------------------------------------------ *)

Section NamesTwice.
Import Num Frame DataPreprocessor.

Lemma drop_while_noop (p : ascii -> bool) (l : list ascii) :
  (forall c t, l = c :: t -> p c = false) -> drop_while p l = l.
Proof.
  destruct l as [ | c t ]; [ reflexivity | ].
  intros H. simpl. rewrite (H c t eq_refl). reflexivity.
Qed.

Lemma strip_noop (p : ascii -> bool) (l : list ascii) :
  (forall c, In c l -> p c = false) -> strip_chars p l = l.
Proof.
  intros H. unfold strip_chars.
  rewrite (drop_while_noop p l)
    by (intros c t ->; apply H; left; reflexivity).
  rewrite (drop_while_noop p (rev l)).
  - apply rev_involutive.
  - intros c t E. apply H. apply in_rev. rewrite E. left. reflexivity.
Qed.

Lemma strip_ends_noop (p : ascii -> bool) (l : list ascii) :
  (forall c t, l = c :: t -> p c = false) ->
  (forall c t, l = t ++ [c] -> p c = false) ->
  strip_chars p l = l.
Proof.
  intros Hh Hl. unfold strip_chars.
  rewrite (drop_while_noop p l Hh).
  rewrite (drop_while_noop p (rev l)).
  - apply rev_involutive.
  - intros c t E. apply (Hl c (rev t)).
    rewrite <- (rev_involutive l), E. reflexivity.
Qed.

Lemma collapse_noop (fuel : nat) (l : list ascii) :
  has_pair l = false -> collapse fuel l = l.
Proof. intros H. destruct fuel; simpl; [ | rewrite H ]; reflexivity. Qed.

Lemma ordinary_char (c : ascii) :
  negb (is_space c) || Ascii.eqb c " " = true ->
  is_space (to_underscore (lower_char c)) = false.
Proof.
  destruct c as [[] [] [] [] [] [] [] []]; intros H;
    first [ reflexivity | discriminate H ].
Qed.

(** The characters of a standardized name. *)
Lemma standardized_chars (column_name : string) (c : ascii) :
  Shape.ordinary_name column_name = true ->
  In c (list_ascii_of_string (_standardize_column_name column_name)) ->
  to_underscore c = c /\ lower_char c = c /\ is_space c = false.
Proof.
  intros Ho H. unfold _standardize_column_name in H.
  rewrite list_ascii_of_string_of_list_ascii in H.
  apply in_strip, in_collapse in H. apply in_map_iff in H.
  destruct H as [c0 [<- H]]. apply in_strip, in_map_iff in H.
  destruct H as [c1 [<- H]].
  unfold Shape.ordinary_name in Ho. rewrite forallb_forall in Ho.
  specialize (Ho c1 H).
  destruct (replaced_char (lower_char c1) (lower_char_twice c1)) as [H1 H2].
  repeat split; [ exact H1 | exact H2 | apply ordinary_char, Ho ].
Qed.

Lemma standardized_twice (column_name : string) :
  Shape.ordinary_name column_name = true ->
  _standardize_column_name (_standardize_column_name column_name)
  = _standardize_column_name column_name.
Proof.
  intros Ho.
  pose proof (standardized_chars column_name) as Hc.
  set (out := _standardize_column_name column_name) in *.
  assert (Hpair : has_pair (list_ascii_of_string out) = false).
  { unfold out, _standardize_column_name.
    rewrite list_ascii_of_string_of_list_ascii.
    match goal with
    | |- has_pair (strip_chars _ ?l) = false =>
        destruct (strip_inside is_underscore l) as [pre [post E]];
        apply (no_pair_inside pre _ post); rewrite <- E
    end.
    apply collapse_no_pair. lia. }
  assert (Hends : forall c t,
            (list_ascii_of_string out = c :: t -> is_underscore c = false)
            /\ (list_ascii_of_string out = t ++ [c]
                -> is_underscore c = false)).
  { intros c t. unfold out, _standardize_column_name.
    rewrite list_ascii_of_string_of_list_ascii. apply strip_ends. }
  unfold _standardize_column_name at 1.
  set (l := list_ascii_of_string out) in *.
  assert (E1 : map lower_char l = l).
  { apply map_same. intros c Hin. apply (Hc c Ho Hin). }
  rewrite E1.
  rewrite (strip_noop is_space l)
    by (intros c Hin; apply (Hc c Ho Hin)).
  assert (E2 : map to_underscore l = l).
  { apply map_same. intros c Hin. apply (Hc c Ho Hin). }
  rewrite E2, collapse_noop by exact Hpair.
  rewrite strip_ends_noop.
  - unfold l. apply string_of_list_ascii_of_string.
  - intros c t. apply Hends.
  - intros c t. apply Hends.
Qed.

Lemma canonical_twice (column_name : string) :
  Shape.ordinary_name column_name = true ->
  canonical_name (canonical_name column_name) = canonical_name column_name.
Proof.
  intros Ho. unfold canonical_name at 2 3.
  destruct (lookup (_standardize_column_name column_name) parameter_mappings)
    as [v | ] eqn:E.
  - apply lookup_in in E. unfold parameter_mappings in E. cbn [In] in E.
    repeat (destruct E as [E | E];
            [ injection E as _ <-; vm_compute; reflexivity | ]).
    destruct E.
  - unfold canonical_name. rewrite (standardized_twice _ Ho), E. reflexivity.
Qed.

End NamesTwice.

Section DerivedNames.
Import Num Frame DataPreprocessor.

Lemma has_add (x t : string) (names : list string) :
  Shape.has x (Shape.add_name names t)
  = Shape.has x names || String.eqb x t.
Proof.
  unfold Shape.add_name, Shape.has.
  destruct (existsb (String.eqb t) names) eqn:E.
  - destruct (String.eqb x t) eqn:Ex; [ | rewrite orb_false_r; reflexivity ].
    apply String.eqb_eq in Ex. subst x. rewrite E. reflexivity.
  - rewrite existsb_app. simpl. rewrite orb_false_r. reflexivity.
Qed.

Lemma has_fold_add (x : string) (ts : list string) :
  forall names,
    Shape.has x (fold_left Shape.add_name ts names)
    = Shape.has x names || Shape.has x ts.
Proof.
  induction ts as [ | t rest IH ]; intros names; simpl.
  - rewrite orb_false_r. reflexivity.
  - rewrite IH, has_add, <- orb_assoc. reflexivity.
Qed.

Lemma has_derive (x : string) (names : list string)
  (rule : list string * list string) :
  Shape.has x (Shape.derive_names names rule)
  = Shape.has x names
    || (forallb (fun i => Shape.has i names) (fst rule)
        && Shape.has x (snd rule)).
Proof.
  unfold Shape.derive_names.
  destruct (forallb _ (fst rule)); simpl.
  - apply has_fold_add.
  - rewrite orb_false_r. reflexivity.
Qed.

Lemma fold_add_noop (ts : list string) (names : list string) :
  forallb (fun t => Shape.has t names) ts = true ->
  fold_left Shape.add_name ts names = names.
Proof.
  induction ts as [ | t rest IH ]; simpl; [ reflexivity | ].
  intros H. apply andb_true_iff in H. destruct H as [Ht Hrest].
  unfold Shape.add_name at 2. rewrite Ht. apply IH, Hrest.
Qed.

Lemma closed_noop (names : list string) (rule : list string * list string) :
  Shape.closed names rule -> Shape.derive_names names rule = names.
Proof.
  intros H. unfold Shape.derive_names.
  destruct (forallb _ (fst rule)) eqn:E; [ | reflexivity ].
  apply fold_add_noop, H, E.
Qed.

Lemma closed_rules_noop (rules : list (list string * list string))
  (names : list string) :
  Forall (Shape.closed names) rules -> Shape.derived_names rules names = names.
Proof.
  unfold Shape.derived_names.
  induction 1 as [ | rule rest Hc _ IH ]; simpl; [ reflexivity | ].
  rewrite (closed_noop _ _ Hc). exact IH.
Qed.

Lemma inputs_after (names : list string)
  (by_rule rule : list string * list string) :
  Shape.apart by_rule rule ->
  forallb (fun i => Shape.has i (Shape.derive_names names by_rule))
    (fst rule)
  = forallb (fun i => Shape.has i names) (fst rule).
Proof.
  unfold Shape.apart. generalize (fst rule) as ins.
  induction ins as [ | i rest IH ]; intros H; [ reflexivity | ].
  cbn [forallb].
  rewrite has_derive, (H i (or_introl eq_refl)), andb_false_r, orb_false_r.
  rewrite IH; [ reflexivity | ].
  intros j Hj. apply H. right. exact Hj.
Qed.

Lemma closed_after_own (names : list string)
  (rule : list string * list string) :
  Shape.apart rule rule -> Shape.closed (Shape.derive_names names rule) rule.
Proof.
  intros Ha Hin. rewrite (inputs_after _ _ _ Ha) in Hin.
  apply forallb_forall. intros t Ht.
  rewrite has_derive, Hin. cbn [andb].
  apply orb_true_iff. right.
  unfold Shape.has. apply existsb_exists. exists t.
  split; [ exact Ht | apply String.eqb_refl ].
Qed.

Lemma closed_after_other (names : list string)
  (by_rule rule : list string * list string) :
  Shape.apart by_rule rule -> Shape.closed names rule ->
  Shape.closed (Shape.derive_names names by_rule) rule.
Proof.
  intros Ha Hc Hin. rewrite (inputs_after _ _ _ Ha) in Hin.
  specialize (Hc Hin). rewrite forallb_forall in *.
  intros t Ht. rewrite has_derive, (Hc t Ht). reflexivity.
Qed.

Lemma derived_closed (rules : list (list string * list string)) :
  (forall r1 r2, In r1 rules -> In r2 rules -> Shape.apart r1 r2) ->
  forall done names,
    (forall r1 r2, In r1 rules -> In r2 done -> Shape.apart r1 r2) ->
    Forall (Shape.closed names) done ->
    Forall (Shape.closed (Shape.derived_names rules names)) (done ++ rules).
Proof.
  unfold Shape.derived_names.
  induction rules as [ | rule rest IH ]; intros Hap done names Hd Hc; simpl.
  - rewrite app_nil_r. exact Hc.
  - replace (done ++ rule :: rest) with ((done ++ [rule]) ++ rest)
      by (rewrite <- app_assoc; reflexivity).
    apply IH.
    + intros r1 r2 H1 H2. apply Hap; right; assumption.
    + intros r1 r2 H1 H2. apply in_app_or in H2.
      destruct H2 as [H2 | [<- | []]].
      * apply Hd; [ right; exact H1 | exact H2 ].
      * apply Hap; [ right; exact H1 | left; reflexivity ].
    + apply Forall_app. split.
      * rewrite Forall_forall in *. intros r Hr.
        apply closed_after_other; [ | apply Hc, Hr ].
        apply Hd; [ left; reflexivity | exact Hr ].
      * constructor; [ | constructor ].
        apply closed_after_own. apply Hap; left; reflexivity.
Qed.

Lemma derivations_apart :
  forall r1 r2, In r1 Shape.derivations -> In r2 Shape.derivations ->
                Shape.apart r1 r2.
Proof.
  intros r1 r2 H1 H2 i Hi.
  unfold Shape.derivations in *. cbn [In] in H1, H2.
  repeat (destruct H1 as [<- | H1]; [ | ]); try destruct H1;
    repeat (destruct H2 as [<- | H2]; [ | ]); try destruct H2;
    cbn [fst In] in Hi;
    repeat (destruct Hi as [<- | Hi]; [ reflexivity | ]); destruct Hi.
Qed.

(** Deriving features a second time adds no column. *)
Lemma derived_names_twice (names : list string) :
  Shape.derived_names Shape.derivations
    (Shape.derived_names Shape.derivations names)
  = Shape.derived_names Shape.derivations names.
Proof.
  apply closed_rules_noop.
  apply (derived_closed Shape.derivations derivations_apart [] names).
  - intros r1 r2 _ [].
  - constructor.
Qed.

End DerivedNames.

Section PreparedAgain.
Import Num Frame DataPreprocessor.

Variable sin_degrees cos_degrees : Q -> Q.

Lemma columns_assign (t : string) (cells : Series) (df : DataFrame) :
  columns (assign t cells df) = Shape.add_name (columns df) t.
Proof.
  unfold Shape.add_name, Shape.has, columns.
  induction df as [ | [c s] rest IH ]; [ reflexivity | ].
  cbn [assign map fst existsb].
  destruct (String.eqb t c); [ reflexivity | ].
  cbn [orb map fst]. rewrite IH.
  destruct (existsb (String.eqb t) (map fst rest)); reflexivity.
Qed.

Lemma present (a : string) (df : DataFrame) :
  Shape.has a (columns df)
  = match get_column a df with Some _ => true | None => false end.
Proof.
  change (Shape.has a (columns df)) with (has_column a df).
  destruct (get_column a df) as [s | ] eqn:E.
  - apply has_column_lookup. eauto.
  - destruct (has_column a df) eqn:H; [ | reflexivity ].
    apply has_column_lookup in H. destruct H as [s H]. congruence.
Qed.

Lemma columns_derive2 (a b t : string) (f : Q -> Q -> Q) (df : DataFrame) :
  columns (derive2 a b t f df)
  = Shape.derive_names (columns df) ([a; b], [t]).
Proof.
  unfold derive2, Shape.derive_names. cbn [fst snd forallb fold_left].
  rewrite !present.
  destruct (get_column a df); [ | reflexivity ].
  destruct (get_column b df); [ | reflexivity ].
  apply columns_assign.
Qed.

Lemma columns_derive1 (a t : string) (f : Series -> Series) (df : DataFrame) :
  columns (derive1 a t f df) = Shape.derive_names (columns df) ([a], [t]).
Proof.
  unfold derive1, Shape.derive_names. cbn [fst snd forallb fold_left].
  rewrite !present.
  destruct (get_column a df); [ | reflexivity ].
  apply columns_assign.
Qed.

Lemma columns_engineer (df : DataFrame) :
  columns (_engineer_features sin_degrees cos_degrees df)
  = Shape.derived_names Shape.derivations (columns df).
Proof.
  unfold _engineer_features, Shape.derived_names, Shape.derivations.
  cbv zeta. cbn [fold_left].
  rewrite columns_derive2, columns_derive1, columns_derive1, columns_derive2.
  do 4 f_equal.
  rewrite <- (columns_derive2 _ _ _ (fun t h => t + (33 # 100) * h - (7 # 10))).
  set (df1 := derive2 "temperature" "humidity" "heat_index" _ df).
  unfold Shape.derive_names. cbn [fst snd forallb fold_left].
  rewrite !present.
  destruct (get_column "wind_speed" df1); [ | reflexivity ].
  destruct (get_column "wind_direction" df1); [ | reflexivity ].
  rewrite !columns_assign. reflexivity.
Qed.

Lemma columns_mapped (f : Series -> Series) (df : DataFrame) :
  columns (map (fun cs => (fst cs, f (snd cs))) df) = columns df.
Proof. unfold columns. rewrite map_map. reflexivity. Qed.

Lemma columns_missing (df : DataFrame) :
  columns (_handle_missing_values df) = columns df.
Proof.
  unfold _handle_missing_values.
  destruct (forallb (fun cs => negb (existsb is_missing (snd cs))) df);
    [ reflexivity | ].
  assert (E : columns
                (map (fun cs => if existsb is_missing (snd cs)
                                then (fst cs, bfill (ffill None (snd cs)))
                                else cs) df) = columns df).
  { unfold columns. rewrite map_map. apply map_ext.
    intros [c s]. simpl. destruct (existsb is_missing s); reflexivity. }
  match goal with
  | |- columns (if ?b then _ else _) = _ => destruct b
  end; [ exact E | ].
  rewrite (columns_mapped (fillna 0)). exact E.
Qed.

Lemma columns_after_cleaning (df : DataFrame) :
  columns (Shape.after_cleaning sin_degrees cos_degrees df)
  = Shape.derived_names Shape.derivations (columns df).
Proof.
  unfold Shape.after_cleaning, _scale_features, _handle_outliers.
  rewrite (columns_mapped robust_scale), columns_engineer.
  rewrite (columns_mapped handle_column_outliers), columns_missing.
  reflexivity.
Qed.

(** Rows and completeness through the pipeline. *)
Lemma pipeline_shape (n : nat) (df : DataFrame) :
  Shape.rows_are n df ->
  Shape.columns_all
    (fun s => List.length s = n /\ existsb is_missing s = false)
    (Shape.after_cleaning sin_degrees cos_degrees
       (_clean_and_standardize df)).
Proof.
  intros H. unfold Shape.after_cleaning, _scale_features.
  apply (map_all (fun s => List.length s = n /\ existsb is_missing s = false)
           robust_scale).
  { intros s [Hl Hc]. unfold robust_scale.
    rewrite length_map, missing_map. auto. }
  apply engineer_all.
  - intros f sa sb [La Ca] [Lb Cb].
    split; [ apply zip_length | apply zip_complete ]; assumption.
  - intros f s [Hl Hc]. rewrite length_map, missing_map. auto.
  - unfold _handle_outliers.
    apply (map_all (fun s => List.length s = n /\ existsb is_missing s = false)
             handle_column_outliers).
    + intros s [Hl Hc]. split.
      * rewrite (gaps_length _ _ (outliers_gaps s)). exact Hl.
      * eapply gaps_complete; [ apply outliers_gaps | exact Hc ].
    + pose proof (missing_values_rows n _ (clean_rows n df H)) as Hr.
      pose proof (proj1 (complete_columns _)
                    (missing_values_complete (_clean_and_standardize df)))
        as Hc.
      unfold Shape.rows_are, Shape.columns_all in *.
      rewrite Forall_forall in *. intros cs Hin. split; auto.
Qed.

Lemma in_derived (rules : list (list string * list string)) (x : string) :
  forall names,
    In x (Shape.derived_names rules names) ->
    In x names \/ In x (flat_map snd rules).
Proof.
  unfold Shape.derived_names.
  induction rules as [ | rule rest IH ]; intros names H; simpl in *;
    [ auto | ].
  destruct (IH _ H) as [H1 | H1]; [ | right; apply in_or_app; auto ].
  assert (Hh : Shape.has x (Shape.derive_names names rule) = true).
  { unfold Shape.has. apply existsb_exists. exists x.
    split; [ exact H1 | apply String.eqb_refl ]. }
  rewrite has_derive in Hh. apply orb_true_iff in Hh.
  destruct Hh as [Hh | Hh].
  - left. unfold Shape.has in Hh. apply existsb_exists in Hh.
    destruct Hh as [y [Hy E]]. apply String.eqb_eq in E. subst y. exact Hy.
  - right. apply in_or_app. left.
    apply andb_true_iff in Hh. destruct Hh as [_ Hh].
    unfold Shape.has in Hh. apply existsb_exists in Hh.
    destruct Hh as [y [Hy E]]. apply String.eqb_eq in E. subst y. exact Hy.
Qed.

(** Cleaning a frame whose names are canonical already and whose columns
    all hold a value keeps its columns. *)
Lemma columns_clean_again (df : DataFrame) :
  Forall (fun name => canonical_name name = name) (columns df) ->
  Shape.columns_all (fun s => forallb is_missing s = false) df ->
  columns (_clean_and_standardize df) = columns df.
Proof.
  intros Hn Hc. unfold _clean_and_standardize. cbv zeta.
  unfold columns in *. rewrite map_map. cbn [fst].
  unfold Shape.columns_all in Hc.
  induction df as [ | [c s] rest IH ]; [ reflexivity | ].
  inversion Hn as [ | ? ? Hc1 Hn1 ]; subst.
  inversion Hc as [ | ? ? Hs1 Hs2 ]; subst.
  cbn [map filter fst snd] in *. rewrite Hs1. cbn [negb map fst].
  rewrite Hc1, (IH Hn1 Hs2). reflexivity.
Qed.

Lemma clean_names (df : DataFrame) (x : string) :
  In x (columns (_clean_and_standardize df)) ->
  exists name, In name (columns df) /\ x = canonical_name name.
Proof.
  unfold _clean_and_standardize, columns. cbv zeta.
  rewrite map_map. cbn [fst]. intros H.
  apply in_map_iff in H. destruct H as [[c s] [E H]].
  apply filter_In in H. destruct H as [H _].
  apply in_map_iff in H. destruct H as [[c0 s0] [E0 H]].
  cbn [fst snd] in E, E0. inversion E0; subst c s x.
  exists c0. split; [ | reflexivity ].
  apply in_map_iff. exists (c0, s0). auto.
Qed.

(** The names of a prepared frame are canonical. *)
Lemma prepared_names_canonical (df : DataFrame) :
  forallb Shape.ordinary_name (columns df) = true ->
  Forall (fun name => canonical_name name = name)
    (columns
       (Shape.after_cleaning sin_degrees cos_degrees
          (_clean_and_standardize df))).
Proof.
  intros Ho. rewrite columns_after_cleaning.
  apply Forall_forall. intros x Hx.
  apply in_derived in Hx. destruct Hx as [Hx | Hx].
  - apply clean_names in Hx. destruct Hx as [name [Hin ->]].
    apply canonical_twice.
    rewrite forallb_forall in Ho. apply Ho, Hin.
  - cbn [Shape.derivations flat_map snd app In] in Hx.
    repeat (destruct Hx as [Hx | Hx]; [ subst x; reflexivity | ]).
    destruct Hx.
Qed.

Lemma has_in (x : string) (names : list string) :
  Shape.has x names = true <-> In x names.
Proof.
  unfold Shape.has. rewrite existsb_exists. split.
  - intros [y [Hy E]]. apply String.eqb_eq in E. subst y. exact Hy.
  - intros H. exists x. split; [ exact H | apply String.eqb_refl ].
Qed.

Lemma distinct_filter {A : Type} (p : string * A -> bool)
  (l : list (string * A)) :
  Spec.distinct (map fst l) = true ->
  Spec.distinct (map fst (filter p l)) = true.
Proof.
  induction l as [ | [c s] rest IH ]; [ reflexivity | ].
  cbn [map fst filter Spec.distinct]. intros H.
  apply andb_true_iff in H. destruct H as [Hc Hrest].
  destruct (p (c, s)); [ | apply IH, Hrest ].
  cbn [map fst Spec.distinct]. rewrite (IH Hrest), andb_true_r.
  apply negb_true_iff. apply negb_true_iff in Hc.
  destruct (existsb (String.eqb c) (map fst (filter p rest))) eqn:E;
    [ | reflexivity ].
  rewrite <- Hc. symmetry. apply existsb_exists.
  apply existsb_exists in E. destruct E as [y [Hy E]].
  exists y. split; [ | exact E ].
  apply in_map_iff in Hy. destruct Hy as [cs [E1 Hin]].
  apply filter_In in Hin. apply in_map_iff. exists cs. tauto.
Qed.

Lemma distinct_app_one (names : list string) (t : string) :
  Spec.distinct names = true -> Shape.has t names = false ->
  Spec.distinct (names ++ [t]) = true.
Proof.
  induction names as [ | n rest IH ]; [ reflexivity | ].
  cbn [app Spec.distinct]. unfold Shape.has. cbn [existsb].
  intros H Ht. apply andb_true_iff in H. destruct H as [Hn Hrest].
  apply orb_false_iff in Ht. destruct Ht as [Htn Ht].
  rewrite (IH Hrest Ht), andb_true_r, existsb_app. cbn [existsb].
  apply negb_true_iff in Hn. rewrite Hn, orb_false_r. cbn [orb].
  rewrite String.eqb_sym, Htn. reflexivity.
Qed.

Lemma distinct_derived (rules : list (list string * list string)) :
  forall names,
    Spec.distinct names = true ->
    Spec.distinct (Shape.derived_names rules names) = true.
Proof.
  assert (Hadd : forall ts names,
             Spec.distinct names = true ->
             Spec.distinct (fold_left Shape.add_name ts names) = true).
  { induction ts as [ | t rest IH ]; intros names H; [ exact H | ].
    cbn [fold_left]. apply IH. unfold Shape.add_name.
    destruct (Shape.has t names) eqn:E; [ exact H | ].
    apply distinct_app_one; assumption. }
  unfold Shape.derived_names.
  induction rules as [ | rule rest IH ]; intros names H; [ exact H | ].
  cbn [fold_left]. apply IH. unfold Shape.derive_names.
  destruct (forallb _ (fst rule)); [ apply Hadd, H | exact H ].
Qed.

Lemma renamed_columns (df : DataFrame) :
  map fst
    (map (fun cs : string * Series => (canonical_name (fst cs), snd cs)) df)
  = map canonical_name (columns df).
Proof. unfold columns. rewrite !map_map. reflexivity. Qed.

Lemma cleaned_columns (df : DataFrame) :
  columns (_clean_and_standardize df)
  = map fst
      (filter (fun cs : string * Series => negb (forallb is_missing (snd cs)))
         (map (fun cs : string * Series => (canonical_name (fst cs), snd cs))
            df)).
Proof.
  unfold _clean_and_standardize, columns. cbv zeta.
  rewrite map_map. reflexivity.
Qed.

(** A prepared frame is a wide frame of numeric readings again. *)
Lemma prepared_wide (df : DataFrame) :
  Shape.wide_numeric df = true ->
  forallb Shape.ordinary_name (columns df) = true ->
  Shape.wide_numeric
    (Shape.after_cleaning sin_degrees cos_degrees
       (_clean_and_standardize df)) = true.
Proof.
  intros Hw Ho.
  pose proof (prepared_names_canonical df Ho) as Hfix.
  unfold Shape.wide_numeric in *. cbv zeta in *.
  rewrite (map_same canonical_name)
    by (intros x Hx; rewrite Forall_forall in Hfix; apply Hfix, Hx).
  rewrite columns_after_cleaning.
  apply andb_true_iff in Hw. destruct Hw as [Hw Hpair].
  apply andb_true_iff in Hw. destruct Hw as [Hd Hdates].
  set (names := map canonical_name (columns df)) in *.
  assert (Hsub : forall x, In x (columns (_clean_and_standardize df)) ->
                           In x names).
  { intros x Hx. apply clean_names in Hx. destruct Hx as [y [Hy ->]].
    apply in_map, Hy. }
  set (prepared := Shape.derived_names Shape.derivations
                     (columns (_clean_and_standardize df))).
  assert (Hin : forall x, In x prepared ->
                          In x names \/ In x (flat_map snd Shape.derivations)).
  { intros x Hx. apply in_derived in Hx. destruct Hx as [Hx | Hx]; auto. }
  apply andb_true_iff. split; [ apply andb_true_iff; split | ].
  - apply distinct_derived. rewrite cleaned_columns.
    apply distinct_filter. rewrite renamed_columns. exact Hd.
  - apply forallb_forall. intros x Hx. destruct (Hin x Hx) as [H | H].
    + rewrite forallb_forall in Hdates. apply Hdates, H.
    + cbn [Shape.derivations flat_map snd app In] in H.
      repeat (destruct H as [H | H]; [ subst x; reflexivity | ]).
      destruct H.
  - apply negb_true_iff. apply negb_true_iff in Hpair.
    destruct (existsb (String.eqb "data_type") prepared) eqn:E1;
      [ | reflexivity ].
    destruct (existsb (String.eqb "value") prepared) eqn:E2;
      [ | reflexivity ].
    rewrite <- Hpair. symmetry.
    apply has_in in E1. apply has_in in E2.
    apply andb_true_iff. split; apply has_in.
    + destruct (Hin _ E1) as [H | H]; [ exact H | ].
      cbn [Shape.derivations flat_map snd app In] in H.
      repeat (destruct H as [H | H]; [ discriminate H | ]). destruct H.
    + destruct (Hin _ E2) as [H | H]; [ exact H | ].
      cbn [Shape.derivations flat_map snd app In] in H.
      repeat (destruct H as [H | H]; [ discriminate H | ]). destruct H.
Qed.

Lemma prepare_unfolded (df : DataFrame) :
  prepare_features sin_degrees cos_degrees df
  = if empty df then []
    else Shape.after_cleaning sin_degrees cos_degrees
           (_clean_and_standardize df).
Proof. reflexivity. Qed.

Lemma rows_not_empty (n : nat) (df : DataFrame) :
  Shape.rows_are n df -> empty df = false -> n <> O.
Proof.
  intros Hrows He. destruct df as [ | [c s] t ]; [ discriminate | ].
  inversion Hrows; subst. simpl in *. apply Nat.eqb_neq in He. exact He.
Qed.

Lemma prepared_again (n : nat) (df : DataFrame) :
  forallb Shape.ordinary_name (columns df) = true ->
  Shape.rows_are n df ->
  let once := prepare_features sin_degrees cos_degrees df in
  let twice := prepare_features sin_degrees cos_degrees once in
  columns twice = columns once
  /\ Shape.columns_all
       (fun s => List.length s = n /\ existsb is_missing s = false) once
  /\ Shape.columns_all
       (fun s => List.length s = n /\ existsb is_missing s = false) twice.
Proof.
  intros Ho Hrows once twice. subst twice once.
  rewrite (prepare_unfolded df).
  destruct (empty df) eqn:He.
  { repeat split; constructor. }
  pose proof (rows_not_empty n df Hrows He) as Hn.
  pose proof (pipeline_shape n df Hrows) as Hshape.
  pose proof (prepared_names_canonical df Ho) as Hnames.
  set (once := Shape.after_cleaning sin_degrees cos_degrees
                 (_clean_and_standardize df)) in *.
  assert (Hrows1 : Shape.rows_are n once).
  { unfold Shape.rows_are, Shape.columns_all in *.
    eapply Forall_impl; [ | exact Hshape ]. intros cs [H _]. exact H. }
  assert (Hvalue : Shape.columns_all
                     (fun s => forallb is_missing s = false) once).
  { unfold Shape.columns_all in *.
    eapply Forall_impl; [ | exact Hshape ]. intros cs [Hl Hc].
    apply complete_not_all_missing; [ exact Hc | ].
    intros E. rewrite E in Hl. simpl in Hl. congruence. }
  rewrite (prepare_unfolded once).
  destruct (empty once) eqn:He1.
  { destruct once as [ | [c s] t ]; [ repeat split; constructor | ].
    exfalso. inversion Hrows1; subst. simpl in *.
    apply Nat.eqb_eq in He1. congruence. }
  split; [ | split ].
  - rewrite columns_after_cleaning.
    rewrite (columns_clean_again once Hnames Hvalue).
    unfold once at 1. rewrite columns_after_cleaning.
    rewrite derived_names_twice.
    unfold once. rewrite columns_after_cleaning. reflexivity.
  - exact Hshape.
  - apply pipeline_shape. exact Hrows1.
Qed.


End PreparedAgain.


Section PreparedTwice.
Import Num Frame DataPreprocessor Scenario.


End PreparedTwice.

(* ================================================================== *)
(** * Further properties of the threat detection engine                *)
(* ================================================================== *)

Section UntrainedEngine.
Import Num Frame ThreatDetectionEngine.

Lemma run_models_in (e : Engine) (to_run : list string) (data : DataFrame)
  (r : ThreatDetectionResult) :
  In r (run_models e to_run data) ->
  exists threat,
    In threat to_run /\ lookup threat (models e) <> None
    /\ _detect_single_threat e threat data = Some r.
Proof.
  induction to_run as [ | t rest IH ]; simpl; [ tauto | ].
  destruct (lookup t (models e)) eqn:Em.
  - destruct (_detect_single_threat e t data) as [r' | ] eqn:Ed.
    + intros [<- | H].
      * exists t. repeat split; auto. congruence.
      * destruct (IH H) as [t' [H1 H2]]. exists t'. tauto.
    + intros H. destruct (IH H) as [t' [H1 H2]]. exists t'. tauto.
  - intros H. destruct (IH H) as [t' [H1 H2]]. exists t'. tauto.
Qed.

Lemma detect_threats_in (e : Engine) (data : DataFrame)
  (sel : option (list string)) (r : ThreatDetectionResult) :
  In r (detect_threats e data sel) ->
  empty data = false
  /\ exists threat,
       In threat (match sel with
                  | Some (m :: ms) => m :: ms
                  | _ => map fst (models e)
                  end)
       /\ lookup threat (models e) <> None
       /\ _detect_single_threat e threat data = Some r.
Proof.
  unfold detect_threats. destruct (empty data); [ simpl; tauto | ].
  intros H. split; [ reflexivity | ].
  apply run_models_in in H. exact H.
Qed.

(** What a result of [_detect_single_threat] is made of. *)
Lemma single_threat_parts (e : Engine) (threat : string) (data : DataFrame)
  (r : ThreatDetectionResult) :
  _detect_single_threat e threat data = Some r ->
  exists required trained threshold,
    lookup threat (feature_columns e) = Some required
    /\ lookup threat (is_trained e) = Some trained
    /\ lookup threat confidence_thresholds = Some threshold
    /\ (2 <= List.length (filter (fun f => has_column f data) required))%nat
    /\ let avail := filter (fun f => has_column f data) required in
       let fd := fillna_frame 0 (select avail data) in
       let cs := if trained then _predict_with_ensemble e threat fd
                 else _rule_based_detection threat fd avail in
       r = {| threat_type := threat;
              confidence := round4 (fst cs);
              severity := snd cs;
              detected := Qle_bool threshold (fst cs);
              features_used := avail;
              ensemble_confidence := fst cs;
              feature_count := List.length avail;
              detection_method :=
                if trained then "ensemble" else "rule_based";
              threshold_used := threshold |}.
Proof.
  unfold _detect_single_threat.
  destruct (lookup threat (feature_columns e)) as [required | ];
    [ | discriminate ].
  cbv zeta.
  destruct (List.length (filter (fun f => has_column f data) required) <? 2)%nat
    eqn:El; [ discriminate | ].
  destruct (lookup threat (is_trained e)) as [trained | ]; [ | discriminate ].
  destruct (if trained then _ else _) as [conf sev] eqn:Ecs.
  destruct (lookup threat confidence_thresholds) as [threshold | ];
    [ | discriminate ].
  intros H. injection H as <-.
  exists required, trained, threshold. apply Nat.ltb_ge in El.
  repeat split; try assumption. rewrite Ecs. reflexivity.
Qed.

Lemma lookup_select_none (name : string) (names : list string)
  (df : DataFrame) :
  get_column name df = None -> lookup name (select names df) = None.
Proof.
  intros H. destruct (lookup name (select names df)) as [s | ] eqn:E;
    [ | reflexivity ].
  apply lookup_select_inv in E. congruence.
Qed.

Lemma last_fill (s : Series) :
  last (map (fill_cell 0) s) 0 = fill_cell 0 (last s None).
Proof.
  induction s as [ | c t IH ]; [ reflexivity | ].
  destruct t as [ | c' t' ]; [ reflexivity | ].
  change (last (map (fill_cell 0) (c' :: t')) 0
          = fill_cell 0 (last (c' :: t') None)). exact IH.
Qed.

(** Two features found in a frame with rows make a feature table with
    rows. *)
Lemma feature_table_rows (n : nat) (data : DataFrame) (required : list string) :
  Shape.rows_are n data -> n <> O ->
  (2 <= List.length (filter (fun f => has_column f data) required))%nat ->
  table_empty
    (fillna_frame 0
       (select (filter (fun f => has_column f data) required) data)) = false.
Proof.
  intros Hrows Hn Hlen.
  destruct (filter (fun f => has_column f data) required) as [ | f rest ] eqn:E;
    [ simpl in Hlen; lia | ].
  assert (Hin : In f (filter (fun f => has_column f data) required))
    by (rewrite E; left; reflexivity).
  apply filter_In in Hin. destruct Hin as [_ Hc].
  apply has_column_lookup in Hc. destruct Hc as [s Hs].
  cbn [select]. rewrite Hs. cbn [fillna_frame map table_empty table_rows fst snd].
  rewrite length_map.
  unfold get_column in Hs. apply lookup_in in Hs.
  unfold Shape.rows_are in Hrows. rewrite Forall_forall in Hrows.
  specialize (Hrows _ Hs). simpl in Hrows. rewrite Hrows.
  apply Nat.eqb_neq. exact Hn.
Qed.

Lemma latest_of_features (n : nat) (data : DataFrame) (required : list string)
  (name : string) (d : Q) :
  Shape.rows_are n data -> n <> O ->
  (2 <= List.length (filter (fun f => has_column f data) required))%nat ->
  In name required ->
  row_get name d
    (latest_row
       (fillna_frame 0
          (select (filter (fun f => has_column f data) required) data)))
  = Shape.latest_reading name d data.
Proof.
  intros Hrows Hn Hlen Hin.
  rewrite row_get_latest by (eapply feature_table_rows; eauto).
  rewrite lookup_fillna. unfold Shape.latest_reading.
  destruct (get_column name data) as [s | ] eqn:Es.
  - rewrite (lookup_select _ _ _ s); [ | | exact Es ].
    + simpl. apply last_fill.
    + apply filter_In. split; [ exact Hin | ].
      apply has_column_lookup. eauto.
  - rewrite lookup_select_none by exact Es. reflexivity.
Qed.

Lemma nonempty_rows (n : nat) (data : DataFrame) :
  Shape.rows_are n data -> empty data = false -> n <> O.
Proof.
  intros Hrows He. destruct data as [ | [c s] t ]; [ discriminate | ].
  inversion Hrows; subst. simpl in *. apply Nat.eqb_neq in He. exact He.
Qed.

(** X9.  Before any training the engine never reports illegal dumping as
    detected: the rule gives confidence 0.6 at most, below the threshold
    0.85. *)
Theorem untrained_dumping_never_detected (data : DataFrame)
  (detection_models : option (list string)) (r : ThreatDetectionResult) :
  In r (detect_threats initialized data detection_models) ->
  threat_type r = "illegal_dumping"%string ->
  detected r = false /\ confidence r <= 60 # 100
  /\ detection_method r = "rule_based"%string.
Proof.
  intros Hin Ht. apply detect_threats_in in Hin.
  destruct Hin as [_ [threat [_ [_ Hd]]]].
  apply single_threat_parts in Hd.
  destruct Hd as [required [trained [threshold [Hr [Htr [Hth [_ Hd]]]]]]].
  cbv zeta in Hd. subst r. cbn [threat_type] in Ht. subst threat.
  change (lookup "illegal_dumping" (is_trained initialized))
    with (Some false) in Htr.
  change (lookup "illegal_dumping" confidence_thresholds)
    with (Some (85 # 100)) in Hth.
  injection Htr as <-. injection Hth as <-.
  cbn [detected confidence detection_method].
  unfold _rule_based_detection. simpl String.eqb. cbv iota.
  unfold illegal_dumping_rule.
  destruct (Qlt_bool _ 3); cbn [fst]; repeat split; discriminate.
Qed.


(** X10.  Before any training, pollution is reported as detected exactly
    when the latest PM2.5 reading is above 55 or the latest PM10 reading
    above 150, a missing reading counting as 0. *)
Theorem untrained_pollution_detected_iff (n : nat) (data : DataFrame)
  (detection_models : option (list string)) (r : ThreatDetectionResult) :
  Shape.rows_are n data ->
  In r (detect_threats initialized data detection_models) ->
  threat_type r = "pollution"%string ->
  (detected r = true <->
   55 < Shape.latest_reading "pm25" 0 data
   \/ 150 < Shape.latest_reading "pm10" 0 data).
Proof.
  intros Hrows Hin Ht. apply detect_threats_in in Hin.
  destruct Hin as [He [threat [_ [_ Hd]]]].
  pose proof (nonempty_rows n data Hrows He) as Hn.
  apply single_threat_parts in Hd.
  destruct Hd as [required [trained [threshold [Hr [Htr [Hth [Hlen Hd]]]]]]].
  cbv zeta in Hd. subst r. cbn [threat_type] in Ht. subst threat.
  change (lookup "pollution" (is_trained initialized))
    with (Some false) in Htr.
  change (lookup "pollution" confidence_thresholds)
    with (Some (75 # 100)) in Hth.
  change (lookup "pollution" (feature_columns initialized))
    with (Some ["pm25"; "pm10"; "ozone"; "wind_speed"; "temperature";
                "humidity"]%string) in Hr.
  injection Htr as <-. injection Hth as <-. injection Hr as <-.
  cbn [detected].
  unfold _rule_based_detection. simpl String.eqb. cbv iota.
  unfold pollution_rule.
  rewrite !(latest_of_features n) by (auto; simpl; tauto).
  set (pm25 := Shape.latest_reading "pm25" 0 data).
  set (pm10 := Shape.latest_reading "pm10" 0 data).
  clearbody pm25 pm10.
  assert (H80 : forall c, Qle_bool (75 # 100) (Qmax c (80 # 100)) = true).
  { intros c. apply Qle_bool_iff.
    apply Qle_trans with (80 # 100); [ discriminate | apply Q.le_max_r ]. }
  repeat match goal with
  | |- context [Qlt_bool ?a ?b] =>
      let E := fresh "E" in
      destruct (Qlt_bool a b) eqn:E;
      [ apply Qlt_bool_iff in E | apply Qlt_bool_false in E ]
  end; cbv beta iota; cbn [fst]; rewrite ?H80;
    match goal with
    | |- (?b = true) <-> _ =>
        let v := eval vm_compute in b in change b with v
    end;
    (split; [ intros H; try discriminate H; (left; lra) || (right; lra)
            | intros [H | H]; try reflexivity; exfalso; lra ]).
Qed.


(** X11.  Every result of [detect_threats] is for a category that was
    asked for and that the engine holds, rests on two or more of the
    features of the category that are columns of the data, and is flagged
    as detected exactly when the confidence reaches the threshold of the
    category. *)
Theorem reported_results_form (e : Engine) (data : DataFrame)
  (detection_models : option (list string)) (r : ThreatDetectionResult) :
  In r (detect_threats e data detection_models) ->
  (forall asked, detection_models = Some asked -> asked <> [] ->
     In (threat_type r) asked)
  /\ lookup (threat_type r) (models e) <> None
  /\ (exists required,
        lookup (threat_type r) (feature_columns e) = Some required
        /\ features_used r = filter (fun f => has_column f data) required)
  /\ (2 <= List.length (features_used r))%nat
  /\ feature_count r = List.length (features_used r)
  /\ lookup (threat_type r) confidence_thresholds = Some (threshold_used r)
  /\ detected r = Qle_bool (threshold_used r) (ensemble_confidence r)
  /\ confidence r = round4 (ensemble_confidence r).
Proof.
  intros Hin. apply detect_threats_in in Hin.
  destruct Hin as [_ [threat [Hasked [Hm Hd]]]].
  apply single_threat_parts in Hd.
  destruct Hd as [required [trained [threshold [Hr [Htr [Hth [Hlen Hd]]]]]]].
  cbv zeta in Hd. subst r.
  cbn [threat_type features_used feature_count threshold_used detected
       ensemble_confidence confidence].
  repeat split; try assumption; try reflexivity.
  - intros asked -> Hne. destruct asked; [ congruence | exact Hasked ].
  - exists required. auto.
Qed.

(** X12.  A category marked as trained whose classifiers all raise is
    reported with confidence 0 and severity 1, not detected: there is no
    fallback to the rules. *)
Theorem failed_ensemble_reports_nothing (e : Engine) (threat : string)
  (data : DataFrame) (r : ThreatDetectionResult) :
  lookup threat (is_trained e) = Some true ->
  (forall ms m X, lookup threat (models e) = Some ms -> In m ms ->
     predict_proba m X = None) ->
  _detect_single_threat e threat data = Some r ->
  confidence r == 0 /\ severity r = 1%Z /\ detected r = false
  /\ detection_method r = "ensemble"%string.
Proof.
  intros Htrained Hfail Hd.
  apply single_threat_parts in Hd.
  destruct Hd as [required [trained [threshold [Hr [Htr [Hth [Hlen Hd]]]]]]].
  cbv zeta in Hd. rewrite Htrained in Htr. injection Htr as <-.
  set (fd := fillna_frame 0 _) in Hd.
  assert (E : _predict_with_ensemble e threat fd = (0, 1%Z)).
  { unfold _predict_with_ensemble.
    destruct (lookup threat (scalers e)) as [transform | ]; [ | reflexivity ].
    destruct (transform fd) as [X | ]; [ | reflexivity ].
    destruct (lookup threat (models e)) as [ms | ] eqn:Em; [ | reflexivity ].
    assert (Hnone : collect_confidences ms X = []).
    { specialize (Hfail ms). clear - Hfail.
      induction ms as [ | m rest IH ]; [ reflexivity | ].
      cbn [collect_confidences].
      rewrite (Hfail m X eq_refl (or_introl eq_refl)).
      apply IH. intros m' X' _ Hin. apply Hfail; [ reflexivity | right; exact Hin ]. }
    rewrite Hnone. reflexivity. }
  rewrite E in Hd. subst r.
  cbn [confidence severity detected detection_method fst snd].
  repeat split; try reflexivity.
  assert (Hpos : 0 < threshold).
  { unfold confidence_thresholds in Hth. cbn [lookup] in Hth.
    repeat match type of Hth with
    | (if ?b then _ else _) = _ =>
        destruct b; [ injection Hth as <-; reflexivity | ]
    end. discriminate. }
  destruct (Qle_bool threshold 0) eqn:El; [ | reflexivity ].
  apply Qle_bool_iff in El. exfalso. lra.
Qed.

End UntrainedEngine.

Section RuleLadders.
Import Num Frame ThreatDetectionEngine.

Lemma py_int_monotone (x y : Q) : x <= y -> (py_int x <= py_int y)%Z.
Proof.
  intros H. unfold py_int.
  destruct (Qle_bool 0 x) eqn:Ex; destruct (Qle_bool 0 y) eqn:Ey.
  - apply Qfloor_resp_le, H.
  - apply Qle_bool_iff in Ex. apply Qle_bool_false in Ey. exfalso. lra.
  - apply Qle_bool_false in Ex. apply Qle_bool_iff in Ey.
    apply Z.le_trans with 0%Z.
    + change 0%Z with (Qceiling 0). apply Qceiling_resp_le. lra.
    + change 0%Z with (Qfloor 0). apply Qfloor_resp_le, Ey.
  - apply Qceiling_resp_le, H.
Qed.

Lemma clamp_monotone (a b : Z) : (a <= b)%Z -> (clamp_1_5 a <= clamp_1_5 b)%Z.
Proof. unfold clamp_1_5. lia. Qed.

Lemma capped_monotone (x y k : Q) :
  x <= y -> 0 < k -> Qmin (x / k) 1 <= Qmin (y / k) 1.
Proof.
  intros H Hk. apply Q.min_le_compat_r.
  unfold Qdiv. apply Qmult_le_compat_r; [ exact H | ].
  apply Qlt_le_weak, Qinv_lt_0_compat, Hk.
Qed.

(** X13.  The pollution and erosion rules are monotone: larger readings
    never lower the confidence or the severity. *)
Theorem pollution_and_erosion_monotone (row1 row2 : Row) :
  (row_get "pm25" 0 row1 <= row_get "pm25" 0 row2 ->
   row_get "pm10" 0 row1 <= row_get "pm10" 0 row2 ->
   fst (pollution_rule row1) <= fst (pollution_rule row2)
   /\ (snd (pollution_rule row1) <= snd (pollution_rule row2))%Z)
  /\ (row_get "wave_height" 0 row1 <= row_get "wave_height" 0 row2 ->
      row_get "wind_speed" 0 row1 <= row_get "wind_speed" 0 row2 ->
      fst (erosion_rule row1) <= fst (erosion_rule row2)
      /\ (snd (erosion_rule row1) <= snd (erosion_rule row2))%Z).
Proof.
  split.
  - intros H25 H10. unfold pollution_rule.
    set (a1 := row_get "pm25" 0 row1) in *.
    set (a2 := row_get "pm25" 0 row2) in *.
    set (b1 := row_get "pm10" 0 row1) in *.
    set (b2 := row_get "pm10" 0 row2) in *.
    clearbody a1 a2 b1 b2.
    repeat match goal with
    | |- context [Qlt_bool ?a ?b] =>
        let E := fresh "E" in
        destruct (Qlt_bool a b) eqn:E;
        [ apply Qlt_bool_iff in E | apply Qlt_bool_false in E ]
    end; try (exfalso; lra); cbv beta iota; cbn [fst snd];
      (split; [ vm_compute; discriminate | vm_compute; discriminate ]).
  - intros Hwave Hwind. unfold erosion_rule. cbv zeta. cbn [fst snd].
    pose proof (capped_monotone _ _ 10 Hwave ltac:(reflexivity)) as Ha.
    pose proof (capped_monotone _ _ 100 Hwind ltac:(reflexivity)) as Hb.
    set (a1 := Qmin (row_get "wave_height" 0 row1 / 10) 1) in *.
    set (a2 := Qmin (row_get "wave_height" 0 row2 / 10) 1) in *.
    set (b1 := Qmin (row_get "wind_speed" 0 row1 / 100) 1) in *.
    set (b2 := Qmin (row_get "wind_speed" 0 row2 / 100) 1) in *.
    clearbody a1 a2 b1 b2.
    assert (Hc : a1 * (6 # 10) + b1 * (4 # 10) <= a2 * (6 # 10) + b2 * (4 # 10))
      by lra.
    split; [ exact Hc | ].
    apply clamp_monotone. apply Z.add_le_mono_r. apply py_int_monotone. lra.
Qed.

End RuleLadders.

Section EngineWitnesses.
Import Num Frame ThreatDetectionEngine.

Lemma untrained_dumping_never_detected_witness :
  exists r,
    In r Cases.fog_dumping
    /\ threat_type r = "illegal_dumping"%string
    /\ detected r = false /\ confidence r <= 60 # 100
    /\ detection_method r = "rule_based"%string.
Proof.
  assert (Hc : exists r rest,
             Cases.fog_dumping = r :: rest
             /\ threat_type r = "illegal_dumping"%string).
  { vm_compute. eexists. eexists. split; reflexivity. }
  destruct Hc as [r [rest [E Ht]]]. exists r.
  assert (Hin : In r Cases.fog_dumping) by (rewrite E; left; reflexivity).
  split; [ exact Hin | ]. split; [ exact Ht | ].
  exact (untrained_dumping_never_detected Cases.fog_frame
           (Some ["illegal_dumping"%string]) r Hin Ht).
Defined.

Lemma untrained_pollution_detected_iff_witness :
  exists r,
    Shape.rows_are 1 Cases.fog_frame
    /\ In r Cases.fog_pollution
    /\ threat_type r = "pollution"%string
    /\ (detected r = true <->
        55 < Shape.latest_reading "pm25" 0 Cases.fog_frame
        \/ 150 < Shape.latest_reading "pm10" 0 Cases.fog_frame).
Proof.
  assert (Hc : exists r rest,
             Cases.fog_pollution = r :: rest
             /\ threat_type r = "pollution"%string).
  { vm_compute. eexists. eexists. split; reflexivity. }
  destruct Hc as [r [rest [E Ht]]]. exists r.
  assert (Hin : In r Cases.fog_pollution) by (rewrite E; left; reflexivity).
  assert (Hrows : Shape.rows_are 1 Cases.fog_frame) by (repeat constructor).
  split; [ exact Hrows | ]. split; [ exact Hin | ]. split; [ exact Ht | ].
  exact (untrained_pollution_detected_iff 1 Cases.fog_frame
           (Some ["pollution"%string]) r Hrows Hin Ht).
Defined.

Lemma reported_results_form_witness :
  exists r,
    In r Cases.fog_pollution
    /\ (2 <= List.length (features_used r))%nat
    /\ detected r = Qle_bool (threshold_used r) (ensemble_confidence r).
Proof.
  assert (Hc : exists r rest, Cases.fog_pollution = r :: rest).
  { vm_compute. eexists. eexists. reflexivity. }
  destruct Hc as [r [rest E]]. exists r.
  assert (Hin : In r Cases.fog_pollution) by (rewrite E; left; reflexivity).
  split; [ exact Hin | ].
  pose proof (reported_results_form initialized Cases.fog_frame
                (Some ["pollution"%string]) r Hin) as H.
  split; [ apply H | apply H ].
Defined.

Lemma failed_ensemble_reports_nothing_witness :
  exists r,
    _detect_single_threat Cases.armed_storm "storm" Cases.gale_reading
    = Some r
    /\ confidence r == 0 /\ severity r = 1%Z /\ detected r = false
    /\ detection_method r = "ensemble"%string.
Proof.
  assert (Hc : exists r,
             _detect_single_threat Cases.armed_storm "storm"
               Cases.gale_reading = Some r).
  { vm_compute. eexists. reflexivity. }
  destruct Hc as [r E]. exists r. split; [ exact E | ].
  apply (failed_ensemble_reports_nothing Cases.armed_storm "storm"
           Cases.gale_reading r).
  - reflexivity.
  - intros ms m X Hms Hin. vm_compute in Hms. injection Hms as <-.
    cbn [In] in Hin.
    destruct Hin as [<- | [<- | [<- | [<- | []]]]]; reflexivity.
  - exact E.
Defined.

Lemma pollution_and_erosion_monotone_witness :
  fst (pollution_rule Cases.calm_row) <= fst (pollution_rule Cases.rough_row)
  /\ (snd (erosion_rule Cases.calm_row)
      <= snd (erosion_rule Cases.rough_row))%Z.
Proof.
  pose proof (pollution_and_erosion_monotone Cases.calm_row Cases.rough_row)
    as [Hp He].
  split.
  - apply Hp; vm_compute; discriminate.
  - apply He; vm_compute; discriminate.
Defined.

End EngineWitnesses.

(* ================================================================== *)
(** * Further properties of the threat predictor                       *)
(* ================================================================== *)

Section SeverityLadder.
Import Num Frame ThreatPredictor.

Lemma last_at_or_above_monotone (ths : list Q) :
  forall i s s' v v',
    v <= v' -> (s <= s')%Z -> (s' <= i + 1)%Z ->
    (last_at_or_above ths i s v <= last_at_or_above ths i s' v')%Z.
Proof.
  induction ths as [ | t rest IH ]; intros i s s' v v' Hv Hs Hi; simpl;
    [ exact Hs | ].
  apply IH; [ exact Hv | | ].
  - destruct (Qle_bool t v) eqn:E; destruct (Qle_bool t v') eqn:E'; try lia.
    apply Qle_bool_iff in E.
    assert (Qle_bool t v' = true)
      by (apply Qle_bool_iff; eapply Qle_trans; eauto).
    congruence.
  - destruct (Qle_bool t v'); lia.
Qed.

(** X14.  For every parameter but pressure and visibility, a larger value
    never gets a smaller severity from [_assess_threat_severity]. *)
Theorem ascending_severity_monotone (parameter : string) (v v' : Q) :
  parameter <> "pressure"%string -> parameter <> "visibility"%string ->
  v <= v' ->
  (_assess_threat_severity parameter v
   <= _assess_threat_severity parameter v')%Z.
Proof.
  intros Hp Hv Hle. unfold _assess_threat_severity.
  destruct (lookup parameter risk_thresholds) as [ths | ]; [ | lia ].
  apply String.eqb_neq in Hp, Hv. rewrite Hp, Hv. cbn [orb].
  apply Z.min_le_compat_r.
  apply last_at_or_above_monotone; [ exact Hle | lia | lia ].
Qed.

Lemma ascending_severity_monotone_witness :
  (_assess_threat_severity "wind_speed" 50
   <= _assess_threat_severity "wind_speed" 100)%Z.
Proof.
  apply ascending_severity_monotone; discriminate.
Defined.

End SeverityLadder.

Section Examples.
Import Num Frame ThreatPredictor.

Variable series_std : list Q -> Q.

Lemma length_slice (a b : nat) (values : list Q) :
  (a <= b)%nat -> (b <= List.length values)%nat ->
  List.length (slice a b values) = (b - a)%nat.
Proof.
  intros Hab Hb. unfold slice. rewrite length_firstn, length_skipn. lia.
Qed.

Lemma window_size_bounds (values : list Q) :
  (3 <= window_size values <= 24)%nat.
Proof. unfold window_size. lia. Qed.

(** X15.  [_create_time_series_features] builds
    [len(values) - max_forecast_hour - w] examples with a window [w]
    between 3 and 24; every example has [w + 6] features, starts with the
    [w] values of its window, and is labelled with the value
    [max_forecast_hour] steps after the window. *)
Theorem time_series_examples_shape (values : list Q) (max_forecast_hour : nat) :
  let w := window_size values in
  let X := fst (_create_time_series_features series_std values
                  max_forecast_hour) in
  let y := snd (_create_time_series_features series_std values
                  max_forecast_hour) in
  (3 <= w <= 24)%nat
  /\ List.length X = (List.length values - max_forecast_hour - w)%nat
  /\ List.length y = List.length X
  /\ Forall (fun features => List.length features = (w + 6)%nat) X
  /\ forall j, (j < List.length X)%nat ->
       firstn w (nth j X []) = slice j (j + w) values
       /\ nth j y 0 = nth (j + w + max_forecast_hour) values 0.
Proof.
  cbv zeta. unfold _create_time_series_features. cbv zeta. cbn [fst snd].
  set (w := window_size values).
  set (n := (List.length values - max_forecast_hour - w)%nat).
  split; [ apply window_size_bounds | ].
  split; [ rewrite length_map, length_seq; reflexivity | ].
  split; [ rewrite !length_map; reflexivity | ].
  split.
  - apply Forall_forall. intros features Hin. apply in_map_iff in Hin.
    destruct Hin as [i [<- Hi]]. apply in_seq in Hi.
    unfold window_features. rewrite length_app, length_slice by lia.
    simpl. lia.
  - intros j Hj. rewrite length_map, length_seq in Hj. fold n in Hj.
    split.
    + rewrite nth_indep with (d' := window_features series_std (slice (0 - w) 0 values))
        by (rewrite length_map, length_seq; exact Hj).
      rewrite (map_nth (fun i => window_features series_std (slice (i - w) i values))).
      rewrite seq_nth by exact Hj.
      unfold window_features.
      replace (w + j - w)%nat with j by lia.
      replace (w + j)%nat with (j + w)%nat by lia.
      rewrite firstn_app.
      assert (Hl : List.length (slice j (j + w) values) = w)
        by (rewrite length_slice; unfold n in Hj; lia).
      rewrite Hl, Nat.sub_diag. cbn [firstn]. rewrite app_nil_r.
      rewrite <- Hl at 1. apply firstn_all.
    + rewrite nth_indep with (d' := nth (0 + max_forecast_hour) values 0)
        by (rewrite length_map, length_seq; exact Hj).
      rewrite (map_nth (fun i => nth (i + max_forecast_hour) values 0)).
      rewrite seq_nth by exact Hj. f_equal. lia.
Qed.

End Examples.

Section AlertsComplete.
Import Num Frame ThreatPredictor.

Lemma alerts_complete (parameter : string) (hours : list nat) :
  forall (preds : list Q) (intervals : list (Q * Q)) (i : nat) (hour : nat)
         (value : Q),
    nth_error hours i = Some hour ->
    nth_error preds i = Some value ->
    (3 <= _assess_threat_severity parameter value)%Z ->
    exists a,
      In a (parameter_alerts parameter hours preds intervals)
      /\ alert_parameter a = parameter
      /\ alert_forecast_hour a = hour
      /\ alert_predicted_value a = value
      /\ alert_severity a = _assess_threat_severity parameter value.
Proof.
  induction hours as [ | h hours' IH ]; intros preds intervals i hour value
    Hh Hv Hs.
  - destruct i; discriminate.
  - destruct preds as [ | p preds' ]; [ destruct i; discriminate | ].
    cbn [parameter_alerts].
    destruct i as [ | i ].
    + injection Hh as <-. injection Hv as <-.
      apply Z.leb_le in Hs. rewrite Hs.
      eexists. split; [ left; reflexivity | ]. cbn. auto.
    + cbn [nth_error] in Hh, Hv.
      destruct (IH preds' (tl intervals) i hour value Hh Hv Hs)
        as [a [Ha Hrest]].
      exists a. split; [ | exact Hrest ].
      destruct (3 <=? _assess_threat_severity parameter p)%Z;
        [ right; exact Ha | exact Ha ].
Qed.

End AlertsComplete.

Section Training.
Import Num Frame ThreatPredictor.

Context {Estimator : Type}.
Variable fit_evaluate :
  Estimator -> list (list Q) -> list Q -> list (list Q) -> list Q ->
  Estimator * option Metrics.
Variable predict_one : Estimator -> list Q -> option Q.
Variable train_test_split :
  list (list Q) -> list Q ->
  list (list Q) * list (list Q) * list Q * list Q.
Variable standard_scale : list (list Q) -> list (list Q) -> list (list Q).
Variable series_std : list Q -> Q.
Variable np_std : list Q -> Q.
Context {Reading : Type}.
Variable pandas_frame : list Reading -> option DataFrame.

Lemma key_eqb_eq (a b : Key) : key_eqb a b = true <-> a = b.
Proof.
  destruct a as [pa ha], b as [pb hb]. unfold key_eqb. simpl.
  rewrite andb_true_iff, String.eqb_eq, Nat.eqb_eq.
  split; [ intros [-> ->]; reflexivity | intros E; injection E; auto ].
Qed.

Lemma key_eqb_sym (a b : Key) : key_eqb a b = key_eqb b a.
Proof.
  unfold key_eqb. rewrite String.eqb_sym, Nat.eqb_sym. reflexivity.
Qed.

Lemma kget_kset_other {A : Type} (k k' : Key) (v : A) (d : list (Key * A)) :
  k' <> k -> kget k' (kset k v d) = kget k' d.
Proof.
  intros Hne. induction d as [ | [k0 v0] t IH ]; simpl.
  - destruct (key_eqb k' k) eqn:E; [ | reflexivity ].
    apply key_eqb_eq in E. contradiction.
  - destruct (key_eqb k k0) eqn:E; simpl.
    + apply key_eqb_eq in E. subst k0.
      destruct (key_eqb k' k) eqn:E'; [ | reflexivity ].
      apply key_eqb_eq in E'. contradiction.
    + rewrite IH. reflexivity.
Qed.

Lemma kget_kset_same {A : Type} (k : Key) (v : A) (d : list (Key * A)) :
  kget k (kset k v d) = Some v.
Proof.
  assert (Hr : key_eqb k k = true) by (apply key_eqb_eq; reflexivity).
  induction d as [ | [k0 v0] t IH ]; simpl.
  - rewrite Hr. reflexivity.
  - destruct (key_eqb k k0) eqn:E; simpl; rewrite ?Hr, ?E; auto.
Qed.

(** X16.  [_train_parameter_models] touches the entries of its own
    parameter and horizon only; a successful run sets their trained flag,
    and with fewer than ten examples the predictor is left as it was. *)
Theorem training_is_local (st : Predictor Estimator) (parameter : string)
  (X : list (list Q)) (y : list Q) (forecast_hour : nat) (other : Key) :
  other <> (parameter, forecast_hour) ->
  let run := _train_parameter_models Estimator fit_evaluate train_test_split
               standard_scale st parameter X y forecast_hour in
  kget other (models Estimator (snd run)) = kget other (models Estimator st)
  /\ kget other (is_trained Estimator (snd run))
     = kget other (is_trained Estimator st)
  /\ kget other (performance Estimator (snd run))
     = kget other (performance Estimator st)
  /\ kget other (scalers Estimator (snd run))
     = kget other (scalers Estimator st)
  /\ (fst run = true ->
      kget (parameter, forecast_hour) (is_trained Estimator (snd run))
      = Some true)
  /\ ((List.length X < 10)%nat -> run = (false, st)).
Proof.
  intros Hne. cbv zeta. unfold _train_parameter_models.
  destruct (List.length X <? 10)%nat eqn:El.
  { repeat split; try reflexivity. discriminate. }
  apply Nat.ltb_ge in El.
  destruct (train_test_split X y) as [[[X_train X_test] y_train] y_test].
  destruct (kget (parameter, forecast_hour) (scalers Estimator st));
    [ | repeat split; try reflexivity; try discriminate; lia ].
  destruct (kget (parameter, forecast_hour) (models Estimator st))
    as [ensemble | ];
    [ | repeat split; try reflexivity; try discriminate; lia ].
  destruct (filter_map _ _) as [ | m ms ]; cbn [fst snd models is_trained
    performance scalers];
    rewrite ?kget_kset_other by exact Hne;
    repeat split; try reflexivity; try discriminate; try lia.
  intros _. apply kget_kset_same.
Qed.


Lemma length_predict_horizons (hours : list nat) :
  forall st parameter values X y,
    List.length
      (fst (predict_horizons Estimator fit_evaluate predict_one
              train_test_split standard_scale np_std
              st parameter values X y hours))
    = List.length hours.
Proof.
  induction hours as [ | h rest IH ]; intros st parameter values X y;
    [ reflexivity | ].
  cbn [predict_horizons].
  destruct (predict_horizon _ _ _ _ _ _ st parameter values X y h) as [p st1].
  specialize (IH st1 parameter values X y).
  destruct (predict_horizons _ _ _ _ _ _ st1 parameter values X y rest)
    as [ps st2].
  simpl in *. rewrite IH. reflexivity.
Qed.

Lemma predict_parameters_invariant (P : Accumulated -> Prop)
  (df : DataFrame) (hours : list nat) (all : list string) :
  (forall st parameter column acc preds intervals trend risk st1,
     In parameter all -> get_column parameter df = Some column ->
     _predict_parameter Estimator fit_evaluate predict_one train_test_split
       standard_scale series_std np_std st column parameter hours
     = ((preds, intervals, trend, risk), st1) ->
     P acc ->
     P {| acc_predictions := acc_predictions acc ++ [(parameter, preds)];
          acc_intervals := acc_intervals acc ++ [(parameter, intervals)];
          acc_trends := acc_trends acc ++ [(parameter, trend)];
          acc_risks := acc_risks acc ++ [(parameter, risk)];
          acc_alerts :=
            acc_alerts acc
            ++ parameter_alerts parameter hours preds intervals |}) ->
  forall parameters st acc,
    incl parameters all -> P acc ->
    P (fst (predict_parameters Estimator fit_evaluate predict_one
              train_test_split standard_scale series_std np_std
              st df parameters hours acc)).
Proof.
  intros Hstep.
  induction parameters as [ | parameter rest IH ]; intros st acc Hincl Hacc.
  - exact Hacc.
  - cbn [predict_parameters].
    assert (Hrest : incl rest all)
      by (intros x Hx; apply Hincl; right; exact Hx).
    destruct (get_column parameter df) as [column | ] eqn:Ec;
      [ | apply IH; assumption ].
    destruct (_predict_parameter _ _ _ _ _ _ _ st column parameter hours)
      as [[[[preds intervals] trend] risk] st1] eqn:Ep.
    apply IH; [ assumption | ].
    eapply Hstep; eauto. apply Hincl. left. reflexivity.
Qed.

Lemma predict_parameter_lengths st column parameter hours :
  let out := fst (_predict_parameter Estimator fit_evaluate predict_one
                    train_test_split standard_scale series_std np_std
                    st column parameter hours) in
  let preds := fst (fst (fst out)) in
  let intervals := snd (fst (fst out)) in
  List.length intervals = List.length preds
  /\ (preds = [] \/ List.length preds = List.length hours).
Proof.
  cbv zeta. unfold _predict_parameter.
  destruct (_ <? 10)%nat; [ simpl; auto | ].
  destruct hours as [ | h0 hs ]; [ simpl; auto | ].
  destruct (_create_time_series_features _ _ _) as [X y].
  destruct X as [ | x0 xs ]; [ simpl; auto | ].
  pose proof (length_predict_horizons (h0 :: hs) st parameter (dropna column)
                (x0 :: xs) y) as Hl.
  destruct (predict_horizons _ _ _ _ _ _ st parameter (dropna column)
              (x0 :: xs) y (h0 :: hs)) as [ps st1].
  cbn [fst snd] in *. rewrite !length_map. auto.
Qed.


(** X17.  In the result of [predict_threats] the predictions, confidence
    intervals, trends and risks are listed for the same parameters, each a
    prediction parameter that is a column of the data; a parameter has no
    prediction or one per forecast hour, and as many intervals. *)
Theorem forecast_tables_aligned st data hours_arg :
  let r := fst (predict_threats Estimator fit_evaluate predict_one
                  train_test_split standard_scale series_std np_std
                  Reading pandas_frame st data hours_arg) in
  map fst (confidence_intervals r) = map fst (predictions r)
  /\ map fst (trend_analysis r) = map fst (predictions r)
  /\ map fst (risk_assessment r) = map fst (predictions r)
  /\ Forall (fun p =>
               In (fst p) prediction_parameters
               /\ has_column (fst p)
                    (_prepare_features Reading pandas_frame data) = true
               /\ (snd p = []
                   \/ List.length (snd p) = List.length (forecast_hours r)))
       (predictions r)
  /\ Forall2 (fun p i => List.length (snd i) = List.length (snd p))
       (predictions r) (confidence_intervals r).
Proof.
  cbv zeta. unfold predict_threats.
  set (df := _prepare_features Reading pandas_frame data).
  set (hours := match hours_arg with
                | Some (h :: hs) => h :: hs
                | _ => forecast_horizons
                end).
  destruct (empty df || (nrows df <? min_data_points)%nat)%bool.
  { cbn. repeat split; constructor. }
  set (acc0 := {| acc_predictions := []; acc_intervals := [];
                  acc_trends := []; acc_risks := []; acc_alerts := [] |}).
  pose (P := fun acc : Accumulated =>
    map fst (acc_intervals acc) = map fst (acc_predictions acc)
    /\ map fst (acc_trends acc) = map fst (acc_predictions acc)
    /\ map fst (acc_risks acc) = map fst (acc_predictions acc)
    /\ Forall (fun p =>
                 In (fst p) prediction_parameters
                 /\ has_column (fst p) df = true
                 /\ (snd p = []
                     \/ List.length (snd p) = List.length hours))
         (acc_predictions acc)
    /\ Forall2 (fun p i => List.length (snd i) = List.length (snd p))
         (acc_predictions acc) (acc_intervals acc)).
  assert (H : P (fst (predict_parameters Estimator fit_evaluate predict_one
                        train_test_split standard_scale series_std np_std
                        st df prediction_parameters hours acc0))).
  { apply (predict_parameters_invariant P df hours prediction_parameters).
    - intros st0 parameter column acc preds intervals trend risk st1
        Hin Hcol Hrun [H1 [H2 [H3 [H4 H5]]]].
      pose proof (predict_parameter_lengths st0 column parameter hours) as Hl.
      rewrite Hrun in Hl. cbv zeta in Hl. cbn [fst snd] in Hl.
      destruct Hl as [Hl1 Hl2].
      unfold P. cbn [acc_predictions acc_intervals acc_trends acc_risks].
      rewrite !map_app, H1, H2, H3. cbn [map fst].
      repeat split; try reflexivity.
      + apply Forall_app. split; [ exact H4 | ].
        constructor; [ | constructor ]. cbn [fst snd].
        repeat split; [ exact Hin | | exact Hl2 ].
        apply has_column_lookup. eauto.
      + apply Forall2_app; [ exact H5 | ].
        constructor; [ exact Hl1 | constructor ].
    - apply incl_refl.
    - unfold P, acc0. cbn. repeat split; constructor. }
  destruct (predict_parameters _ _ _ _ _ _ _ st df prediction_parameters
              hours acc0) as [acc st1].
  cbn [fst snd predictions confidence_intervals trend_analysis
       risk_assessment forecast_hours] in *.
  exact H.
Qed.

(** X18.  Every predicted value of severity 3 or more is among the alerts
    of [predict_threats], with its parameter, forecast hour and
    severity. *)
Theorem severe_forecasts_alerted st data hours_arg parameter preds i hour
  value :
  let r := fst (predict_threats Estimator fit_evaluate predict_one
                  train_test_split standard_scale series_std np_std
                  Reading pandas_frame st data hours_arg) in
  In (parameter, preds) (predictions r) ->
  nth_error (forecast_hours r) i = Some hour ->
  nth_error preds i = Some value ->
  (3 <= _assess_threat_severity parameter value)%Z ->
  exists a,
    In a (alerts_predicted r)
    /\ alert_parameter a = parameter
    /\ alert_forecast_hour a = hour
    /\ alert_predicted_value a = value
    /\ alert_severity a = _assess_threat_severity parameter value.
Proof.
  cbv zeta. unfold predict_threats.
  set (df := _prepare_features Reading pandas_frame data).
  set (hours := match hours_arg with
                | Some (h :: hs) => h :: hs
                | _ => forecast_horizons
                end).
  destruct (empty df || (nrows df <? min_data_points)%nat)%bool.
  { cbn. tauto. }
  set (acc0 := {| acc_predictions := []; acc_intervals := [];
                  acc_trends := []; acc_risks := []; acc_alerts := [] |}).
  pose (P := fun acc : Accumulated =>
    forall parameter preds i hour value,
      In (parameter, preds) (acc_predictions acc) ->
      nth_error hours i = Some hour ->
      nth_error preds i = Some value ->
      (3 <= _assess_threat_severity parameter value)%Z ->
      exists a,
        In a (acc_alerts acc)
        /\ alert_parameter a = parameter
        /\ alert_forecast_hour a = hour
        /\ alert_predicted_value a = value
        /\ alert_severity a = _assess_threat_severity parameter value).
  assert (H : P (fst (predict_parameters Estimator fit_evaluate predict_one
                        train_test_split standard_scale series_std np_std
                        st df prediction_parameters hours acc0))).
  { apply (predict_parameters_invariant P df hours prediction_parameters).
    - intros st0 p column acc ps intervals trend risk st1
        Hin Hcol Hrun Hacc p' ps' i' h' v' Hp Hh Hv Hs.
      cbn [acc_predictions acc_alerts] in *.
      apply in_app_or in Hp. destruct Hp as [Hp | [Hp | []]].
      + destruct (Hacc p' ps' i' h' v' Hp Hh Hv Hs) as [a [Ha Hrest]].
        exists a. split; [ apply in_or_app; left; exact Ha | exact Hrest ].
      + injection Hp as <- <-.
        destruct (alerts_complete p hours ps intervals i' h' v' Hh Hv Hs)
          as [a [Ha Hrest]].
        exists a. split; [ apply in_or_app; right; exact Ha | exact Hrest ].
    - apply incl_refl.
    - unfold P, acc0. cbn. tauto. }
  destruct (predict_parameters _ _ _ _ _ _ _ st df prediction_parameters
              hours acc0) as [acc st1].
  cbn [fst snd predictions alerts_predicted forecast_hours] in *.
  apply H.
Qed.

End Training.

Section ForecastWitnesses.
Import Num Frame ThreatPredictor.

Lemma training_is_local_witness :
  ("temperature"%string, 4%nat) <> ("temperature"%string, 2%nat)
  /\ fst Cases.ramp_training = true
  /\ kget ("temperature"%string, 4%nat)
       (is_trained Scenario.Spy (snd Cases.ramp_training))
     = Some false
  /\ kget ("temperature"%string, 2%nat)
       (is_trained Scenario.Spy (snd Cases.ramp_training))
     = Some true.
Proof.
  assert (Hne : ("temperature"%string, 4%nat) <> ("temperature"%string, 2%nat))
    by discriminate.
  assert (Hrun : fst Cases.ramp_training = true) by (vm_compute; reflexivity).
  pose proof (training_is_local Scenario.spy_fit Scenario.keep_all
                Scenario.no_scaling Scenario.spy_predictor "temperature"
                (fst Cases.ramp_examples) (snd Cases.ramp_examples) 2
                ("temperature"%string, 4%nat) Hne) as H.
  cbv zeta in H. destruct H as [_ [H2 [_ [_ [H5 _]]]]].
  split; [ exact Hne | ]. split; [ exact Hrun | ].
  split; [ | exact (H5 Hrun) ].
  unfold Cases.ramp_training. rewrite H2. reflexivity.
Defined.

Lemma severe_forecasts_alerted_witness :
  exists preds value a,
    In ("wind_speed"%string, preds) (predictions (fst Scenario.gale_run))
    /\ nth_error preds 0 = Some value
    /\ In a (alerts_predicted (fst Scenario.gale_run))
    /\ alert_forecast_hour a = 2%nat
    /\ alert_severity a = 5%Z.
Proof.
  assert (Hc : exists first value rest,
             predictions (fst Scenario.gale_run)
             = [ first; ("wind_speed"%string, value :: rest) ]
             /\ _assess_threat_severity "wind_speed" value = 5%Z).
  { vm_compute. eexists. eexists. eexists. split; reflexivity. }
  destruct Hc as [first [value [rest [E Hs]]]].
  assert (Hin : In ("wind_speed"%string, value :: rest)
                  (predictions (fst Scenario.gale_run)))
    by (rewrite E; right; left; reflexivity).
  destruct (severe_forecasts_alerted Scenario.spy_fit Scenario.spy_predict
              Scenario.keep_all Scenario.no_scaling Scenario.zero_deviation
              Scenario.zero_deviation Scenario.gale_frame
              (fresh Scenario.Spy) (repeat tt 60) None
              "wind_speed" (value :: rest) 0 2 value Hin
              eq_refl eq_refl ltac:(rewrite Hs; lia))
    as [a [Ha [_ [Hh [_ Hsev]]]]].
  exists (value :: rest), value, a.
  split; [ exact Hin | ]. split; [ reflexivity | ].
  split; [ exact Ha | ]. split; [ exact Hh | ].
  rewrite Hsev. exact Hs.
Defined.

End ForecastWitnesses.

Section TrendLabels.
Import Num Frame ThreatPredictor.

(** The relative change in percent against a bound, without the
    division. *)
Lemma change_below (f c k : Q) :
  0 < c -> ((f - c) / c * 100 < k <-> (f - c) * 100 < k * c).
Proof.
  intros Hc. rewrite <- (Qmult_lt_r _ _ c Hc).
  assert (E : (f - c) / c * 100 * c == (f - c) * 100) by (field; lra).
  rewrite E. reflexivity.
Qed.

Lemma change_above (f c k : Q) :
  0 < c -> (k < (f - c) / c * 100 <-> k * c < (f - c) * 100).
Proof.
  intros Hc. rewrite <- (Qmult_lt_r _ _ c Hc).
  assert (E : (f - c) / c * 100 * c == (f - c) * 100) by (field; lra).
  rewrite E. reflexivity.
Qed.

Lemma change_of_negative (f c : Q) :
  c < 0 -> (f - c) / c * 100 == ((- f) - (- c)) / (- c) * 100.
Proof. intros Hc. field; repeat split; lra. Qed.

Lemma trend_by_change (historical_values preds : list Q) :
  historical_values <> [] -> preds <> [] ->
  ~ last historical_values 0 == 0 ->
  let change :=
    (last preds 0 - last historical_values 0) / last historical_values 0
    * 100 in
  (_analyze_trend historical_values preds = "stable"%string
   <-> - (5) < change < 5)
  /\ (_analyze_trend historical_values preds = "increasing"%string
      <-> 5 <= change)
  /\ (_analyze_trend historical_values preds = "decreasing"%string
      <-> change <= - (5)).
Proof.
  intros Hh Hp Hc. cbv zeta. unfold _analyze_trend.
  destruct preds as [ | p ps ]; [ congruence | ].
  destruct historical_values as [ | v vs ]; [ congruence | ].
  set (c := last (v :: vs) 0) in *. set (f := last (p :: ps) 0).
  destruct (Qeq_bool c 0) eqn:E0; [ apply Qeq_bool_iff in E0; tauto | ].
  set (change := (f - c) / c * 100). clearbody change.
  destruct (Qlt_bool (Qabs change) 5) eqn:Ea.
  - apply Qlt_bool_iff in Ea. apply Qabs_Qlt_condition in Ea.
    repeat split; try discriminate; try tauto; intros H; exfalso; lra.
  - apply Qlt_bool_false in Ea.
    assert (Hout : change <= - (5) \/ 5 <= change).
    { destruct (Qlt_le_dec (- (5)) change) as [H1 | H1]; [ | auto ].
      destruct (Qlt_le_dec change 5) as [H2 | H2]; [ | auto ].
      exfalso. apply (Qlt_irrefl 5). eapply Qle_lt_trans; [ exact Ea | ].
      apply Qabs_Qlt_condition. split; assumption. }
    destruct (Qlt_bool 0 change) eqn:Eb;
      [ apply Qlt_bool_iff in Eb | apply Qlt_bool_false in Eb ];
      repeat split; try discriminate; try reflexivity; intros H;
      try (exfalso; lra); lra.
Qed.

Lemma change_cases (f c : Q) :
  0 < c ->
  let change := (f - c) / c * 100 in
  ((- (5) < change < 5) <-> (95 # 100) * c < f < (105 # 100) * c)
  /\ (5 <= change <-> (105 # 100) * c <= f)
  /\ (change <= - (5) <-> f <= (95 # 100) * c).
Proof.
  intros Hc. cbv zeta.
  pose proof (change_below f c 5 Hc) as B5.
  pose proof (change_above f c (- (5)) Hc) as A5.
  set (change := (f - c) / c * 100) in *. clearbody change.
  assert (F5 : (change < 5 /\ (f - c) * 100 < 5 * c)
               \/ (5 <= change /\ 5 * c <= (f - c) * 100)).
  { destruct (Qlt_le_dec change 5) as [H | H].
    - left. split; [ exact H | apply B5, H ].
    - right. split; [ exact H | ].
      apply Qnot_lt_le. intros X. apply B5 in X. lra. }
  assert (Fm : (- (5) < change /\ - (5) * c < (f - c) * 100)
               \/ (change <= - (5) /\ (f - c) * 100 <= - (5) * c)).
  { destruct (Qlt_le_dec (- (5)) change) as [H | H].
    - left. split; [ exact H | apply A5, H ].
    - right. split; [ exact H | ].
      apply Qnot_lt_le. intros X. apply A5 in X. lra. }
  clear B5 A5.
  destruct F5 as [[F1 F2] | [F1 F2]]; destruct Fm as [[G1 G2] | [G1 G2]];
    (split; [ | split ]); split; intros H; try (destruct H as [Ha Hb]);
    try split; lra.
Qed.

(** X20.  The label of [_analyze_trend] by the last reading and the last
    forecast.  Above a positive reading: stable within 5 percent of it,
    increasing from 105 percent of it, decreasing up to 95 percent.  Against
    a negative reading the relative change has the opposite sign, and so
    have the labels. *)
Theorem trend_labels (historical_values preds : list Q) :
  historical_values <> [] -> preds <> [] ->
  let current := last historical_values 0 in
  let future := last preds 0 in
  let trend := _analyze_trend historical_values preds in
  (0 < current ->
   (trend = "stable"%string
    <-> (95 # 100) * current < future < (105 # 100) * current)
   /\ (trend = "increasing"%string <-> (105 # 100) * current <= future)
   /\ (trend = "decreasing"%string <-> future <= (95 # 100) * current))
  /\ (current < 0 ->
      (trend = "stable"%string
       <-> (105 # 100) * current < future < (95 # 100) * current)
      /\ (trend = "increasing"%string <-> future <= (105 # 100) * current)
      /\ (trend = "decreasing"%string <-> (95 # 100) * current <= future)).
Proof.
  intros Hh Hp. cbv zeta.
  set (c := last historical_values 0). set (f := last preds 0).
  split; intros Hc.
  - assert (Hne : ~ c == 0) by lra.
    destruct (trend_by_change historical_values preds Hh Hp Hne)
      as [Hs [Hi Hd]].
    fold c f in Hs, Hi, Hd. rewrite Hs, Hi, Hd.
    apply change_cases, Hc.
  - assert (Hne : ~ c == 0) by lra.
    destruct (trend_by_change historical_values preds Hh Hp Hne)
      as [Hs [Hi Hd]].
    fold c f in Hs, Hi, Hd. rewrite Hs, Hi, Hd.
    assert (Hn : 0 < - c) by lra.
    pose proof (change_cases (- f) (- c) Hn) as H. cbv zeta in H.
    rewrite <- (change_of_negative f c Hc) in H.
    set (change := (f - c) / c * 100) in *. clearbody change.
    destruct H as [[H1 H2] [[H3 H4] [H5 H6]]].
    (split; [ | split ]); split; intros H.
    + destruct (H1 H). split; lra.
    + apply H2. destruct H. split; lra.
    + pose proof (H3 H). lra.
    + apply H4. lra.
    + pose proof (H5 H). lra.
    + apply H6. lra.
Qed.

End TrendLabels.

Lemma trend_labels_witness :
  ThreatPredictor._analyze_trend [100] [110] = "increasing"%string
  /\ ThreatPredictor._analyze_trend [- (5)] [- (2)] = "decreasing"%string.
Proof.
  split.
  - apply (proj1 (trend_labels [100] [110] ltac:(discriminate)
                    ltac:(discriminate))); [ reflexivity | ].
    vm_compute. discriminate.
  - apply (proj2 (trend_labels [- (5)] [- (2)] ltac:(discriminate)
                    ltac:(discriminate))); [ reflexivity | ].
    vm_compute. discriminate.
Defined.

(* ================================================================== *)
(** * Further properties of the anomaly detector and of the package    *)
(* ================================================================== *)

Section AnomalyFlags.
Import Num Frame AnomalyDetector.

Context {Detector : Type}.
Variable fit_detector : string -> Detector -> list (list Q) -> Detector * bool.
Variable outlier_mask : string -> Detector -> list (list Q) -> option (list bool).
Variable robust_fit : DataFrame -> option Scaler.
Variable series_std : list Q -> Q.
Context {Reading : Type}.
Variable pandas_numeric_frame : list Reading -> option DataFrame.

Lemma round4_at_least (a : Z) (x : Q) :
  inject_Z a <= x * 10000 -> x <= 1 ->
  inject_Z a / 10000 <= round4 x.
Proof.
  intros Ha Hx. unfold round4.
  assert (Hb : x * 10000 <= inject_Z 10000).
  { change (inject_Z 10000) with 10000. lra. }
  destruct (py_round_between a 10000 (x * 10000) Ha Hb) as [H _].
  rewrite Zle_Qle in H.
  unfold Qdiv. apply Qmult_le_compat_r; [ exact H | discriminate ].
Qed.

Lemma severity_two (score : Q) :
  (2 <= _calculate_severity score)%Z -> 6 # 10 <= score.
Proof.
  unfold _calculate_severity. qcases; intros H; try lra; lia.
Qed.

Lemma empty_result_flags (message : string) :
  let r := _create_empty_result message in
  ((2 <= severity r)%Z -> is_anomaly r = true)
  /\ (is_anomaly r = true -> 3 # 10 <= confidence r)
  /\ (error r <> None ->
      is_anomaly r = false /\ severity r = 1%Z /\ anomaly_score r = 0
      /\ affected_parameters r = []).
Proof.
  cbn. repeat split; try discriminate; try lia.
Qed.

Lemma statistical_flags (df : DataFrame) :
  let r := _statistical_anomaly_detection df in
  ((2 <= severity r)%Z -> is_anomaly r = true)
  /\ (is_anomaly r = true -> 3 # 10 <= confidence r)
  /\ (error r <> None ->
      is_anomaly r = false /\ severity r = 1%Z /\ anomaly_score r = 0
      /\ affected_parameters r = []).
Proof.
  cbv zeta. unfold _statistical_anomaly_detection.
  cbn [severity is_anomaly confidence error anomaly_score
       affected_parameters].
  set (s := overall_of _). clearbody s.
  split; [ | split ].
  - intros H. apply severity_two in H. apply Qlt_bool_iff. lra.
  - intros H. apply Qlt_bool_iff in H.
    apply Qle_trans with (inject_Z 3000 / 10000);
      [ vm_compute; discriminate | ].
    apply (round4_at_least 3000); [ | apply Q.le_min_r ].
    change (inject_Z 3000) with 3000.
    assert (1 <= Qmin (s * 2) 1) by (apply Q.min_glb; lra). lra.
  - intros H. congruence.
Qed.

Lemma ml_flags st current_data historical_data :
  let r := fst (_ml_anomaly_detection Detector fit_detector outlier_mask
                  robust_fit series_std Reading pandas_numeric_frame
                  st current_data historical_data) in
  ((2 <= severity r)%Z -> is_anomaly r = true)
  /\ (is_anomaly r = true -> 3 # 10 <= confidence r)
  /\ (error r <> None ->
      is_anomaly r = false /\ severity r = 1%Z /\ anomaly_score r = 0
      /\ affected_parameters r = []).
Proof.
  unfold _ml_anomaly_detection.
  match goal with
  | |- context [robust _ ?s] => generalize s
  end.
  intros st1.
  destruct current_data as [ | c0 cs ]; [ apply empty_result_flags | ].
  destruct (robust _ st1) as [scaler | ]; [ | apply empty_result_flags ].
  destruct (scaler _) as [X_scaled | ]; [ | apply empty_result_flags ].
  destruct (model_ratios _ _ _ _) as [ | r0 rs ] eqn:E;
    [ apply empty_result_flags | ].
  cbv zeta. cbn [fst severity is_anomaly confidence error anomaly_score
                 affected_parameters].
  set (s := np_mean _). clearbody s.
  split; [ | split ].
  - intros H. apply severity_two in H. apply Qlt_bool_iff. lra.
  - intros H. apply Qlt_bool_iff in H.
    apply Qle_trans with (inject_Z 3000 / 10000);
      [ vm_compute; discriminate | ].
    apply (round4_at_least 3000); [ | apply Q.le_min_r ].
    change (inject_Z 3000) with 3000.
    assert (3 # 10 <= Qmin (s * 3) 1) by (apply Q.min_glb; lra). lra.
  - intros H. congruence.
Qed.

(** X21.  The flags of a result of [detect_anomalies] agree: a severity
    of 2 or more comes with [is_anomaly], [is_anomaly] comes with a
    confidence of 0.3 or more, and a result that carries an error message
    is the empty one (no anomaly, severity 1, score 0, nothing
    affected). *)
Theorem anomaly_flags_consistent st current_data historical_data :
  let r := fst (detect_anomalies Detector fit_detector outlier_mask
                  robust_fit series_std Reading pandas_numeric_frame
                  st current_data historical_data) in
  ((2 <= severity r)%Z -> is_anomaly r = true)
  /\ (is_anomaly r = true -> 3 # 10 <= confidence r)
  /\ (error r <> None ->
      is_anomaly r = false /\ severity r = 1%Z /\ anomaly_score r = 0
      /\ affected_parameters r = []).
Proof.
  unfold detect_anomalies.
  destruct (empty _); [ apply empty_result_flags | ].
  destruct historical_data as [ [ | h hs ] | ];
    destruct (is_trained _ st);
    try apply ml_flags; try apply empty_result_flags.
  apply statistical_flags.
Qed.


(** X22.  [detect_anomalies] leaves the detector as it was when it is
    trained already, or when no history (or an empty one) is handed
    over: training runs on an untrained detector with history only. *)
Theorem detector_left_unchanged st current_data historical_data :
  is_trained Detector st = true \/ historical_data = None
  \/ historical_data = Some [] ->
  snd (detect_anomalies Detector fit_detector outlier_mask robust_fit
         series_std Reading pandas_numeric_frame
         st current_data historical_data) = st.
Proof.
  intros H. unfold detect_anomalies.
  destruct (empty _); [ reflexivity | ].
  assert (Hml : forall df,
            snd (_ml_anomaly_detection Detector fit_detector outlier_mask
                   robust_fit series_std Reading pandas_numeric_frame
                   st df historical_data) = st).
  { intros df. unfold _ml_anomaly_detection.
    assert (E : match historical_data with
                | Some (r :: rs) =>
                    if is_trained Detector st then st
                    else _train_on_historical_data Detector fit_detector
                           robust_fit series_std Reading
                           pandas_numeric_frame st (r :: rs)
                | _ => st
                end = st).
    { destruct H as [H | [H | H]]; [ | subst; reflexivity .. ].
      rewrite H. destruct historical_data as [ [ | ] | ]; reflexivity. }
    rewrite E.
    destruct df; [ reflexivity | ].
    destruct (robust Detector st) as [scaler | ]; [ | reflexivity ].
    destruct (scaler _); [ | reflexivity ].
    destruct (model_ratios _ _ _ _); reflexivity. }
  destruct historical_data as [ [ | h hs ] | ];
    destruct (is_trained Detector st); try apply Hml; reflexivity.
Qed.

Lemma identified_are_columns (stats : list (string * Baseline))
  (df : DataFrame) :
  incl (_identify_affected_parameters stats df) (columns df).
Proof.
  unfold _identify_affected_parameters.
  destruct stats as [ | b bs ]; [ apply incl_refl | ].
  intros c Hc. apply in_flat_map in Hc. destruct Hc as [[c' cells] [Hin Hc]].
  cbn [fst snd] in Hc.
  destruct (dropna cells); [ destruct Hc | ].
  destruct (departs _ _); [ | destruct Hc ].
  destruct Hc as [<- | []].
  unfold columns. apply in_map_iff. exists (c', cells). auto.
Qed.

Lemma weighted_scores_columns (df : DataFrame) :
  incl (map fst (Spec.weighted_scores df)) (columns df).
Proof.
  unfold Spec.weighted_scores. intros c Hc. apply in_map_iff in Hc.
  destruct Hc as [[c' w] [<- Hin]]. apply in_flat_map in Hin.
  destruct Hin as [[c0 cells] [Hin Hc]]. cbn [fst snd] in *.
  destruct (dropna cells); [ destruct Hc | ].
  destruct Hc as [E | []]. injection E as <- _.
  unfold columns. apply in_map_iff. exists (c0, cells). auto.
Qed.

Lemma statistical_affected_columns (df : DataFrame) :
  incl (affected_parameters (_statistical_anomaly_detection df)) (columns df).
Proof.
  destruct (scan_columns_spec df
              {| anomalies := []; anomaly_scores := []; affected := [] |})
    as [_ Haf].
  cbn [affected app] in Haf.
  unfold _statistical_anomaly_detection. cbn [affected_parameters].
  rewrite Haf. intros c Hc. apply weighted_scores_columns.
  unfold Spec.affected_columns in Hc. apply in_map_iff in Hc.
  destruct Hc as [cw [<- Hin]]. apply filter_In in Hin.
  apply in_map. apply Hin.
Qed.

(** X23.  The affected parameters of a result of [detect_anomalies] are
    columns of the prepared current data, on every path. *)
Theorem affected_parameters_are_columns st current_data historical_data :
  incl
    (affected_parameters
       (fst (detect_anomalies Detector fit_detector outlier_mask robust_fit
               series_std Reading pandas_numeric_frame
               st current_data historical_data)))
    (columns (_prepare_features Reading pandas_numeric_frame current_data)).
Proof.
  unfold detect_anomalies.
  set (df := _prepare_features Reading pandas_numeric_frame current_data).
  assert (Hempty : forall m,
            incl (affected_parameters (_create_empty_result m)) (columns df))
    by (intros m c []).
  assert (Hml : incl
            (affected_parameters
               (fst (_ml_anomaly_detection Detector fit_detector outlier_mask
                       robust_fit series_std Reading pandas_numeric_frame
                       st df historical_data)))
            (columns df)).
  { unfold _ml_anomaly_detection.
    match goal with
    | |- context [robust _ ?s] => generalize s
    end.
    intros st1.
    destruct df as [ | c0 cs ] eqn:Edf; [ apply Hempty | ].
    destruct (robust _ st1) as [scaler | ]; [ | apply Hempty ].
    destruct (scaler _); [ | apply Hempty ].
    destruct (model_ratios _ _ _ _); [ apply Hempty | ].
    cbv zeta. cbn [fst affected_parameters].
    apply identified_are_columns. }
  destruct (empty df); [ apply Hempty | ].
  destruct historical_data as [ [ | h hs ] | ];
    destruct (is_trained _ st);
    try exact Hml; try apply Hempty.
  apply statistical_affected_columns.
Qed.

End AnomalyFlags.

Section FewReadings.
Import Num Frame AnomalyDetector.

Lemma no_flag_among_few (values : list Q) :
  (List.length values <= 2)%nat ->
  count (fun x => z_flag values x || iqr_flag values x) values = O.
Proof.
  intros Hlen.
  pose proof (count_or (z_flag values) (iqr_flag values) values) as Hor.
  pose proof (zflag_count values) as Hz.
  assert (Hi : count (iqr_flag values) values = O).
  { apply count_none. intros x Hx.
    destruct values as [ | a [ | b [ | c t ] ] ].
    - destruct Hx.
    - destruct Hx as [<- | []]. apply iqr_flag_single.
    - apply iqr_flag_pair, Hx.
    - simpl in Hlen. lia. }
  lia.
Qed.

(** X24.  When every column holds two readings at most, the statistical
    path finds nothing: no anomaly, score 0, severity 1, confidence 0 and
    no affected parameter, whatever the values are. *)
Theorem few_readings_never_anomalous (current_data : DataFrame) :
  Forall (fun cs => (List.length (dropna (snd cs)) <= 2)%nat) current_data ->
  let r := _statistical_anomaly_detection current_data in
  is_anomaly r = false /\ anomaly_score r == 0 /\ severity r = 1%Z
  /\ confidence r == 0 /\ affected_parameters r = [].
Proof.
  intros Hfew. cbv zeta.
  assert (Hnone : Spec.affected_columns current_data = []).
  { unfold Spec.affected_columns, Spec.weighted_scores.
    induction Hfew as [ | [c cells] rest Hc _ IH ]; [ reflexivity | ].
    cbn [flat_map fst snd] in *. rewrite filter_app, IH, app_nil_r.
    destruct (dropna cells) as [ | v vs ] eqn:Ev; [ reflexivity | ].
    cbn [filter snd]. unfold Spec.anomalous_fraction.
    rewrite (no_flag_among_few (v :: vs) Hc). reflexivity. }
  destruct (scan_columns_spec current_data
              {| anomalies := []; anomaly_scores := []; affected := [] |})
    as [Han Haf].
  cbn [anomalies affected app] in Han, Haf. rewrite Hnone in Han, Haf.
  unfold _statistical_anomaly_detection.
  cbn [is_anomaly anomaly_score severity confidence affected_parameters].
  rewrite Han, Haf. cbn [map overall_of].
  repeat split; reflexivity.
Qed.

End FewReadings.

Section Recommendations.
Import Num Frame AnomalyDetector.

(** X25.  [_generate_recommendations] returns two to five entries; from
    severity 4 the three urgent ones come first, and below severity 2 with
    nothing affected the two general ones are all there is. *)
Theorem recommendations_form (affected_params : list string) (severity : Z) :
  let r := _generate_recommendations affected_params severity in
  (2 <= List.length r <= 5)%nat
  /\ ((4 <= severity)%Z ->
      firstn 3 r
      = [ "URGENT: Initiate emergency response protocols";
          "Evacuate affected areas if necessary";
          "Contact relevant authorities immediately" ]%string)
  /\ ((severity < 2)%Z -> affected_params = [] ->
      r = [ "Document and report anomaly findings";
            "Review historical data for similar patterns" ]%string).
Proof.
  cbv zeta. unfold _generate_recommendations. cbv zeta.
  set (hints := flat_map parameter_hint (firstn 3 affected_params)).
  split; [ | split ].
  - rewrite length_firstn, !length_app. cbn [List.length].
    destruct (4 <=? severity)%Z; [ cbn [List.length]; lia | ].
    destruct (3 <=? severity)%Z; [ cbn [List.length]; lia | ].
    destruct (2 <=? severity)%Z; cbn [List.length]; lia.
  - intros H. apply Z.leb_le in H. rewrite H. reflexivity.
  - intros H ->.
    assert (E4 : (4 <=? severity)%Z = false) by (apply Z.leb_gt; lia).
    assert (E3 : (3 <=? severity)%Z = false) by (apply Z.leb_gt; lia).
    assert (E2 : (2 <=? severity)%Z = false) by (apply Z.leb_gt; lia).
    rewrite E4, E3, E2. reflexivity.
Qed.

Lemma recommendations_form_witness :
  firstn 3 (_generate_recommendations [ "pm25"; "Wind_Speed" ]%string 5)
  = [ "URGENT: Initiate emergency response protocols";
      "Evacuate affected areas if necessary";
      "Contact relevant authorities immediately" ]%string.
Proof.
  apply (proj1 (proj2 (recommendations_form [ "pm25"; "Wind_Speed" ]%string
                         5))).
  lia.
Defined.

End Recommendations.

Section PackageTables.
Import Num Frame MlPackage.

Lemma lookup_none_not_in {A : Type} (k : string) (d : list (string * A)) :
  lookup k d = None <-> ~ In k (map fst d).
Proof.
  induction d as [ | [k' v] t IH ]; simpl.
  - tauto.
  - destruct (String.eqb k k') eqn:E.
    + apply String.eqb_eq in E. subst. split; [ discriminate | tauto ].
    + apply String.eqb_neq in E. rewrite IH. split.
      * intros H [H1 | H1]; [ congruence | tauto ].
      * tauto.
Qed.

(** X26.  Identifiers and names of threats convert into each other: an
    identifier from 0 to 7 comes back from its name, any other gives 7;
    a name of the table, in any letter case, comes back in lower case, any
    other gives ["anomaly"]. *)
Theorem threat_id_name_round_trip :
  (forall threat_id : Z,
     get_threat_id (get_threat_name threat_id)
     = if ((0 <=? threat_id) && (threat_id <=? 7))%Z then threat_id else 7%Z)
  /\ (forall threat_name : string,
        get_threat_name (get_threat_id threat_name)
        = if existsb (String.eqb (lower threat_name))
               (map snd THREAT_TYPE_MAPPING)
          then lower threat_name else "anomaly"%string).
Proof.
  split.
  - intros threat_id.
    destruct ((0 <=? threat_id) && (threat_id <=? 7))%Z eqn:E.
    + apply andb_true_iff in E. destruct E as [E0 E7].
      apply Z.leb_le in E0, E7.
      assert (H : In threat_id [0; 1; 2; 3; 4; 5; 6; 7]%Z)
        by (simpl; lia).
      simpl in H.
      repeat (destruct H as [<- | H]; [ reflexivity | ]). destruct H.
    + unfold get_threat_name.
      assert (H : zlookup threat_id THREAT_TYPE_MAPPING = None).
      { unfold THREAT_TYPE_MAPPING. cbn [zlookup].
        apply andb_false_iff in E.
        repeat match goal with
        | |- context [(threat_id =? ?k)%Z] =>
            let Ek := fresh "Ek" in
            destruct (threat_id =? k)%Z eqn:Ek;
            [ apply Z.eqb_eq in Ek; subst threat_id; simpl in E;
              destruct E; discriminate | ]
        end. reflexivity. }
      rewrite H. reflexivity.
  - intros threat_name. unfold get_threat_id.
    set (name := lower threat_name). clearbody name.
    destruct (existsb (String.eqb name) (map snd THREAT_TYPE_MAPPING)) eqn:E.
    + apply existsb_exists in E. destruct E as [n [Hin E]].
      apply String.eqb_eq in E. subst n. simpl in Hin.
      repeat (destruct Hin as [<- | Hin]; [ reflexivity | ]). destruct Hin.
    + assert (H : lookup name REVERSE_THREAT_MAPPING = None).
      { apply lookup_none_not_in. intros Hin.
        assert (Ht : existsb (String.eqb name) (map snd THREAT_TYPE_MAPPING)
                     = true).
        { apply existsb_exists. exists name. split; [ | apply String.eqb_refl ].
          unfold REVERSE_THREAT_MAPPING in Hin. rewrite map_map in Hin.
          exact Hin. }
        congruence. }
      rewrite H. reflexivity.
Qed.

(** X27.  A model that passes [validate_model_performance] reports
    accuracy, precision and recall, at 0.80, 0.85 and 0.88 or more (0.90
    for the accuracy of any type but anomaly detection); what passes for
    some model type passes for anomaly detection. *)
Theorem validated_performance (metrics : list (string * Q))
  (model_type : string) :
  validate_model_performance metrics model_type = true ->
  (exists a p r,
     lookup "accuracy" metrics = Some a
     /\ lookup "precision" metrics = Some p
     /\ lookup "recall" metrics = Some r
     /\ 80 # 100 <= a /\ 85 # 100 <= p /\ 88 # 100 <= r
     /\ (model_type <> "anomaly_detection"%string -> 90 # 100 <= a))
  /\ validate_model_performance metrics "anomaly_detection" = true.
Proof.
  unfold validate_model_performance, metric. intros H.
  apply andb_true_iff in H. destruct H as [H Hr].
  apply andb_true_iff in H. destruct H as [Ha Hp].
  apply Qle_bool_iff in Ha, Hp, Hr.
  destruct (lookup "accuracy" metrics) as [a | ];
    [ | exfalso; destruct (String.eqb _ _); revert Ha; vm_compute; tauto ].
  destruct (lookup "precision" metrics) as [p | ];
    [ | exfalso; revert Hp; vm_compute; tauto ].
  destruct (lookup "recall" metrics) as [r | ];
    [ | exfalso; revert Hr; vm_compute; tauto ].
  assert (H80 : 80 # 100 <= a).
  { destruct (String.eqb model_type "anomaly_detection"); [ exact Ha | lra ]. }
  split.
  - exists a, p, r. repeat split; try assumption.
    intros Hne. apply String.eqb_neq in Hne. rewrite Hne in Ha. exact Ha.
  - cbn [String.eqb Ascii.eqb Bool.eqb andb].
    apply andb_true_iff. split; [ apply andb_true_iff; split | ];
      apply Qle_bool_iff; assumption.
Qed.

Lemma validated_performance_witness :
  validate_model_performance
    [ ("accuracy"%string, 85 # 100); ("precision"%string, 90 # 100);
      ("recall"%string, 90 # 100) ] "anomaly_detection" = true
  /\ exists a,
       lookup "accuracy"
         [ ("accuracy"%string, 85 # 100); ("precision"%string, 90 # 100);
           ("recall"%string, 90 # 100) ] = Some a
       /\ 80 # 100 <= a.
Proof.
  assert (H : validate_model_performance
                [ ("accuracy"%string, 85 # 100);
                  ("precision"%string, 90 # 100);
                  ("recall"%string, 90 # 100) ] "anomaly_detection" = true)
    by reflexivity.
  split; [ exact H | ].
  destruct (validated_performance _ _ H) as [[a [p [r Hm]]] _].
  exists a. split; apply Hm.
Defined.

End PackageTables.

(* ================================================================== *)
(** * The further properties at sample inputs                          *)
(* ================================================================== *)

Section FurtherWitnesses.
Import Num Frame.

Lemma standardized_name_form_witness :
  exists c t,
    list_ascii_of_string
      (DataPreprocessor._standardize_column_name " Air-Temp. ") = c :: t
    /\ c <> "_"%char.
Proof.
  exists "a"%char, (list_ascii_of_string "ir_temp").
  assert (E : list_ascii_of_string
                (DataPreprocessor._standardize_column_name " Air-Temp. ")
              = "a"%char :: list_ascii_of_string "ir_temp")
    by reflexivity.
  split; [ exact E | ].
  exact (proj1 (proj2 (standardized_name_form " Air-Temp. ")) _ _ E).
Defined.


Lemma outliers_stay_in_span_witness :
  Shape.within Cases.spike_column 4.
Proof.
  pose proof (outliers_stay_in_span Cases.spike_frame) as H.
  cbv zeta in H. destruct H as [_ H].
  unfold DataPreprocessor._handle_outliers, Cases.spike_frame in H.
  cbn [map fst snd] in H.
  apply Forall2_cons_iff in H. destruct H as [[_ Hin] _].
  cbn [snd] in Hin. apply Hin. vm_compute. right. left. reflexivity.
Defined.

Lemma aqi_hazardous_iff_witness :
  DataPreprocessor.pm25_to_aqi (1205 # 100) = 500%Z.
Proof.
  apply (proj1 (aqi_hazardous_iff (1205 # 100))).
  intros lo hi alo ahi Hin [H1 H2].
  unfold DataPreprocessor.pm25_breakpoints in Hin. cbn [In] in Hin.
  destruct Hin as [E | [E | [E | [E | [E | [E | []]]]]]];
    injection E as <- <- <- <-;
    first [ apply H1; reflexivity | apply H2; reflexivity ].
Defined.

Lemma time_series_examples_shape_witness :
  nth 0 (snd Cases.ramp_examples) 0 = nth (0 + 20 + 4) Scenario.ramp 0.
Proof.
  pose proof (time_series_examples_shape Scenario.zero_deviation
                Scenario.ramp 4) as H.
  cbv zeta in H. destruct H as [_ [Hlen [_ [_ H]]]].
  apply (H 0%nat). rewrite Hlen. vm_compute. lia.
Defined.

Lemma anomaly_flags_consistent_witness :
  AnomalyDetector.is_anomaly (fst Cases.dust_run) = true
  /\ 3 # 10 <= AnomalyDetector.confidence (fst Cases.dust_run).
Proof.
  assert (H : AnomalyDetector.is_anomaly (fst Cases.dust_run) = true)
    by (vm_compute; reflexivity).
  split; [ exact H | ].
  exact (proj1 (proj2
           (anomaly_flags_consistent (fun _ d _ => (d, true))
              (fun _ _ _ => None) (fun _ => None) Scenario.zero_deviation
              Cases.as_frame Cases.idle_detector Cases.dust_frame None)) H).
Defined.

Lemma detector_left_unchanged_witness :
  snd Cases.dust_run = Cases.idle_detector.
Proof.
  apply (detector_left_unchanged (fun _ d _ => (d, true))
           (fun _ _ _ => None) (fun _ => None) Scenario.zero_deviation
           Cases.as_frame Cases.idle_detector Cases.dust_frame None).
  right. left. reflexivity.
Defined.

Lemma few_readings_never_anomalous_witness :
  AnomalyDetector.is_anomaly
    (AnomalyDetector._statistical_anomaly_detection Cases.single_reading)
  = false.
Proof.
  apply (few_readings_never_anomalous Cases.single_reading).
  repeat constructor.
Defined.

End FurtherWitnesses.
